(** * GitHub Classroom to Supabase synchronisation: a shallow embedding

    The development follows [src/b4os-backend/src/lib/classroom_sync.py]
    (class [ClassroomSupabaseSync]).  The first part embeds the functions
    the properties are about; the second part states and proves them.

    Conventions of the embedding:
    - a Python [str] is a [string]; a character is a code point below 256,
      and [str.lower], [str.strip] and the regular-expression class [\s]
      have their Python 3 meaning on that range;
    - Python [int] is [Z]; a nullable column is an [option];
    - Python [float] arithmetic ([/], [*], [sum], [round]) has two
      models: exact rationals [Q], for the properties that do not depend
      on the rounding of the operations, and IEEE 754 binary64 floats
      (module [PyFloat]), for the value of the percentage; [round] is
      round-half-to-even in both;
    - a raised exception is the [Raise] case of [result];
    - a [dict] is a [gmap]; rows of a table or of a DataFrame are a list
      of records, in row order;
    - the outside world (the Supabase tables, the [gh] command) is an
      explicit argument: a state that is passed along, or the outcome of
      the call. *)

From Stdlib Require Import ZArith QArith Qround Lia Lqa List Bool Ascii String.
From Stdlib Require Import Floats.SpecFloat.
From Stdlib Require Import Sorting.Sorted Sorting.Permutation.
From stdpp Require Import base option gmap strings.
Import ListNotations.

Local Open Scope Z_scope.

(* ===================================================================== *)
(** * Part I. The embedding                                               *)
(* ===================================================================== *)

(** ** Exceptions *)

(** [APIError] and [OtherException] are what the Supabase client raises:
    the two [except] arms of the retry loops tell [APIError] from any
    other [Exception].  [SupabaseSyncError] keeps the exception it was
    raised for. *)
Inductive exn : Type :=
| DataValidationError (msg : string)
| ZeroDivisionError
| APIError (msg : string)
| OtherException (msg : string)
| SupabaseSyncError (msg : string) (cause : exn).

Inductive result (A : Type) : Type :=
| Ok (a : A)
| Raise (e : exn).
Arguments Ok {A} a.
Arguments Raise {A} e.

#[global] Instance result_ret : MRet result := @Ok.

#[global] Instance result_bind : MBind result := fun A B k r =>
  match r with
  | Ok a => k a
  | Raise e => Raise e
  end.

(** ** Python strings *)

Module PyStr.

Definition code (c : ascii) : N := N_of_ascii c.

Definition in_range (lo hi : N) (c : ascii) : bool :=
  ((lo <=? code c) && (code c <=? hi))%N.

(** [str.isspace] and the class [\s] of a [str] pattern. *)
Definition isspace (c : ascii) : bool :=
  in_range 9 13 c || in_range 28 32 c
  || (code c =? 133)%N || (code c =? 160)%N.

Definition isupper (c : ascii) : bool :=
  in_range 65 90 c || in_range 192 214 c || in_range 216 222 c.

Definition lower_char (c : ascii) : ascii :=
  if isupper c then ascii_of_N (code c + 32) else c.

(** [s.lower()] *)
Definition lower (s : list ascii) : list ascii := List.map lower_char s.

Definition is_hyphen (c : ascii) : bool := (code c =? 45)%N.
Definition is_az (c : ascii) : bool := in_range 97 122 c.
Definition is_digit (c : ascii) : bool := in_range 48 57 c.

(** [re.sub(p+, '-', s)] for a character class [p]: every maximal run
    of characters of the class becomes one hyphen.  [in_run] tells that
    the previous character was of the class. *)
Fixpoint re_sub_runs (p : ascii -> bool) (in_run : bool) (s : list ascii)
  : list ascii :=
  match s with
  | [] => []
  | c :: r =>
      if p c then
        if in_run then re_sub_runs p true r
        else "-"%char :: re_sub_runs p true r
      else c :: re_sub_runs p false r
  end.

Fixpoint lstrip (p : ascii -> bool) (s : list ascii) : list ascii :=
  match s with
  | [] => []
  | c :: r => if p c then lstrip p r else s
  end.

Fixpoint rstrip (p : ascii -> bool) (s : list ascii) : list ascii :=
  match s with
  | [] => []
  | c :: r =>
      match rstrip p r with
      | [] => if p c then [] else [c]
      | r' => c :: r'
      end
  end.

(** [s.strip(chars)] with [p] the membership test of [chars];
    [s.strip()] is [strip isspace]. *)
Definition strip (p : ascii -> bool) (s : list ascii) : list ascii :=
  rstrip p (lstrip p s).

(** [s.split(sep)] for a one-character separator: never the empty
    list, [''.split(sep) == ['']]. *)
Fixpoint split (sep : ascii) (s : list ascii) : list (list ascii) :=
  match s with
  | [] => [[]]
  | c :: r =>
      if Ascii.eqb c sep then [] :: split sep r
      else match split sep r with
           | [] => [[c]]
           | w :: ws => (c :: w) :: ws
           end
  end.

Fixpoint startswith (p s : list ascii) : bool :=
  match p, s with
  | [], _ => true
  | _ :: _, [] => false
  | a :: p', b :: s' => Ascii.eqb a b && startswith p' s'
  end.

(** [p in s] *)
Fixpoint contains (p s : list ascii) : bool :=
  startswith p s ||
  match s with
  | [] => false
  | _ :: r => contains p r
  end.

(** [s.replace(c, by)] for a one-character [c]. *)
Definition replace_char (c : ascii) (by_ : list ascii) (s : list ascii)
  : list ascii :=
  flat_map (fun x => if Ascii.eqb x c then by_ else [x]) s.

Definition chars (s : string) : list ascii := list_ascii_of_string s.
Definition str (l : list ascii) : string := string_of_list_ascii l.

End PyStr.

(** ** Name normalizer: [format_assignment_name] *)

(** The class [[a-z0-9\s-]]; [re.sub(r'[^a-z0-9\s-]', '', s)] keeps
    exactly its members. *)
Definition keep_char (c : ascii) : bool :=
  PyStr.is_az c || PyStr.is_digit c || PyStr.isspace c || PyStr.is_hyphen c.

Definition format_chars (name : list ascii) : list ascii :=
  let formatted := PyStr.lower name in
  let formatted := List.filter keep_char formatted in
  let formatted := PyStr.re_sub_runs PyStr.isspace false formatted in
  let formatted := PyStr.re_sub_runs PyStr.is_hyphen false formatted in
  PyStr.strip PyStr.is_hyphen formatted.

Definition format_assignment_name (name : string) : result string :=
  match name with
  | EmptyString =>
      Raise (DataValidationError "Assignment name must be a non-empty string")
  | _ => Ok (PyStr.str (format_chars (PyStr.chars name)))
  end.

(** ** Assignment listing: [_parse_assignments_list] *)

Definition nonblank (line : list ascii) : bool :=
  match PyStr.strip PyStr.isspace line with
  | [] => false
  | _ => true
  end.

(** One iteration of the loop over [lines[3:]]: the tuple of a line, or
    nothing when the line is skipped. *)
Definition parse_assignment_line (line : list ascii)
  : option (string * string * string) :=
  if nonblank line then
    let parts := PyStr.split "009"%char line in
    if (7 <=? length parts)%nat then
      match parts with
      | p0 :: p1 :: _ :: _ :: _ :: _ :: p6 :: _ =>
          Some (PyStr.str p0, PyStr.str p1, PyStr.str p6)
      | _ => None
      end
    else None
  else None.

Definition _parse_assignments_list (output : string)
  : result (list (string * string * string)) :=
  let lines := PyStr.split "010"%char (PyStr.strip PyStr.isspace (PyStr.chars output)) in
  if (length lines <? 4)%nat then
    Raise (DataValidationError "Invalid assignments list format")
  else
    Ok (omap parse_assignment_line (skipn 3 lines)).

(** ** Python numbers *)

(** [o] used as a condition, for a nullable integer: [None] and [0] are
    false. *)
Definition truthy (o : option Z) : bool :=
  match o with
  | Some z => negb (z =? 0)
  | None => false
  end.

(** [a / b] on floats; the divisor zero raises. *)
Definition py_div (a b : Q) : result Q :=
  if Qeq_bool b 0 then Raise ZeroDivisionError else Ok (a / b)%Q.

(** [int(x)] of a float: truncation toward zero. *)
Definition py_int (q : Q) : Z := Z.quot (Qnum q) (Zpos (Qden q)).

(** [round(x)] of a float: to the nearest integer, a tie to the even
    one. *)
Definition py_round (q : Q) : Z :=
  let f := Qfloor q in
  match Qcompare (q - inject_Z f) (1 # 2) with
  | Lt => f
  | Gt => f + 1
  | Eq => if Z.even f then f else f + 1
  end.

(** [sum(xs)]: from 0, left to right. *)
Definition py_sum (xs : list Q) : Q := fold_left Qplus xs 0%Q.

Definition sum_Z (xs : list Z) : Z := fold_left Z.add xs 0.

Fixpoint mapM {A B : Type} (f : A -> result B) (l : list A) : result (list B) :=
  match l with
  | [] => Ok []
  | a :: l' => b ← f a; bs ← mapM f l'; Ok (b :: bs)
  end.

(** ** Points-available inference ([process_assignments_in_memory]) *)

(** [df['points_available'].max()]: the largest value that is not NaN,
    NaN ([None]) when there is none. *)
Definition series_max (col : list (option Z)) : option Z :=
  fold_left (fun acc x =>
               match x, acc with
               | Some v, Some m => Some (Z.max m v)
               | Some v, None => Some v
               | None, _ => acc
               end) col None.

(** [df[df['points_available'] > 0]['points_available']] *)
Definition non_zero_points (col : list (option Z)) : list Z :=
  omap (fun x => match x with
                 | Some v => if 0 <? v then Some v else None
                 | None => None
                 end) col.

(** The value stored under ['points_available'] in [assignment_info].
    [col] is the column of the grade export, [None] when the DataFrame
    has no such column. *)
Definition resolve_points_available
  (col : option (list (option Z))) (formatted_name : string) : option Z :=
  match col with
  | Some col =>
      let points_available := series_max col in
      if match points_available with
         | Some m => m =? 0
         | None => true
         end
      then
        match non_zero_points col with
        | v :: _ => Some v
        | [] =>
            if PyStr.contains (PyStr.chars "part-2")
                 (PyStr.lower (PyStr.chars formatted_name))
            then Some 100
            else None
        end
      else points_available
  | None => None
  end.

(** ** Timestamps *)

(** A parsed [datetime]: whether it carries a UTC offset, and its
    position on the time line in microseconds (in UTC when [aware]). *)
Record datetime : Type := {
  aware : bool;
  micros : Z
}.

(** [updated - created]: a naive and an aware datetime do not subtract
    (TypeError). *)
Definition datetime_sub (updated created : datetime) : option Z :=
  if Bool.eqb (aware updated) (aware created)
  then Some (micros updated - micros created)
  else None.

(** [timedelta.total_seconds()] *)
Definition total_seconds (delta_micros : Z) : Q :=
  (inject_Z delta_micros / inject_Z 1000000)%Q.

(** A timestamp used as a condition: [None] and [''] are false. *)
Definition present (ts : option string) : bool :=
  match ts with
  | Some EmptyString => false
  | Some _ => true
  | None => false
  end.

Definition replace_Z (s : string) : string :=
  PyStr.str (PyStr.replace_char "Z"%char (PyStr.chars "+00:00") (PyStr.chars s)).

Section ResolutionTime.

(** [datetime.datetime.fromisoformat], [None] when it raises
    ValueError. *)
Variable fromisoformat : string -> option datetime.

(** Every exception of the body is caught and gives [None]. *)
Definition calculate_resolution_time (created_at updated_at : option string)
  : option Z :=
  if negb (present created_at) || negb (present updated_at) then None
  else
    match created_at, updated_at with
    | Some c, Some u =>
        created ← fromisoformat (replace_Z c);
        updated ← fromisoformat (replace_Z u);
        time_diff ← datetime_sub updated created;
        Some (py_int (total_seconds time_diff / inject_Z 3600))
    | _, _ => None
    end.

End ResolutionTime.

(** The layout of the timestamps of the GitHub API and of Supabase:
    [YYYY-MM-DDTHH:MM:SS], alone or followed by [+HH:MM] or [-HH:MM].
    This is the part of [fromisoformat] that the examples run on. *)
Module Iso.

Definition digit (c : ascii) : option Z :=
  if PyStr.is_digit c then Some (Z.of_N (PyStr.code c) - 48) else None.

Fixpoint number (acc : Z) (s : list ascii) : option Z :=
  match s with
  | [] => Some acc
  | c :: r => d ← digit c; number (10 * acc + d) r
  end.

Definition is_leap (y : Z) : bool :=
  ((y mod 4 =? 0) && negb (y mod 100 =? 0)) || (y mod 400 =? 0).

Definition days_in_month (y m : Z) : Z :=
  if m =? 2 then (if is_leap y then 29 else 28)
  else if (m =? 4) || (m =? 6) || (m =? 9) || (m =? 11) then 30 else 31.

(** Days from 1970-01-01 to the civil date. *)
Definition days_from_civil (y m d : Z) : Z :=
  let y' := if m <=? 2 then y - 1 else y in
  let era := y' / 400 in
  let yoe := y' - era * 400 in
  let mp := if 2 <? m then m - 3 else m + 9 in
  let doy := (153 * mp + 2) / 5 + d - 1 in
  let doe := yoe * 365 + yoe / 4 - yoe / 100 + doy in
  era * 146097 + doe - 719468.

Definition offset (s : list ascii) : option (option Z) :=
  match s with
  | [] => Some None
  | [sg; h1; h2; colon; m1; m2] =>
      if negb (Ascii.eqb colon ":"%char) then None
      else
        h ← number 0 [h1; h2];
        m ← number 0 [m1; m2];
        if negb ((h <? 24) && (m <? 60)) then None
        else if Ascii.eqb sg "+"%char then Some (Some (h * 3600 + m * 60))
        else if Ascii.eqb sg "-"%char then Some (Some (- (h * 3600 + m * 60)))
        else None
  | _ => None
  end.

Definition fromisoformat (s : string) : option datetime :=
  match PyStr.chars s with
  | y1 :: y2 :: y3 :: y4 :: d1 :: mo1 :: mo2 :: d2 :: da1 :: da2 :: t ::
    h1 :: h2 :: c1 :: mi1 :: mi2 :: c2 :: s1 :: s2 :: rest =>
      if negb (Ascii.eqb d1 "-"%char && Ascii.eqb d2 "-"%char
               && (Ascii.eqb t "T"%char || Ascii.eqb t " "%char)
               && Ascii.eqb c1 ":"%char && Ascii.eqb c2 ":"%char)
      then None
      else
        y ← number 0 [y1; y2; y3; y4];
        mo ← number 0 [mo1; mo2];
        da ← number 0 [da1; da2];
        h ← number 0 [h1; h2];
        mi ← number 0 [mi1; mi2];
        se ← number 0 [s1; s2];
        off ← offset rest;
        if negb ((1 <=? y) && (1 <=? mo) && (mo <=? 12) && (1 <=? da)
                 && (da <=? days_in_month y mo)
                 && (h <? 24) && (mi <? 60) && (se <? 60))
        then None
        else
          let local := days_from_civil y mo da * 86400 + h * 3600 + mi * 60 + se in
          Some {| aware := match off with Some _ => true | None => false end;
                  micros := (local - default 0 off) * 1000000 |}
  | _ => None
  end.

End Iso.

(** ** Leaderboard ranker: [refresh_admin_leaderboard] *)

(** Rows as the three [select] calls return them. *)
Record student_row : Type := {
  st_github_username : string;
  st_fork_created_at : option string;
  st_last_updated_at : option string;
  st_has_fork : option bool
}.

Record grade_row : Type := {
  g_github_username : string;
  g_assignment_name : string;
  g_points_awarded : option Z;
  g_fork_created_at : option string
}.

Record assignment_row : Type := {
  a_name : string;
  a_points_available : option Z
}.

Record snapshot : Type := {
  zzz_students : list student_row;
  zzz_grades : list grade_row;
  zzz_assignments : list assignment_row
}.

Record leaderboard_entry : Type := {
  github_username : string;
  fork_created_at : option string;
  last_updated_at : option string;
  resolution_time_hours : option Z;
  has_fork : option bool;
  total_score : Z;
  total_possible : Z;
  percentage : Z;
  assignments_completed : Z;
  ranking_position : option Z
}.

(** [max(xs, default=d)] *)
Definition py_max (d : Z) (xs : list Z) : Z :=
  match xs with
  | [] => d
  | x :: r => fold_left Z.max r x
  end.

(** [{a['name']: a['points_available'] for a in ... if a['points_available']}] *)
Definition configured_points (rows : list assignment_row) : gmap string Z :=
  fold_left (fun m a =>
               if truthy (a_points_available a)
               then <[a_name a := default 0 (a_points_available a)]> m
               else m)
            rows ∅.

Definition max_points_awarded (gs : list grade_row) (assignment_name : string) : Z :=
  py_max 0
    (List.map (fun g => if truthy (g_points_awarded g)
                        then default 0 (g_points_awarded g) else 0)
       (List.filter (fun g => String.eqb (g_assignment_name g) assignment_name
                              && truthy (g_points_awarded g)) gs)).

(** The body of the loop over the assignment names of the grades. *)
Definition fill_missing_points (gs : list grade_row)
  (assignment_points : gmap string Z) (assignment_name : string)
  : gmap string Z :=
  if match assignment_points !! assignment_name with
     | None => true
     | Some p => p =? 0
     end
  then
    let max_points := max_points_awarded gs assignment_name in
    if 0 <? max_points
    then <[assignment_name := max_points]> assignment_points
    else assignment_points
  else assignment_points.

Definition graded_names (gs : list grade_row) : gset string :=
  list_to_set (List.map g_assignment_name gs).

(** The dictionary [assignment_points] once the loop has run: the
    resolved points available of every assignment that has some. *)
Definition assignment_points (db : snapshot) : gmap string Z :=
  fold_left (fill_missing_points (zzz_grades db))
    (elements (graded_names (zzz_grades db)))
    (configured_points (zzz_assignments db)).

Definition total_system_assignments (db : snapshot) : Z :=
  match zzz_assignments db with
  | [] => 1
  | rows => Z.of_nat (length rows)
  end.

Definition student_grades (db : snapshot) (username : string) : list grade_row :=
  List.filter (fun g => String.eqb (g_github_username g) username) (zzz_grades db).

Definition counted (ap : gmap string Z) (grade : grade_row) : bool :=
  truthy (g_points_awarded grade)
  && (0 <? default 0 (ap !! g_assignment_name grade)).

Definition progress_of_grade (ap : gmap string Z) (grade : grade_row) : result Q :=
  q ← py_div (inject_Z (default 0 (g_points_awarded grade)))
             (inject_Z (default 1 (ap !! g_assignment_name grade)));
  Ok (q * inject_Z 100)%Q.

Definition sum_of_progresss (ap : gmap string Z) (gs : list grade_row) : result Q :=
  terms ← mapM (progress_of_grade ap) (List.filter (counted ap) gs);
  Ok (py_sum terms).

Definition progress (db : snapshot) (username : string) : result Z :=
  s ← sum_of_progresss (assignment_points db) (student_grades db username);
  q ← py_div s (inject_Z (total_system_assignments db));
  Ok (py_round q).

(** *** The percentage on floats

    The three definitions above carry the computation on exact
    rationals; they serve the properties that do not depend on how the
    float operations round.  Here is the same computation as the
    interpreter runs it: a Python [float] is an IEEE 754 binary64
    number, every operation rounds to the nearest float, a tie to the
    even one, and the operations raise as Python's do. *)
Module PyFloat.

Definition float : Type := spec_float.

Definition prec : Z := 53.
Definition emax : Z := 1024.

Definition add : float -> float -> float := SFadd prec emax.
Definition mul : float -> float -> float := SFmul prec emax.
Definition div : float -> float -> float := SFdiv prec emax.

(** The conversion of an [int] operand: the nearest float. *)
Definition of_int (z : Z) : result float :=
  match binary_normalize prec emax z 0 false with
  | S754_infinity _ =>
      Raise (OtherException "OverflowError: int too large to convert to float")
  | x => Ok x
  end.

(** An integer as the ratio [m * 2 ^ 0], whatever its size. *)
Definition exact (z : Z) : float :=
  match z with
  | Z0 => S754_zero false
  | Zpos m => S754_finite false m 0
  | Zneg m => S754_finite true m 0
  end.

(** [a / b] of two [int]: the float nearest to the quotient. *)
Definition int_truediv (a b : Z) : result float :=
  if b =? 0 then Raise ZeroDivisionError
  else
    match div (exact a) (exact b) with
    | S754_infinity _ =>
        Raise (OtherException
                 "OverflowError: integer division result too large for a float")
    | q => Ok q
    end.

(** [x * k] of a [float] and an [int]. *)
Definition mul_int (x : float) (k : Z) : result float :=
  y ← of_int k;
  Ok (mul x y).

(** [x / n] of a [float] and an [int]. *)
Definition div_int (x : float) (n : Z) : result float :=
  y ← of_int n;
  match y with
  | S754_zero _ => Raise ZeroDivisionError
  | _ => Ok (div x y)
  end.

(** [round(x)]: the nearest integer, a tie to the even one. *)
Definition round (x : float) : result Z :=
  match x with
  | S754_zero _ => Ok 0
  | S754_finite s m e =>
      let v :=
        match e with
        | Zneg k =>
            let d := 2 ^ Zpos k in
            let q := Zpos m / d in
            match 2 * (Zpos m mod d) ?= d with
            | Lt => q
            | Gt => q + 1
            | Eq => if Z.even q then q else q + 1
            end
        | _ => Zpos m * 2 ^ e
        end in
      Ok (if s then - v else v)
  | S754_infinity _ =>
      Raise (OtherException "OverflowError: cannot convert float infinity to integer")
  | S754_nan =>
      Raise (OtherException "ValueError: cannot convert float NaN to integer")
  end.

(** What [sum] returns: the [int] 0 it starts from when there is no
    item, else a [float]. *)
Inductive number : Type :=
| Int (z : Z)
| Float (x : float).

(** [sum] of floats: from the [int] 0, left to right, every addition
    rounded.  (CPython 3.12 and later keep a compensation term beside
    the running total; this is the plain accumulation of the language
    reference.) *)
Definition sum (xs : list float) : number :=
  match xs with
  | [] => Int 0
  | _ => Float (fold_left add xs (S754_zero false))
  end.

(** [s / n] for what [sum] returned and an [int]. *)
Definition truediv (s : number) (n : Z) : result float :=
  match s with
  | Int a => int_truediv a n
  | Float x => div_int x n
  end.

Definition progress_of_grade (ap : gmap string Z) (grade : grade_row)
  : result float :=
  q ← int_truediv (default 0 (g_points_awarded grade))
                  (default 1 (ap !! g_assignment_name grade));
  mul_int q 100.

Definition sum_of_progresss (ap : gmap string Z) (gs : list grade_row)
  : result number :=
  terms ← mapM (progress_of_grade ap) (List.filter (counted ap) gs);
  Ok (sum terms).

Definition progress (db : snapshot) (username : string) : result Z :=
  s ← sum_of_progresss (assignment_points db) (student_grades db username);
  q ← truediv s (total_system_assignments db);
  round q.

End PyFloat.

Definition sort_key (x : leaderboard_entry) : Z * Z * string :=
  (default 999999 (resolution_time_hours x), - percentage x, github_username x).

(** Comparison of two key tuples: the first component that differs
    decides. *)
Definition key_compare (k1 k2 : Z * Z * string) : comparison :=
  match k1, k2 with
  | (t1, p1, u1), (t2, p2, u2) =>
      match t1 ?= t2 with
      | Eq => match p1 ?= p2 with
              | Eq => String.compare u1 u2
              | c => c
              end
      | c => c
      end
  end.

Definition key_leb (k1 k2 : Z * Z * string) : bool :=
  match key_compare k1 k2 with
  | Gt => false
  | _ => true
  end.

(** [list.sort(key=...)] is stable: of two entries with equal keys the
    one that was first stays first. *)
Fixpoint insert_by_key (x : leaderboard_entry) (l : list leaderboard_entry)
  : list leaderboard_entry :=
  match l with
  | [] => [x]
  | y :: l' =>
      if key_leb (sort_key x) (sort_key y) then x :: l
      else y :: insert_by_key x l'
  end.

Definition sort_by_key (l : list leaderboard_entry) : list leaderboard_entry :=
  fold_right insert_by_key [] l.

Definition set_ranking_position (i : Z) (x : leaderboard_entry) : leaderboard_entry :=
  {| github_username := github_username x;
     fork_created_at := fork_created_at x;
     last_updated_at := last_updated_at x;
     resolution_time_hours := resolution_time_hours x;
     has_fork := has_fork x;
     total_score := total_score x;
     total_possible := total_possible x;
     percentage := percentage x;
     assignments_completed := assignments_completed x;
     ranking_position := Some i |}.

(** [for i, student in enumerate(leaderboard_data, i0)] *)
Fixpoint assign_positions (i0 : Z) (l : list leaderboard_entry)
  : list leaderboard_entry :=
  match l with
  | [] => []
  | x :: l' => set_ranking_position i0 x :: assign_positions (i0 + 1) l'
  end.

Definition rank (l : list leaderboard_entry) : list leaderboard_entry :=
  assign_positions 1 (sort_by_key l).

Section Leaderboard.

Variable fromisoformat : string -> option datetime.

Definition student_resolution_time (student : student_row) : option Z :=
  match st_has_fork student with
  | Some true =>
      calculate_resolution_time fromisoformat
        (st_fork_created_at student) (st_last_updated_at student)
  | _ => None
  end.

Definition leaderboard_entry_of (db : snapshot) (student : student_row)
  : result leaderboard_entry :=
  let username := st_github_username student in
  let grades := student_grades db username in
  let ap := assignment_points db in
  progress ← progress db username;
  Ok {| github_username := username;
        fork_created_at := st_fork_created_at student;
        last_updated_at := st_last_updated_at student;
        resolution_time_hours := student_resolution_time student;
        has_fork := st_has_fork student;
        total_score :=
          sum_Z (List.map (fun g => default 0 (g_points_awarded g))
                   (List.filter (fun g => truthy (g_points_awarded g)) grades));
        total_possible :=
          sum_Z (List.map (fun g => default 0 (ap !! g_assignment_name g)) grades);
        percentage := progress;
        assignments_completed := Z.of_nat (size (graded_names grades));
        ranking_position := None |}.

(** [leaderboard_data] before the sort. *)
Definition leaderboard_data (db : snapshot) : result (list leaderboard_entry) :=
  mapM (leaderboard_entry_of db) (zzz_students db).

(** [leaderboard_data] as it is written to the table. *)
Definition ranked_leaderboard (db : snapshot) : result (list leaderboard_entry) :=
  data ← leaderboard_data db;
  Ok (rank data).

End Leaderboard.

(** *** The leaderboard table *)

(** [zzz_admin_leaderboard], one row per [github_username] (the column
    of [on_conflict]).  Row ids are generated and never the nil UUID, so
    the filter of the [delete] matches every row. *)
Abbreviation leaderboard_table := (gmap string leaderboard_entry).

(** Which requests the store refuses (row-level security, transport):
    the three calls raise when their entry here says so. *)
Record store_outcomes : Type := {
  delete_raises : bool;
  insert_raises : list leaderboard_entry -> bool;
  upsert_raises : leaderboard_entry -> bool
}.

Definition table_delete (o : store_outcomes) (t : leaderboard_table)
  : option leaderboard_table :=
  if delete_raises o then None else Some ∅.

Definition put_row (t : leaderboard_table) (x : leaderboard_entry)
  : leaderboard_table :=
  <[github_username x := x]> t.

(** [insert(batch)]: all rows or none; a row whose username is already
    stored, or twice in the batch, violates the unique constraint. *)
Fixpoint insert_rows (batch : list leaderboard_entry) (t : leaderboard_table)
  : option leaderboard_table :=
  match batch with
  | [] => Some t
  | x :: batch' =>
      match t !! github_username x with
      | Some _ => None
      | None => insert_rows batch' (put_row t x)
      end
  end.

Definition table_insert (o : store_outcomes) (batch : list leaderboard_entry)
  (t : leaderboard_table) : option leaderboard_table :=
  if insert_raises o batch then None else insert_rows batch t.

Definition table_upsert (o : store_outcomes) (x : leaderboard_entry)
  (t : leaderboard_table) : option leaderboard_table :=
  if upsert_raises o x then None else Some (put_row t x).

(** [data[i:i + batch_size] for i in range(0, len(data), batch_size)] *)
Fixpoint batches_aux {A : Type} (fuel : nat) (batch_size : nat) (l : list A)
  : list (list A) :=
  match fuel with
  | O => []
  | S fuel' =>
      match l with
      | [] => []
      | _ => firstn batch_size l
             :: batches_aux fuel' batch_size (skipn batch_size l)
      end
  end.

Definition batches {A : Type} (batch_size : nat) (l : list A) : list (list A) :=
  batches_aux (length l) batch_size l.

(** One batch: the insert, and on its failure one upsert per row, a
    failed upsert being logged and skipped. *)
Definition write_batch (o : store_outcomes) (t : leaderboard_table)
  (batch : list leaderboard_entry) : leaderboard_table :=
  match table_insert o batch t with
  | Some t' => t'
  | None =>
      fold_left (fun t student => default t (table_upsert o student t)) batch t
  end.

Section Refresh.

Variable fromisoformat : string -> option datetime.

Definition refresh_admin_leaderboard (o : store_outcomes) (db : snapshot)
  (t : leaderboard_table) : leaderboard_table * result unit :=
  match zzz_students db with
  | [] => (t, Ok tt)
  | _ =>
      match ranked_leaderboard fromisoformat db with
      | Raise e =>
          (t, Raise (SupabaseSyncError "Failed to refresh admin leaderboard" e))
      | Ok data =>
          let t := default t (table_delete o t) in
          (fold_left (write_batch o) (batches 10 data) t, Ok tt)
      end
  end.

End Refresh.

(** ** Record reconciler: the row loop of [process_assignments_in_memory] *)

(** A cell of the grade export as [row.get] gives it: text, or NaN for an
    empty field. *)
Inductive cell : Type :=
| Text (s : string)
| NaN.

(** A cell used as a condition: only [''] is false (NaN is a non-zero
    float). *)
Definition cell_truthy (c : cell) : bool :=
  match c with
  | Text EmptyString => false
  | _ => true
  end.

(** A row of the grade export.  [student_repository_url] is [None] when
    the export has no such column. *)
Record csv_row : Type := {
  csv_github_username : string;
  csv_points_awarded : option Z;
  csv_points_available : option Z;
  csv_student_repository_url : option cell
}.

(** What [get_repository_info] returns on success. *)
Record repo_info : Type := {
  created_at : option string;
  updated_at : option string;
  is_fork : bool
}.

(** What [get_workflow_runs] returns on success. *)
Record workflow_info : Type := {
  wf_total_attempts : Z;
  wf_successful_attempts : Z;
  wf_failed_attempts : Z;
  wf_first_attempt_at : option string;
  wf_last_attempt_at : option string
}.

Record student_aggregate : Type := {
  sa_github_username : string;
  sa_fork_created_at : option string;
  sa_last_updated_at : option string;
  sa_resolution_time_hours : option Z;
  sa_has_fork : bool
}.

Record attempt_record : Type := {
  at_github_username : string;
  at_assignment_name : string;
  at_repo_url : cell;
  at_total_attempts : Z;
  at_successful_attempts : Z;
  at_failed_attempts : Z;
  at_first_attempt_at : option string;
  at_last_attempt_at : option string;
  at_fork_created_at : option string;
  at_fork_updated_at : option string
}.

(** The accumulators of one run. *)
Record reconciler : Type := {
  students_with_repo_info : gmap string student_aggregate;
  assignment_fork_dates : gmap (string * string) (option string);
  assignment_fork_updated : gmap (string * string) (option string);
  assignment_attempts : list attempt_record;
  assignment_info : list (string * option Z)
}.

Definition empty_reconciler : reconciler :=
  {| students_with_repo_info := ∅;
     assignment_fork_dates := ∅;
     assignment_fork_updated := ∅;
     assignment_attempts := [];
     assignment_info := [] |}.

(** [if github_username not in students_with_repo_info: ... = record] *)
Definition add_student_if_absent (record : student_aggregate) (r : reconciler)
  : reconciler :=
  match students_with_repo_info r !! sa_github_username record with
  | Some _ => r
  | None =>
      {| students_with_repo_info :=
           <[sa_github_username record := record]> (students_with_repo_info r);
         assignment_fork_dates := assignment_fork_dates r;
         assignment_fork_updated := assignment_fork_updated r;
         assignment_attempts := assignment_attempts r;
         assignment_info := assignment_info r |}
  end.

Definition student_without_fork (github_username : string) : student_aggregate :=
  {| sa_github_username := github_username;
     sa_fork_created_at := None;
     sa_last_updated_at := None;
     sa_resolution_time_hours := None;
     sa_has_fork := false |}.

Definition strip_str (s : string) : string :=
  PyStr.str (PyStr.strip PyStr.isspace (PyStr.chars s)).

Section Reconciler.

Variable fromisoformat : string -> option datetime.

(** The GitHub side: a state [world] and the two [gh api] calls, each
    giving the next state and what the call produced; [None] stands
    for a URL that is not [owner/repo], a failed or timed-out command
    and any exception, which the two methods all turn into [None]. *)
Variable world : Type.
Variable gh_api_repo : string -> world -> world * option repo_info.
Variable gh_api_runs : string -> world -> world * option workflow_info.

Definition get_repository_info (repo_url : cell) (w : world)
  : world * option repo_info :=
  match repo_url with
  | Text EmptyString => (w, None)
  | Text url => gh_api_repo url w
  | NaN => (w, None)
  end.

Definition get_workflow_runs (repo_url : cell) (w : world)
  : world * option workflow_info :=
  match repo_url with
  | Text EmptyString => (w, None)
  | Text url => gh_api_runs url w
  | NaN => (w, None)
  end.

Definition record_fork (github_username formatted_name : string)
  (student_repo_url : cell) (info : repo_info)
  (workflow : option workflow_info) (r : reconciler) : reconciler :=
  let r :=
    {| students_with_repo_info := students_with_repo_info r;
       assignment_fork_dates :=
         <[(github_username, formatted_name) := created_at info]>
           (assignment_fork_dates r);
       assignment_fork_updated :=
         <[(github_username, formatted_name) := updated_at info]>
           (assignment_fork_updated r);
       assignment_attempts :=
         match workflow with
         | Some wf =>
             assignment_attempts r ++
             [{| at_github_username := github_username;
                 at_assignment_name := formatted_name;
                 at_repo_url := student_repo_url;
                 at_total_attempts := wf_total_attempts wf;
                 at_successful_attempts := wf_successful_attempts wf;
                 at_failed_attempts := wf_failed_attempts wf;
                 at_first_attempt_at := wf_first_attempt_at wf;
                 at_last_attempt_at := wf_last_attempt_at wf;
                 at_fork_created_at := created_at info;
                 at_fork_updated_at := updated_at info |}]
         | None => assignment_attempts r
         end;
       assignment_info := assignment_info r |} in
  add_student_if_absent
    {| sa_github_username := github_username;
       sa_fork_created_at := created_at info;
       sa_last_updated_at := updated_at info;
       sa_resolution_time_hours :=
         calculate_resolution_time fromisoformat (created_at info) (updated_at info);
       sa_has_fork := true |} r.

(** The body of [for _, row in df.iterrows()]. *)
Definition process_row (formatted_name : string) (st : reconciler * world)
  (row : csv_row) : reconciler * world :=
  let (r, w) := st in
  let github_username := strip_str (csv_github_username row) in
  let student_repo_url := default (Text "") (csv_student_repository_url row) in
  if cell_truthy student_repo_url then
    let (w, repo_info) := get_repository_info student_repo_url w in
    let (w, workflow_info) := get_workflow_runs student_repo_url w in
    match repo_info with
    | Some info =>
        if is_fork info
        then (record_fork github_username formatted_name student_repo_url
                info workflow_info r, w)
        else (add_student_if_absent (student_without_fork github_username) r, w)
    | None =>
        (add_student_if_absent (student_without_fork github_username) r, w)
    end
  else (r, w).

Definition process_rows (formatted_name : string) (rows : list csv_row)
  (st : reconciler * world) : reconciler * world :=
  fold_left (process_row formatted_name) rows st.

Definition add_assignment_info (formatted_name : string) (rows : list csv_row)
  (r : reconciler) : reconciler :=
  {| students_with_repo_info := students_with_repo_info r;
     assignment_fork_dates := assignment_fork_dates r;
     assignment_fork_updated := assignment_fork_updated r;
     assignment_attempts := assignment_attempts r;
     assignment_info :=
       assignment_info r ++
       [(formatted_name,
         resolve_points_available
           (Some (List.map csv_points_available rows)) formatted_name)] |}.

(** The body of the loop over the assignments.  [df] is what
    [download_grades_to_dataframe] returned (the export passed its
    validation, so it has the points column); an exception of the body
    skips the assignment. *)
Definition process_assignment (st : reconciler * world)
  (a : string * option (list csv_row)) : reconciler * world :=
  match a with
  | (assignment_name, Some (row :: rows)) =>
      match format_assignment_name assignment_name with
      | Ok formatted_name =>
          process_rows formatted_name (row :: rows)
            (add_assignment_info formatted_name (row :: rows) (fst st), snd st)
      | Raise _ => st
      end
  | _ => st
  end.

Definition reconcile (assignments : list (string * option (list csv_row)))
  (w : world) : reconciler * world :=
  fold_left process_assignment assignments (empty_reconciler, w).

End Reconciler.

(** ** Sync writer: the retry loop of the [sync_*_to_supabase] methods *)

Record upsert_call (A : Type) : Type := {
  uc_table : string;
  uc_rows : list A;
  uc_on_conflict : string
}.
Arguments uc_table {A}.
Arguments uc_rows {A}.
Arguments uc_on_conflict {A}.

(** The store seen from one sync method: the answers it will give to the
    coming [execute()] calls ([None]: the write went through; an answer
    list that runs out means success), and the calls it has received. *)
Record store (A : Type) : Type := {
  answers : list (option exn);
  calls : list (upsert_call A)
}.
Arguments answers {A}.
Arguments calls {A}.

Definition upsert {A : Type} (table : string) (rows : list A)
  (on_conflict : string) (s : store A) : store A * option exn :=
  let call := {| uc_table := table; uc_rows := rows; uc_on_conflict := on_conflict |} in
  match answers s with
  | [] => ({| answers := []; calls := calls s ++ [call] |}, None)
  | answer :: rest => ({| answers := rest; calls := calls s ++ [call] |}, answer)
  end.

Definition failure_message (what : string) (e : exn) : string :=
  match e with
  | APIError _ => "Failed to sync " +:+ what +:+ " after max_retries attempts"
  | _ => "Failed to sync " +:+ what
  end.

Section SyncWriter.

Context {A : Type}.
Variables (table on_conflict what : string).
Variable max_retries : Z.
Variable data : list A.

(** [for attempt in range(max_retries)] from [attempt] on, [todo]
    iterations being left. *)
Fixpoint retry_from (todo : nat) (attempt : Z) (s : store A)
  : store A * result unit :=
  match todo with
  | O => (s, Ok tt)
  | S todo' =>
      match upsert table data on_conflict s with
      | (s', None) => (s', Ok tt)
      | (s', Some e) =>
          if attempt =? max_retries - 1
          then (s', Raise (SupabaseSyncError (failure_message what e) e))
          else retry_from todo' (attempt + 1) s'
      end
  end.

Definition upsert_with_retry (s : store A) : store A * result unit :=
  retry_from (Z.to_nat max_retries) 0 s.

End SyncWriter.

(** A sync method: nothing to do for an empty input or when no record
    survives the preparation, else the retry loop on the prepared
    records.  [prepare] gives [None] for a record that is logged and
    skipped. *)
Definition sync_to_supabase {I A : Type} (table on_conflict what : string)
  (prepare : I -> option A) (max_retries : Z) (input : list I) (s : store A)
  : store A * result unit :=
  match input with
  | [] => (s, Ok tt)
  | _ =>
      match omap prepare input with
      | [] => (s, Ok tt)
      | supabase_data =>
          upsert_with_retry table on_conflict what max_retries supabase_data s
      end
  end.

Record student_record : Type := {
  sr_github_username : string;
  sr_updated_at : string;
  sr_fork_created_at : option string;
  sr_last_updated_at : option string;
  sr_resolution_time_hours : option Z
}.

(** [now] is [datetime.datetime.now().isoformat()].  A key that the
    record does not get is [None]. *)
Definition prepare_student (now : string) (student : student_aggregate)
  : option student_record :=
  Some {| sr_github_username := strip_str (sa_github_username student);
          sr_updated_at := now;
          sr_fork_created_at :=
            if present (sa_fork_created_at student)
            then sa_fork_created_at student else None;
          sr_last_updated_at :=
            if present (sa_last_updated_at student)
            then sa_last_updated_at student else None;
          sr_resolution_time_hours := sa_resolution_time_hours student |}.

Definition sync_students_to_supabase (now : string) (max_retries : Z) :=
  sync_to_supabase "zzz_students" "github_username" "students"
    (prepare_student now) max_retries.

Record assignment_record : Type := {
  ar_name : string;
  ar_points_available : option Z;
  ar_updated_at : string
}.

Definition prepare_assignment (now : string) (assignment : string * option Z)
  : option assignment_record :=
  Some {| ar_name := strip_str (fst assignment);
          ar_points_available := snd assignment;
          ar_updated_at := now |}.

Definition sync_assignments_to_supabase (now : string) (max_retries : Z) :=
  sync_to_supabase "zzz_assignments" "name" "assignments"
    (prepare_assignment now) max_retries.

(** A row of the consolidated grades DataFrame and the record made of
    it. *)
Record grade_record : Type := {
  gr_github_username : string;
  gr_assignment_name : string;
  gr_points_awarded : option Z;
  gr_fork_created_at : option string;
  gr_fork_updated_at : option string
}.

Definition prepare_grade (row : grade_record) : option grade_record :=
  Some {| gr_github_username := strip_str (gr_github_username row);
          gr_assignment_name := strip_str (gr_assignment_name row);
          gr_points_awarded := gr_points_awarded row;
          gr_fork_created_at := gr_fork_created_at row;
          gr_fork_updated_at := gr_fork_updated_at row |}.

Definition sync_grades_to_supabase (max_retries : Z) :=
  sync_to_supabase "zzz_grades" "github_username,assignment_name" "grades"
    prepare_grade max_retries.

Record attempt_row : Type := {
  aw_user_id : string;
  aw_assignment_id : string;
  aw_attempt : attempt_record;
  aw_updated_at : string
}.

(** The mapping step: an attempt whose username or assignment has no id
    is skipped.  An id is a non-empty string. *)
Definition prepare_attempt (now : string)
  (user_map assignment_map : gmap string string) (attempt : attempt_record)
  : option attempt_row :=
  match user_map !! at_github_username attempt,
        assignment_map !! at_assignment_name attempt with
  | Some (String c u as user_id), Some (String c' a as assignment_id) =>
      Some {| aw_user_id := user_id;
              aw_assignment_id := assignment_id;
              aw_attempt := attempt;
              aw_updated_at := now |}
  | _, _ => None
  end.

Definition sync_assignment_attempts_to_supabase (now : string)
  (user_map assignment_map : gmap string string) (max_retries : Z) :=
  sync_to_supabase "zzz_assignment_attempts" "user_id,assignment_id"
    "assignment attempts"
    (prepare_attempt now user_map assignment_map) max_retries.

(** ** Notions used in the statements *)

(** The characters of a normalized key: [[a-z0-9-]]. *)
Definition key_char (c : ascii) : bool :=
  PyStr.is_az c || PyStr.is_digit c || PyStr.is_hyphen c.

(** No two hyphens in a row, and no hyphen in front when [b]. *)
Fixpoint squeezed (b : bool) (s : list ascii) : Prop :=
  match s with
  | [] => True
  | c :: r =>
      (b = true -> PyStr.is_hyphen c = false) /\ squeezed (PyStr.is_hyphen c) r
  end.

(** Nothing to strip in front: the string is empty or starts with a
    character outside [p]. *)
Definition front_clean (p : ascii -> bool) (s : list ascii) : Prop :=
  match s with
  | [] => True
  | c :: _ => p c = false
  end.

(** The lines of an assignment listing and the tuples the parser gives
    for them: a line that is blank or has fewer than 7 tab-separated
    fields gives nothing, any other line gives its fields 0, 1 and 6. *)
Inductive listing_tuples
  : list (list ascii) -> list (string * string * string) -> Prop :=
| tuples_done : listing_tuples [] []
| tuples_blank line lines ts :
    PyStr.strip PyStr.isspace line = [] ->
    listing_tuples lines ts ->
    listing_tuples (line :: lines) ts
| tuples_short line lines ts :
    (length (PyStr.split "009"%char line) < 7)%nat ->
    listing_tuples lines ts ->
    listing_tuples (line :: lines) ts
| tuples_row line lines ts f0 f1 f2 f3 f4 f5 f6 rest :
    PyStr.strip PyStr.isspace line <> [] ->
    PyStr.split "009"%char line = f0 :: f1 :: f2 :: f3 :: f4 :: f5 :: f6 :: rest ->
    listing_tuples lines ts ->
    listing_tuples (line :: lines) ((PyStr.str f0, PyStr.str f1, PyStr.str f6) :: ts).

(** A listing written as lines of fields: fields joined by tabs, lines
    by newlines. *)
Definition join (sep : ascii) (parts : list string) : string :=
  match parts with
  | [] => EmptyString
  | p :: ps => fold_left (fun acc q => acc +:+ String sep q) ps p
  end.

Definition listing (lines : list (list string)) : string :=
  join "010"%char (List.map (join "009"%char) lines).

Definition header : list (list string) :=
  [["3 Assignments for B4OS"]; [""];
   ["ID"; "Title"; "Submission Type"; "Deadline"; "Accepted"; "Submissions";
    "Repository"]].

Definition listing_with_short_line : string :=
  listing (header ++
           [["101"; "Part 1"; "individual"; ""; "12"; "10"; "B4OS-Dev/part-1"];
            ["102"; "Part 2"; "individual"]]).

(** The points-available policy in the words of the specification:
    (1) the maximum of the values that are not null; (2) when that is
    zero or absent, the first strictly positive value; (3) when there is
    none and the key contains [part-2], 100; (4) else unset. *)
Definition non_null_points (col : list (option Z)) : list Z := omap id col.

Definition maximum (xs : list Z) : option Z :=
  match xs with
  | [] => None
  | x :: r => Some (fold_right Z.max x r)
  end.

Definition first_positive (xs : list Z) : option Z :=
  List.find (fun v => 0 <? v) xs.

Definition key_contains (sub key : string) : bool :=
  PyStr.contains (PyStr.chars sub) (PyStr.chars key).

Definition points_policy (col : list (option Z)) (key : string) : option Z :=
  let later_steps :=
    match first_positive (non_null_points col) with
    | Some v => Some v
    | None => if key_contains "part-2" key then Some 100 else None
    end in
  match maximum (non_null_points col) with
  | Some m => if m =? 0 then later_steps else Some m
  | None => later_steps
  end.

(** The resolution time in the words of the specification: the floor of
    the seconds between the two instants over 3600. *)
Definition floor_hours (created updated : datetime) : Z :=
  Qfloor (total_seconds (micros updated - micros created) / inject_Z 3600)%Q.

Definition student_forked (created_at updated_at : string) : student_row :=
  {| st_github_username := "satoshi";
     st_fork_created_at := Some created_at;
     st_last_updated_at := Some updated_at;
     st_has_fork := Some true |}.

(** The term of a grade on exact rationals:
    [points_awarded / points_available * 100] when the points awarded
    are not null and the resolved points available of its assignment
    are strictly positive, and nothing otherwise; and the number of
    rows of the assignments table. *)
Definition resolved_points_available (db : snapshot) (assignment_name : string)
  : option Z :=
  assignment_points db !! assignment_name.

Definition graded_term (db : snapshot) (grade : grade_row) : Q :=
  match g_points_awarded grade,
        resolved_points_available db (g_assignment_name grade) with
  | Some awarded, Some available =>
      if 0 <? available
      then (inject_Z awarded / inject_Z available * inject_Z 100)%Q
      else 0%Q
  | _, _ => 0%Q
  end.










(** One student who completed one of four assignments with full marks. *)
Definition one_of_four : snapshot :=
  {| zzz_students :=
       [{| st_github_username := "satoshi";
           st_fork_created_at := None;
           st_last_updated_at := None;
           st_has_fork := Some false |}];
     zzz_grades :=
       [{| g_github_username := "satoshi";
           g_assignment_name := "part-1";
           g_points_awarded := Some 50;
           g_fork_created_at := None |}];
     zzz_assignments :=
       [{| a_name := "part-1"; a_points_available := Some 50 |};
        {| a_name := "part-2"; a_points_available := Some 50 |};
        {| a_name := "part-3"; a_points_available := Some 50 |};
        {| a_name := "part-4"; a_points_available := Some 50 |}] |}.




(** The ranking order in the words of the specification: the smaller
    resolution time first, a null time counting as 999999; then the
    larger percentage; then the username that is first in lexicographic
    order. *)
Definition time_key (x : leaderboard_entry) : Z :=
  default 999999 (resolution_time_hours x).

Definition ranks_before (a b : leaderboard_entry) : Prop :=
  time_key a < time_key b \/
  (time_key a = time_key b /\
   (percentage b < percentage a \/
    (percentage a = percentage b /\
     String.compare (github_username a) (github_username b) = Lt))).

Definition ranks_not_after (a b : leaderboard_entry) : Prop :=
  ranks_before a b \/ sort_key a = sort_key b.

(** An entry without its position. *)
Definition clear_position (x : leaderboard_entry) : leaderboard_entry :=
  {| github_username := github_username x;
     fork_created_at := fork_created_at x;
     last_updated_at := last_updated_at x;
     resolution_time_hours := resolution_time_hours x;
     has_fork := has_fork x;
     total_score := total_score x;
     total_possible := total_possible x;
     percentage := percentage x;
     assignments_completed := assignments_completed x;
     ranking_position := None |}.

Definition entry (username : string) (hours : option Z) (pct : Z)
  : leaderboard_entry :=
  {| github_username := username;
     fork_created_at := None;
     last_updated_at := None;
     resolution_time_hours := hours;
     has_fork := Some true;
     total_score := pct;
     total_possible := 100;
     percentage := pct;
     assignments_completed := 1;
     ranking_position := None |}.

(** A table left by an earlier run, with a row of a student who is no
    longer in the snapshot; a store that refuses the [delete] and nothing
    else; a snapshot without students. *)
Definition stale_table : leaderboard_table :=
  {[ "hal" := set_ranking_position 1 (entry "hal" (Some 5) 100) ]}.

Definition refusing_delete : store_outcomes :=
  {| delete_raises := true;
     insert_raises := fun _ => false;
     upsert_raises := fun _ => false |}.

Definition obliging : store_outcomes :=
  {| delete_raises := false;
     insert_raises := fun _ => false;
     upsert_raises := fun _ => false |}.

Definition no_students : snapshot :=
  {| zzz_students := [];
     zzz_grades := zzz_grades one_of_four;
     zzz_assignments := zzz_assignments one_of_four |}.

(** The end-to-end scenario: two assignments and three students.  The
    repository of [alice] cannot be fetched (she has no fork), [bob] has
    a fork and workflow runs, [carol] has a fork whose workflow runs
    cannot be fetched. *)
Definition repo_url (assignment student : string) : string :=
  "https://github.com/B4OS-Dev/" +:+ assignment +:+ "-" +:+ student.

Definition a_fork : repo_info :=
  {| created_at := Some "2024-01-01T01:00:00Z";
     updated_at := Some "2024-01-03T00:30:00Z";
     is_fork := true |}.

Definition not_a_fork : repo_info :=
  {| created_at := Some "2023-12-01T00:00:00Z";
     updated_at := Some "2023-12-02T00:00:00Z";
     is_fork := false |}.

Definition scenario_repo (url : string) (w : unit) : unit * option repo_info :=
  (w, if key_contains "bob" url || key_contains "carol" url
      then Some a_fork else None).

Definition scenario_runs (url : string) (w : unit) : unit * option workflow_info :=
  (w, if key_contains "bob" url
      then Some {| wf_total_attempts := 3;
                   wf_successful_attempts := 1;
                   wf_failed_attempts := 2;
                   wf_first_attempt_at := Some "2024-01-01T02:00:00Z";
                   wf_last_attempt_at := Some "2024-01-02T23:00:00Z" |}
      else None).

Definition scenario_rows (assignment : string) : list csv_row :=
  List.map (fun student =>
              {| csv_github_username := student;
                 csv_points_awarded := Some 50;
                 csv_points_available := Some 100;
                 csv_student_repository_url :=
                   Some (Text (repo_url assignment student)) |})
           ["alice"; "bob"; "carol"].

Definition scenario : list (string * option (list csv_row)) :=
  [("Part 1", Some (scenario_rows "part-1"));
   ("Part 2", Some (scenario_rows "part-2"))].

(** An export without the repository column. *)
Definition export_without_urls : list (string * option (list csv_row)) :=
  [("Part 1",
    Some [{| csv_github_username := "satoshi";
             csv_points_awarded := Some 0;
             csv_points_available := Some 100;
             csv_student_repository_url := None |}])].

(** [hal] forked the first assignment; his repository of the second one
    is not a fork. *)
Definition fork_then_plain_repo (url : string) (w : unit) : unit * option repo_info :=
  (w, if key_contains "part-1" url then Some a_fork else Some not_a_fork).

Definition fork_then_plain : list (string * option (list csv_row)) :=
  List.map (fun a : string * string =>
              (fst a,
               Some [{| csv_github_username := "hal";
                        csv_points_awarded := Some 50;
                        csv_points_available := Some 100;
                        csv_student_repository_url :=
                          Some (Text (repo_url (snd a) "hal")) |}]))
           [("Part 1", "part-1"); ("Part 2", "part-2")].

(** A batch of one grade, and a store that fails three times before it
    accepts a write. *)
Definition one_grade : list grade_record :=
  [{| gr_github_username := "satoshi";
      gr_assignment_name := "part-1";
      gr_points_awarded := Some 50;
      gr_fork_created_at := None;
      gr_fork_updated_at := None |}].

Definition failing_thrice : store grade_record :=
  {| answers := [Some (APIError "timeout"); Some (OtherException "reset");
                 Some (APIError "unavailable"); None];
     calls := [] |}.

(** ** The remaining functions *)

(** *** More of Python strings *)

(** [s.split()]: the maximal runs of characters that are not
    whitespace. *)
Fixpoint split_ws (s : list ascii) : list (list ascii) :=
  match s with
  | [] => []
  | c :: r =>
      if PyStr.isspace c then split_ws r
      else match r with
           | c' :: _ =>
               if PyStr.isspace c' then [c] :: split_ws r
               else match split_ws r with
                    | w :: ws => (c :: w) :: ws
                    | [] => [[c]]
                    end
           | [] => [[c]]
           end
  end.

(** [s.replace(old, new)] for a non-empty [old]: the occurrences of
    [old] are found from left to right and do not overlap.  [skip]
    counts the characters of an occurrence that are still to pass. *)
Fixpoint replace_sub (old new : list ascii) (skip : nat) (s : list ascii)
  : list ascii :=
  match s with
  | [] => []
  | c :: r =>
      match skip with
      | S k => replace_sub old new k r
      | O =>
          if PyStr.startswith old (c :: r)
          then new ++ replace_sub old new (length old - 1) r
          else c :: replace_sub old new 0 r
      end
  end.

(** *** Classroom listing: [_parse_classroom_list], [get_classroom_id] *)

Definition parse_classroom_line (line : list ascii) : option (string * string) :=
  if nonblank line then
    match split_ws line with
    | p0 :: p1 :: _ => Some (PyStr.str p0, PyStr.str p1)
    | _ => None
    end
  else None.

Definition _parse_classroom_list (output : string)
  : result (list (string * string)) :=
  let lines := PyStr.split "010"%char (PyStr.strip PyStr.isspace (PyStr.chars output)) in
  if (length lines <? 4)%nat then
    Raise (DataValidationError "Invalid classroom list format")
  else
    Ok (omap parse_classroom_line (skipn 3 lines)).

(** What a method that runs the [gh] command gives: its value, or the
    [GitHubCLIError] it raises. *)
Inductive gh_outcome (A : Type) : Type :=
| Returned (a : A)
| GitHubCLIError (msg : string).
Arguments Returned {A} a.
Arguments GitHubCLIError {A} msg.

(** [gh_classroom_list] is what [_execute_gh_command('gh classroom
    list')] gave.  Its error is raised again; any other exception of the
    body, which is the [DataValidationError] of the parser, becomes a
    [GitHubCLIError] with its message. *)
Definition get_classroom_id (gh_classroom_list : gh_outcome string)
  (classroom_name : string) : gh_outcome (option string) :=
  match gh_classroom_list with
  | GitHubCLIError msg => GitHubCLIError msg
  | Returned output =>
      match _parse_classroom_list output with
      | Raise (DataValidationError msg) =>
          GitHubCLIError ("Unexpected error: " +:+ msg)
      | Raise _ => GitHubCLIError "Unexpected error: "
      | Ok classrooms =>
          Returned
            (fst <$> List.find (fun c => String.eqb (snd c) classroom_name)
                       classrooms)
      end
  end.

(** [get_assignments], in the same way. *)
Definition get_assignments (gh_classroom_assignments : gh_outcome string)
  : gh_outcome (list (string * string * string)) :=
  match gh_classroom_assignments with
  | GitHubCLIError msg => GitHubCLIError msg
  | Returned output =>
      match _parse_assignments_list output with
      | Raise (DataValidationError msg) =>
          GitHubCLIError ("Unexpected error: " +:+ msg)
      | Raise _ => GitHubCLIError "Unexpected error: "
      | Ok assignments => Returned assignments
      end
  end.

(** The start of [run_sync]: the assignments that are handed to
    [process_assignments_in_memory]; [None] when the run ends before
    that because the classroom has no assignment.  [assignment_id] is
    the filter of the configuration; [gh_classroom_assignments] gives
    the outcome of the assignments command for a classroom id. *)
Definition assignments_to_process (assignment_id : option string)
  (classroom_name : string) (gh_classroom_list : gh_outcome string)
  (gh_classroom_assignments : string -> gh_outcome string)
  : gh_outcome (option (list (string * string * string))) :=
  match get_classroom_id gh_classroom_list classroom_name with
  | GitHubCLIError msg => GitHubCLIError msg
  | Returned None | Returned (Some EmptyString) =>
      GitHubCLIError ("Classroom '" +:+ classroom_name +:+ "' not found")
  | Returned (Some classroom_id) =>
      match get_assignments (gh_classroom_assignments classroom_id) with
      | GitHubCLIError msg => GitHubCLIError msg
      | Returned [] => Returned None
      | Returned assignment_data =>
          match assignment_id with
          | Some (String _ _ as id) =>
              Returned (Some (List.filter
                                (fun a => String.eqb (fst (fst a)) id)
                                assignment_data))
          | _ => Returned (Some assignment_data)
          end
      end
  end.

(** *** Repository URLs: [get_repository_info], [get_workflow_runs] *)

Definition github_prefix : list ascii := PyStr.chars "https://github.com/".

(** [repo_url.replace('https://github.com/', '').split('/')] *)
Definition url_parts (repo_url : string) : list (list ascii) :=
  PyStr.split "/"%char (replace_sub github_prefix [] 0 (PyStr.chars repo_url)).

(** The endpoint [get_repository_info] asks [gh api] for; [None] when
    the method returns [None] before running the command. *)
Definition repo_api_endpoint (repo_url : cell) : option string :=
  match repo_url with
  | Text EmptyString => None
  | NaN => None
  | Text url =>
      match url_parts url with
      | [owner; repo] =>
          Some ("repos/" +:+ PyStr.str owner +:+ "/" +:+ PyStr.str repo)
      | _ => None
      end
  end.

(** The endpoint of [get_workflow_runs]. *)
Definition runs_api_endpoint (repo_url : cell) : option string :=
  match repo_url with
  | Text EmptyString => None
  | NaN => None
  | Text url =>
      match url_parts url with
      | [owner; repo] =>
          Some ("repos/" +:+ PyStr.str owner +:+ "/" +:+ PyStr.str repo
                +:+ "/actions/runs?per_page=100")
      | _ => None
      end
  end.

(** *** Workflow runs: the statistics of [get_workflow_runs] *)

(** A run of the JSON answer: [r.get('conclusion')] and
    [r.get('created_at')]. *)
Record workflow_run : Type := {
  conclusion : option string;
  run_created_at : option string
}.

Definition concluded (outcome : string) (r : workflow_run) : bool :=
  match conclusion r with
  | Some c => String.eqb c outcome
  | None => false
  end.

(** The dictionary made of a JSON answer.  [total_count] is [None] when
    the answer has no such key; the runs come newest first. *)
Definition summarize_runs (total_count : option Z)
  (workflow_runs : list workflow_run) : workflow_info :=
  {| wf_total_attempts := default 0 total_count;
     wf_successful_attempts :=
       Z.of_nat (length (List.filter (concluded "success") workflow_runs));
     wf_failed_attempts :=
       Z.of_nat (length (List.filter (concluded "failure") workflow_runs));
     wf_first_attempt_at :=
       match List.last (Some <$> workflow_runs) None with
       | Some first_run => run_created_at first_run
       | None => None
       end;
     wf_last_attempt_at :=
       match workflow_runs with
       | last_run :: _ => run_created_at last_run
       | [] => None
       end |}.

(** The inverse of [split]: the parts with the separator between
    them. *)
Definition unsplit (sep : ascii) (parts : list (list ascii)) : list ascii :=
  match parts with
  | [] => []
  | p :: ps => p ++ flat_map (fun q => sep :: q) ps
  end.

(** A classroom listing in which the classroom [B4OS Dev] has the id
    284713. *)
Definition classroom_listing : string :=
  listing [["2 Available Classrooms"]; [""]; ["ID          Name        URL"];
           ["284713      B4OS Dev    https://classroom.github.com/classrooms/284713"];
           ["284714      B4OS-2025   https://classroom.github.com/classrooms/284714"]].

(** An id that the mapping step accepts: present and not empty. *)
Definition has_id (ids : gmap string string) (key : string) : bool :=
  match ids !! key with
  | Some (String _ _) => true
  | _ => false
  end.

(** What the reconciler keeps true of a Student aggregate stored under
    [username]: it carries that username, which is stripped; without a
    fork it has no timestamp and no resolution time; with a fork its
    resolution time is the one of its two timestamps. *)
Definition aggregate_consistent (fromisoformat : string -> option datetime)
  (username : string) (x : student_aggregate) : Prop :=
  sa_github_username x = username /\
  strip_str username = username /\
  (sa_has_fork x = false ->
   sa_fork_created_at x = None /\ sa_last_updated_at x = None /\
   sa_resolution_time_hours x = None) /\
  (sa_has_fork x = true ->
   sa_resolution_time_hours x
   = calculate_resolution_time fromisoformat
       (sa_fork_created_at x) (sa_last_updated_at x)).

(** What the reconciler keeps true of a recorded attempt: its student
    has an aggregate, its assignment is in [assignment_info], the fork
    dates of the pair are recorded, and it has a repository URL. *)
Definition attempt_consistent (r : reconciler) (a : attempt_record) : Prop :=
  is_Some (students_with_repo_info r !! at_github_username a) /\
  is_Some (assignment_fork_dates r
             !! (at_github_username a, at_assignment_name a)) /\
  is_Some (assignment_fork_updated r
             !! (at_github_username a, at_assignment_name a)) /\
  In (at_assignment_name a) (List.map fst (assignment_info r)) /\
  cell_truthy (at_repo_url a) = true.

(** The key under which an assignment of the run is recorded, when it
    is: its export has a row and its name is not empty. *)
Definition recorded_key (a : string * option (list csv_row)) : option string :=
  match a with
  | (assignment_name, Some (_ :: _)) =>
      match format_assignment_name assignment_name with
      | Ok formatted_name => Some formatted_name
      | Raise _ => None
      end
  | _ => None
  end.

(** [r'] has at least the students, fork dates and assignments of [r]. *)
Definition grows (r r' : reconciler) : Prop :=
  (forall u, is_Some (students_with_repo_info r !! u) ->
             is_Some (students_with_repo_info r' !! u)) /\
  (forall k, is_Some (assignment_fork_dates r !! k) ->
             is_Some (assignment_fork_dates r' !! k)) /\
  (forall k, is_Some (assignment_fork_updated r !! k) ->
             is_Some (assignment_fork_updated r' !! k)) /\
  (forall n, In n (List.map fst (assignment_info r)) ->
             In n (List.map fst (assignment_info r'))).

(** The invariant of the row loop of the assignment [name]. *)
Definition row_invariant (fromisoformat : string -> option datetime)
  (name : string) (r : reconciler) : Prop :=
  map_Forall (aggregate_consistent fromisoformat) (students_with_repo_info r) /\
  Forall (attempt_consistent r) (assignment_attempts r) /\
  In name (List.map fst (assignment_info r)).

(** *** The grades frame of [process_assignments_in_memory] *)

(** [grades_df] of one assignment once its rows are processed: the
    username as the export has it, the formatted name, the points, and
    the two columns filled with [assignment_fork_dates.get] and
    [assignment_fork_updated.get] of [(username, formatted_name)]. *)
Definition grades_frame (formatted_name : string) (rows : list csv_row)
  (r : reconciler) : list grade_record :=
  List.map (fun row =>
              let username := csv_github_username row in
              {| gr_github_username := username;
                 gr_assignment_name := formatted_name;
                 gr_points_awarded := csv_points_awarded row;
                 gr_fork_created_at :=
                   mjoin (assignment_fork_dates r !! (username, formatted_name));
                 gr_fork_updated_at :=
                   mjoin (assignment_fork_updated r !! (username, formatted_name)) |})
           rows.

Section GradesFrame.

Variable fromisoformat : string -> option datetime.
Variable world : Type.
Variable gh_api_repo : string -> world -> world * option repo_info.
Variable gh_api_runs : string -> world -> world * option workflow_info.

(** [pd.concat(all_grades)]: the frames of the assignments in the order
    of the loop, each made when the rows of its assignment are
    processed. *)
Fixpoint consolidated_grades
  (assignments : list (string * option (list csv_row)))
  (st : reconciler * world) : list grade_record :=
  match assignments with
  | [] => []
  | a :: assignments' =>
      let st' := process_assignment fromisoformat world gh_api_repo gh_api_runs
                   st a in
      match a with
      | (assignment_name, Some (row :: rows)) =>
          match format_assignment_name assignment_name with
          | Ok formatted_name => grades_frame formatted_name (row :: rows) (fst st')
          | Raise _ => []
          end
      | _ => []
      end ++ consolidated_grades assignments' st'
  end.

End GradesFrame.

(** What the reconciler keeps true of the keys of the two fork-date
    dictionaries: the username is stripped and has an aggregate, and the
    assignment is in [assignment_info]. *)
Definition fork_keys_consistent (r : reconciler) : Prop :=
  forall u n,
    is_Some (assignment_fork_dates r !! (u, n)) \/
    is_Some (assignment_fork_updated r !! (u, n)) ->
    strip_str u = u /\
    is_Some (students_with_repo_info r !! u) /\
    In n (List.map fst (assignment_info r)).

(** The rows of an assignment of the run, when it is processed. *)
Definition recorded_rows (a : string * option (list csv_row)) : list csv_row :=
  match recorded_key a, snd a with
  | Some _, Some rows => rows
  | _, _ => []
  end.

(** [hal] again, his username followed by a space in the export. *)
Definition padded_username : list (string * option (list csv_row)) :=
  [("Part 1",
    Some [{| csv_github_username := "hal ";
             csv_points_awarded := Some 50;
             csv_points_available := Some 100;
             csv_student_repository_url :=
               Some (Text (repo_url "part-1" "hal")) |}])].

(** A store that refuses every batch insert and the upsert of [hal]. *)
Definition refusing_batches : store_outcomes :=
  {| delete_raises := true;
     insert_raises := fun _ => true;
     upsert_raises := fun x => String.eqb (github_username x) "hal" |}.

(** A store that refuses the clear and every batch insert and accepts
    the upserts. *)
Definition refusing_inserts : store_outcomes :=
  {| delete_raises := true;
     insert_raises := fun _ => true;
     upsert_raises := fun _ => false |}.

(** An assignment listing with two assignments. *)
Definition assignment_listing : string :=
  listing (header ++
           [["101"; "Part 1"; "individual"; ""; "12"; "10"; "B4OS-Dev/part-1"];
            ["102"; "Part 2"; "individual"; ""; "12"; "9"; "B4OS-Dev/part-2"]]).

(* ===================================================================== *)
(** * Part II. Properties                                                 *)
(* ===================================================================== *)

(** ** Name normalizer *)

Section NormalizerFacts.

Import PyStr.

Ltac by_cases_on c :=
  destruct c as [[] [] [] [] [] [] [] []]; vm_compute; try reflexivity;
  intros; try discriminate; try congruence.

Lemma key_char_lower c : key_char c = true -> lower_char c = c.
Proof. by_cases_on c. Qed.

Lemma key_char_keep c : key_char c = true -> keep_char c = true.
Proof. by_cases_on c. Qed.

Lemma key_char_not_space c : key_char c = true -> isspace c = false.
Proof. by_cases_on c. Qed.

Lemma keep_not_space_key c :
  keep_char c = true -> isspace c = false -> key_char c = true.
Proof. by_cases_on c. Qed.

Lemma is_hyphen_eq c : is_hyphen c = true -> c = "-"%char.
Proof. by_cases_on c. Qed.

Lemma lower_key s : Forall (fun c => key_char c = true) s -> lower s = s.
Proof.
  induction 1 as [|c s Hc _ IH]; simpl; [reflexivity|].
  now rewrite key_char_lower, IH.
Qed.

Lemma filter_keep_key s :
  Forall (fun c => key_char c = true) s -> List.filter keep_char s = s.
Proof.
  induction 1 as [|c s Hc _ IH]; simpl; [reflexivity|].
  now rewrite key_char_keep, IH.
Qed.

Lemma sub_space_key b s :
  Forall (fun c => key_char c = true) s -> re_sub_runs isspace b s = s.
Proof.
  intros H. revert b.
  induction H as [|c s Hc _ IH]; intros b; simpl; [reflexivity|].
  now rewrite key_char_not_space, IH.
Qed.

Lemma sub_space_gives_key b s :
  Forall (fun c => keep_char c = true) s ->
  Forall (fun c => key_char c = true) (re_sub_runs isspace b s).
Proof.
  intros H. revert b.
  induction H as [|c s Hc _ IH]; intros b; simpl; [constructor|].
  destruct (isspace c) eqn:Hs.
  - destruct b; [apply IH|]. constructor; [reflexivity | apply IH].
  - constructor; [now apply keep_not_space_key | apply IH].
Qed.

Lemma sub_hyphen_keeps_key b s :
  Forall (fun c => key_char c = true) s ->
  Forall (fun c => key_char c = true) (re_sub_runs is_hyphen b s).
Proof.
  intros H. revert b.
  induction H as [|c s Hc _ IH]; intros b; simpl; [constructor|].
  destruct (is_hyphen c).
  - destruct b; [apply IH|]. constructor; [reflexivity | apply IH].
  - constructor; [assumption | apply IH].
Qed.

Lemma lstrip_Forall (P : ascii -> Prop) p s : Forall P s -> Forall P (lstrip p s).
Proof.
  induction 1 as [|c s Hc Hs IH]; simpl; [constructor|].
  destruct (p c); [assumption | now constructor].
Qed.

Lemma rstrip_Forall (P : ascii -> Prop) p s : Forall P s -> Forall P (rstrip p s).
Proof.
  induction 1 as [|c s Hc Hs IH]; simpl; [constructor|].
  destruct (rstrip p s) as [|d r].
  - destruct (p c); constructor; [assumption | constructor].
  - now constructor.
Qed.

Lemma squeezed_weaken b s : squeezed b s -> squeezed false s.
Proof. destruct s; simpl; [trivial|]. intros [_ H]. split; [discriminate | exact H]. Qed.

Lemma sub_hyphen_squeezed b s : squeezed b (re_sub_runs is_hyphen b s).
Proof.
  revert b. induction s as [|c s IH]; intros b; simpl; [trivial|].
  destruct (is_hyphen c) eqn:Hc.
  - destruct b; [apply IH|]. simpl. split; [discriminate | apply IH].
  - simpl. rewrite Hc. split; [reflexivity | apply IH].
Qed.

Lemma sub_hyphen_fixed b s : squeezed b s -> re_sub_runs is_hyphen b s = s.
Proof.
  revert b. induction s as [|c s IH]; intros b; simpl; [reflexivity|].
  intros [Hb Hs]. destruct (is_hyphen c) eqn:Hc.
  - destruct b; [now specialize (Hb eq_refl)|].
    rewrite (is_hyphen_eq c Hc). f_equal. now apply IH.
  - f_equal. now apply IH.
Qed.

Lemma lstrip_squeezed p s : squeezed false s -> squeezed false (lstrip p s).
Proof.
  induction s as [|c s IH]; simpl; [trivial|].
  intros [Hb Hs]. destruct (p c).
  - apply IH. now apply squeezed_weaken with (is_hyphen c).
  - simpl. now split.
Qed.

Lemma rstrip_squeezed p b s : squeezed b s -> squeezed b (rstrip p s).
Proof.
  revert b. induction s as [|c s IH]; intros b; simpl; [trivial|].
  intros [Hb Hs]. specialize (IH _ Hs).
  destruct (rstrip p s) as [|d r].
  - destruct (p c); simpl; auto.
  - simpl. split; [assumption | exact IH].
Qed.

Lemma lstrip_front_clean p s : front_clean p (lstrip p s).
Proof.
  induction s as [|c s IH]; simpl; [trivial|].
  destruct (p c) eqn:Hc; [exact IH | exact Hc].
Qed.

Lemma rstrip_front_clean p s : front_clean p s -> front_clean p (rstrip p s).
Proof.
  destruct s as [|c s]; simpl; [trivial|]. intros Hc.
  destruct (rstrip p s); [rewrite Hc|]; exact Hc.
Qed.

Lemma lstrip_fixed p s : front_clean p s -> lstrip p s = s.
Proof. destruct s as [|c s]; simpl; [reflexivity|]. now intros ->. Qed.

Lemma rstrip_idempotent p s : rstrip p (rstrip p s) = rstrip p s.
Proof.
  induction s as [|c s IH]; simpl; [reflexivity|].
  destruct (rstrip p s) as [|d r] eqn:Hr.
  - destruct (p c) eqn:Hc; simpl; [reflexivity | now rewrite Hc].
  - change (rstrip p (c :: d :: r)) with
      (match rstrip p (d :: r) with
       | [] => if p c then [] else [c]
       | r' => c :: r'
       end).
    now rewrite IH.
Qed.

Lemma strip_idempotent p s : strip p (strip p s) = strip p s.
Proof.
  unfold strip.
  rewrite (lstrip_fixed p (rstrip p (lstrip p s))).
  - apply rstrip_idempotent.
  - apply rstrip_front_clean, lstrip_front_clean.
Qed.

Lemma format_chars_key s : Forall (fun c => key_char c = true) (format_chars s).
Proof.
  unfold format_chars, strip.
  apply rstrip_Forall, lstrip_Forall, sub_hyphen_keeps_key, sub_space_gives_key.
  apply Stdlib.Lists.List.Forall_forall. intros c Hc. apply filter_In in Hc. tauto.
Qed.

Lemma format_chars_squeezed s : squeezed false (format_chars s).
Proof.
  unfold format_chars, strip.
  apply rstrip_squeezed, lstrip_squeezed, sub_hyphen_squeezed.
Qed.

(** A key is a fixed point of the whole pipeline. *)
Lemma format_chars_idempotent s : format_chars (format_chars s) = format_chars s.
Proof.
  pose proof (format_chars_key s) as Hk.
  pose proof (format_chars_squeezed s) as Hq.
  unfold format_chars at 1.
  rewrite (lower_key _ Hk), (filter_keep_key _ Hk), (sub_space_key _ _ Hk).
  rewrite (sub_hyphen_fixed _ _ Hq).
  unfold format_chars. apply strip_idempotent.
Qed.

Lemma lower_format_chars s : lower (format_chars s) = format_chars s.
Proof. apply lower_key, format_chars_key. Qed.

Lemma chars_str l : chars (str l) = l.
Proof. apply list_ascii_of_string_of_list_ascii. Qed.

Lemma str_chars s : str (chars s) = s.
Proof. apply string_of_list_ascii_of_string. Qed.

Lemma format_assignment_name_Ok name key :
  format_assignment_name name = Ok key ->
  key = str (format_chars (chars name)).
Proof. destruct name; simpl; [discriminate|]. now intros [= <-]. Qed.

End NormalizerFacts.

(** C4, as the code has it.  The normalizer sends ["CS 101: Part 2!!"] to
    ["cs-101-part-2"]; on every non-empty name it returns a key, and
    normalizing that key again returns it unchanged whenever the key is
    not empty.  When the key is empty (the name had no letter, digit or
    inner word) the second call raises [DataValidationError], as on any
    empty name. *)
Theorem format_assignment_name_idempotent_on_keys :
  forall name : string,
    name <> EmptyString ->
    exists key,
      format_assignment_name name = Ok key /\
      (key <> EmptyString -> format_assignment_name key = Ok key) /\
      (key = EmptyString ->
       format_assignment_name key
       = Raise (DataValidationError "Assignment name must be a non-empty string")) /\
      format_assignment_name "CS 101: Part 2!!" = Ok "cs-101-part-2".
Proof.
  intros name Hne.
  exists (PyStr.str (format_chars (PyStr.chars name))).
  split; [destruct name; [contradiction | reflexivity]|].
  split; [|split; [now intros -> | reflexivity]].
  intros Hk. unfold format_assignment_name.
  destruct (PyStr.str (format_chars (PyStr.chars name))) eqn:E; [contradiction|].
  rewrite <- E, chars_str, format_chars_idempotent. reflexivity.
Qed.

Lemma format_assignment_name_idempotent_on_keys_witness :
  "CS 101: Part 2!!" <> EmptyString /\
  exists key,
    format_assignment_name "CS 101: Part 2!!" = Ok key /\
    (key <> EmptyString -> format_assignment_name key = Ok key) /\
    (key = EmptyString ->
     format_assignment_name key
     = Raise (DataValidationError "Assignment name must be a non-empty string")) /\
    format_assignment_name "CS 101: Part 2!!" = Ok "cs-101-part-2".
Proof.
  split; [discriminate|].
  apply (format_assignment_name_idempotent_on_keys "CS 101: Part 2!!").
  discriminate.
Defined.

(** C4 as stated fails: ["!!!"] is a non-empty name, its key is the
    empty string, and normalizing the key raises instead of returning
    it. *)
Lemma format_assignment_name_not_idempotent :
  exists name : string,
    name <> EmptyString /\
    format_assignment_name name = Ok EmptyString /\
    (format_assignment_name name ≫= format_assignment_name)
    = Raise (DataValidationError "Assignment name must be a non-empty string") /\
    (format_assignment_name name ≫= format_assignment_name)
    <> format_assignment_name name.
Proof.
  exists "!!!". repeat split; discriminate.
Qed.

(** ** Assignment listing *)

Lemma parse_assignment_line_tuples lines :
  listing_tuples lines (omap parse_assignment_line lines).
Proof.
  induction lines as [|line lines IH]; [constructor|].
  cbn [omap list_omap]. unfold parse_assignment_line at 1, nonblank.
  destruct (PyStr.strip PyStr.isspace line) as [|c r] eqn:Hb.
  - now apply tuples_blank.
  - destruct (7 <=? length (PyStr.split "009" line))%nat eqn:Hlen.
    + apply Nat.leb_le in Hlen.
      destruct (PyStr.split "009" line)
        as [|f0 [|f1 [|f2 [|f3 [|f4 [|f5 [|f6 rest]]]]]]] eqn:Hs;
        simpl in Hlen; try lia.
      eapply tuples_row; eauto. rewrite Hb. discriminate.
    + apply Nat.leb_gt in Hlen. now apply tuples_short.
Qed.

(** C9, as the code has it.  With [lines] the newline-separated lines of
    the stripped output: fewer than 4 lines raise [DataValidationError];
    otherwise the parser returns, in order, the tuple (field 0, field 1,
    field 6) of every data line that is not blank and has at least 7
    tab-separated fields, and skips the other data lines without an
    error. *)
Theorem parse_assignments_list_skips_short_lines :
  forall output : string,
    let lines :=
      PyStr.split "010"%char (PyStr.strip PyStr.isspace (PyStr.chars output)) in
    ((length lines < 4)%nat ->
     _parse_assignments_list output
     = Raise (DataValidationError "Invalid assignments list format")) /\
    ((4 <= length lines)%nat ->
     exists tuples,
       _parse_assignments_list output = Ok tuples /\
       listing_tuples (skipn 3 lines) tuples).
Proof.
  intros output lines. unfold _parse_assignments_list. fold lines. split.
  - intros H. apply Nat.ltb_lt in H. now rewrite H.
  - intros H. apply Nat.ltb_ge in H. rewrite H.
    eexists. split; [reflexivity | apply parse_assignment_line_tuples].
Qed.

Lemma parse_assignments_list_skips_short_lines_witness :
  (4 <= length (PyStr.split "010"%char
                  (PyStr.strip PyStr.isspace
                     (PyStr.chars listing_with_short_line))))%nat /\
  exists tuples,
    _parse_assignments_list listing_with_short_line = Ok tuples /\
    listing_tuples
      (skipn 3 (PyStr.split "010"%char
                  (PyStr.strip PyStr.isspace
                     (PyStr.chars listing_with_short_line))))
      tuples.
Proof.
  assert (H : (4 <= length (PyStr.split "010"%char
                  (PyStr.strip PyStr.isspace
                     (PyStr.chars listing_with_short_line))))%nat)
    by (vm_compute; lia).
  split; [exact H|].
  exact (proj2 (parse_assignments_list_skips_short_lines listing_with_short_line) H).
Defined.

(** C9 as stated fails: the listing below has three header lines, one
    full data line and one data line of 3 fields; the parser returns the
    tuple of the full line and raises nothing. *)
Lemma parse_assignments_list_short_line_no_error :
  List.map (fun line => length (PyStr.split "009"%char line))
    (skipn 3 (PyStr.split "010"%char
                (PyStr.strip PyStr.isspace (PyStr.chars listing_with_short_line))))
  = [7%nat; 3%nat] /\
  _parse_assignments_list listing_with_short_line
  = Ok [("101", "Part 1", "B4OS-Dev/part-1")].
Proof. split; reflexivity. Qed.

(** ** Points-available inference *)

Lemma fold_max_right xs a : fold_left Z.max xs a = fold_right Z.max a xs.
Proof.
  revert a. induction xs as [|x xs IH]; intros a; simpl; [reflexivity|].
  rewrite IH. clear IH. induction xs as [|y xs IH]; simpl; lia.
Qed.

Lemma series_max_from m col :
  fold_left (fun acc x =>
               match x, acc with
               | Some v, Some m => Some (Z.max m v)
               | Some v, None => Some v
               | None, _ => acc
               end) col (Some m)
  = Some (fold_left Z.max (non_null_points col) m).
Proof.
  revert m. induction col as [|[v|] col IH]; intros m; simpl; auto.
Qed.

Lemma series_max_maximum col : series_max col = maximum (non_null_points col).
Proof.
  unfold series_max. induction col as [|[v|] col IH]; simpl; auto.
  now rewrite series_max_from, fold_max_right.
Qed.

Lemma fold_right_max_spec x xs :
  let m := fold_right Z.max x xs in
  In m (x :: xs) /\ Forall (fun v => v <= m) (x :: xs).
Proof.
  induction xs as [|y xs IH]; simpl.
  - split; [now left | constructor; [lia | constructor]].
  - simpl in IH. destruct IH as [Hin Hall].
    apply Forall_cons_iff in Hall as [Hx Hall].
    split.
    + destruct (Z.max_spec y (fold_right Z.max x xs)) as [[_ ->]|[_ ->]].
      * destruct Hin as [<-|Hin]; [now left | now right; right].
      * now right; left.
    + constructor; [lia|]. constructor; [lia|].
      eapply Forall_impl; [exact Hall|]. simpl. intros; lia.
Qed.

Lemma in_non_null_points v col : In v (non_null_points col) <-> In (Some v) col.
Proof.
  induction col as [|[w|] col IH]; simpl.
  - tauto.
  - rewrite IH. split; intros [H|H]; auto; left; congruence.
  - rewrite IH. split; [auto | intros [H|H]; [discriminate | exact H]].
Qed.

(** The value of step (1) is the greatest value of the column. *)
Lemma series_max_greatest col m :
  series_max col = Some m ->
  In (Some m) col /\ forall v, In (Some v) col -> v <= m.
Proof.
  rewrite series_max_maximum. unfold maximum.
  destruct (non_null_points col) as [|x xs] eqn:E; [discriminate|].
  intros [= <-]. destruct (fold_right_max_spec x xs) as [Hin Hall].
  rewrite <- E in Hin, Hall. split.
  - now apply in_non_null_points.
  - intros v Hv. apply in_non_null_points in Hv.
    rewrite Stdlib.Lists.List.Forall_forall in Hall. now apply Hall.
Qed.

Lemma non_zero_points_first col :
  match non_zero_points col with
  | v :: _ => Some v
  | [] => None
  end = first_positive (non_null_points col).
Proof.
  unfold non_zero_points, first_positive.
  induction col as [|[v|] col IH]; simpl; auto.
  destruct (0 <? v); simpl; auto.
Qed.

Lemma lower_key_chars name key :
  format_assignment_name name = Ok key ->
  PyStr.lower (PyStr.chars key) = PyStr.chars key.
Proof.
  intros H. rewrite (format_assignment_name_Ok _ _ H), chars_str.
  apply lower_format_chars.
Qed.

(** C3.  For the grade rows of an assignment whose normalized key is
    [key], the stored points available are those of the four-step
    policy; the value of step (1) is the greatest non-null value of the
    column.  Rows {0, 0, 20} give 20; all-zero rows give 100 under a key
    with [part-2] and stay unset under a key without it. *)
Theorem resolve_points_available_policy :
  forall (name key : string) (col : list (option Z)),
    format_assignment_name name = Ok key ->
    resolve_points_available (Some col) key = points_policy col key /\
    (forall m, maximum (non_null_points col) = Some m ->
               In (Some m) col /\ forall v, In (Some v) col -> v <= m) /\
    resolve_points_available (Some [Some 0; Some 0; Some 20]) key = Some 20 /\
    resolve_points_available (Some [Some 0; Some 0; Some 0])
      "the-moria-mining-codex-part-2" = Some 100 /\
    resolve_points_available (Some [Some 0; Some 0; Some 0])
      "the-moria-mining-codex-part-1" = None.
Proof.
  intros name key col Hkey. split; [|split; [|repeat split]].
  - unfold resolve_points_available, points_policy, key_contains.
    rewrite (lower_key_chars _ _ Hkey), series_max_maximum.
    pose proof (non_zero_points_first col) as Hf.
    destruct (maximum (non_null_points col)) as [m|];
      [destruct (m =? 0)|]; try reflexivity;
      destruct (non_zero_points col); rewrite <- Hf; reflexivity.
  - intros m Hm. apply series_max_greatest. now rewrite series_max_maximum.
Qed.

Lemma resolve_points_available_policy_witness :
  format_assignment_name "The Moria Mining Codex: Part 2" =
    Ok "the-moria-mining-codex-part-2" /\
  resolve_points_available (Some [Some 0; None; Some 0])
    "the-moria-mining-codex-part-2" = Some 100.
Proof.
  split; [reflexivity|].
  rewrite (proj1 (resolve_points_available_policy
                    "The Moria Mining Codex: Part 2"
                    "the-moria-mining-codex-part-2"
                    [Some 0; None; Some 0] eq_refl)).
  reflexivity.
Defined.

(** ** Resolution time *)

Lemma py_int_hours d :
  py_int (total_seconds d / inject_Z 3600)%Q = Z.quot d 3600000000.
Proof.
  unfold py_int, total_seconds. simpl. now rewrite !Z.mul_1_r.
Qed.

Lemma floor_hours_div created updated :
  floor_hours created updated = (micros updated - micros created) / 3600000000.
Proof.
  unfold floor_hours, total_seconds, Qfloor. simpl. now rewrite !Z.mul_1_r.
Qed.

Lemma present_Some ts : present ts = true -> exists s, ts = Some s /\ s <> EmptyString.
Proof.
  destruct ts as [[|c s]|]; simpl; try discriminate.
  intros _. eexists. split; [reflexivity | discriminate].
Qed.

Section ResolutionTimeFacts.

Variable fromisoformat : string -> option datetime.

Lemma calculate_resolution_time_Some created_at updated_at h :
  calculate_resolution_time fromisoformat created_at updated_at = Some h ->
  present created_at = true /\ present updated_at = true /\
  exists c u created updated,
    created_at = Some c /\ updated_at = Some u /\
    fromisoformat (replace_Z c) = Some created /\
    fromisoformat (replace_Z u) = Some updated /\
    aware created = aware updated /\
    h = Z.quot (micros updated - micros created) 3600000000.
Proof.
  unfold calculate_resolution_time.
  destruct (present created_at) eqn:Hc; [|discriminate].
  destruct (present updated_at) eqn:Hu; [|discriminate]. simpl.
  destruct created_at as [c|]; [|discriminate].
  destruct updated_at as [u|]; [|discriminate].
  destruct (fromisoformat (replace_Z c)) as [created|] eqn:Pc; [|discriminate].
  destruct (fromisoformat (replace_Z u)) as [updated|] eqn:Pu; [|discriminate].
  simpl. unfold datetime_sub.
  destruct (Bool.eqb (aware updated) (aware created)) eqn:Ha; [|discriminate].
  simpl. rewrite py_int_hours. intros [= <-].
  apply Bool.eqb_prop in Ha.
  split; [reflexivity|]. split; [reflexivity|].
  exists c, u, created, updated. auto 10.
Qed.

Lemma calculate_resolution_time_parsed c u created updated :
  present (Some c) = true -> present (Some u) = true ->
  fromisoformat (replace_Z c) = Some created ->
  fromisoformat (replace_Z u) = Some updated ->
  aware created = aware updated ->
  calculate_resolution_time fromisoformat (Some c) (Some u)
  = Some (Z.quot (micros updated - micros created) 3600000000).
Proof.
  intros Hc Hu Pc Pu Ha. unfold calculate_resolution_time.
  rewrite Hc, Hu. simpl. rewrite Pc, Pu. simpl. unfold datetime_sub.
  rewrite Ha, Bool.eqb_reflx. simpl. now rewrite py_int_hours.
Qed.

End ResolutionTimeFacts.

(** C6, as the code has it.  The resolution time of a student is defined
    only when [has_fork] is true and both timestamps are present, and is
    null in every other case.  When it is defined it is the number of
    hours between the two instants truncated toward zero ([int]); that
    is the floor whenever the last update is not earlier than the fork
    creation. *)
Theorem resolution_time_defined_and_truncated :
  forall (fromisoformat : string -> option datetime) (student : student_row),
    (forall h,
        student_resolution_time fromisoformat student = Some h ->
        st_has_fork student = Some true /\
        present (st_fork_created_at student) = true /\
        present (st_last_updated_at student) = true) /\
    (st_has_fork student <> Some true \/
     present (st_fork_created_at student) = false \/
     present (st_last_updated_at student) = false ->
     student_resolution_time fromisoformat student = None) /\
    (forall c u created updated,
        st_has_fork student = Some true ->
        st_fork_created_at student = Some c -> c <> EmptyString ->
        st_last_updated_at student = Some u -> u <> EmptyString ->
        fromisoformat (replace_Z c) = Some created ->
        fromisoformat (replace_Z u) = Some updated ->
        aware created = aware updated ->
        student_resolution_time fromisoformat student
        = Some (Z.quot (micros updated - micros created) 3600000000) /\
        (micros created <= micros updated ->
         student_resolution_time fromisoformat student
         = Some (floor_hours created updated))).
Proof.
  intros fromisoformat student. unfold student_resolution_time.
  split; [|split].
  - intros h H. destruct (st_has_fork student) as [[]|]; try discriminate.
    apply calculate_resolution_time_Some in H. tauto.
  - intros H. destruct (st_has_fork student) as [[]|]; try reflexivity.
    destruct H as [H|H]; [congruence|].
    unfold calculate_resolution_time.
    destruct H as [-> | ->]; [reflexivity|].
    now rewrite orb_true_r.
  - intros c u created updated -> -> Hc -> Hu Pc Pu Ha.
    assert (E : calculate_resolution_time fromisoformat (Some c) (Some u)
                = Some (Z.quot (micros updated - micros created) 3600000000)).
    { apply calculate_resolution_time_parsed; auto;
        [destruct c | destruct u]; simpl; congruence. }
    split; [exact E|]. intros Hle. rewrite E, floor_hours_div. f_equal.
    apply Z.quot_div_nonneg; lia.
Qed.

Lemma resolution_time_defined_and_truncated_witness :
  Iso.fromisoformat (replace_Z "2024-01-01T01:00:00Z")
  = Some {| aware := true; micros := 1704070800000000 |} /\
  Iso.fromisoformat (replace_Z "2024-01-03T00:30:00Z")
  = Some {| aware := true; micros := 1704241800000000 |} /\
  student_resolution_time Iso.fromisoformat
    (student_forked "2024-01-01T01:00:00Z" "2024-01-03T00:30:00Z")
  = Some 47.
Proof.
  split; [reflexivity|]. split; [reflexivity|].
  destruct (proj2 (proj2 (resolution_time_defined_and_truncated
                    Iso.fromisoformat
                    (student_forked "2024-01-01T01:00:00Z" "2024-01-03T00:30:00Z")))
              "2024-01-01T01:00:00Z" "2024-01-03T00:30:00Z"
              {| aware := true; micros := 1704070800000000 |}
              {| aware := true; micros := 1704241800000000 |}
              eq_refl eq_refl ltac:(discriminate) eq_refl ltac:(discriminate)
              eq_refl eq_refl eq_refl) as [E _].
  rewrite E. reflexivity.
Defined.

(** C6 as stated fails: for a fork whose last update is half an hour
    before its creation the code gives 0 hours, the floor is -1. *)
Lemma resolution_time_is_not_floor :
  exists created updated,
    Iso.fromisoformat (replace_Z "2024-01-01T01:00:00Z") = Some created /\
    Iso.fromisoformat (replace_Z "2024-01-01T00:30:00Z") = Some updated /\
    micros updated - micros created = -1800 * 1000000 /\
    floor_hours created updated = -1 /\
    student_resolution_time Iso.fromisoformat
      (student_forked "2024-01-01T01:00:00Z" "2024-01-01T00:30:00Z")
    = Some 0.
Proof.
  do 2 eexists. split; [reflexivity|]. split; [reflexivity|].
  repeat split.
Qed.

(** ** Percentage *)

Lemma py_div_Ok a b : ~ (b == 0)%Q -> py_div a b = Ok (a / b)%Q.
Proof.
  intros H. unfold py_div. destruct (Qeq_bool b 0) eqn:E; [|reflexivity].
  apply Qeq_bool_iff in E. contradiction.
Qed.

Lemma inject_Z_nonzero z : z <> 0 -> ~ (inject_Z z == 0)%Q.
Proof. intros Hz H. unfold Qeq in H. simpl in H. lia. Qed.

Lemma counted_divisor ap grade :
  counted ap grade = true ->
  exists awarded available,
    g_points_awarded grade = Some awarded /\
    ap !! g_assignment_name grade = Some available /\
    0 < available /\
    default 1 (ap !! g_assignment_name grade) = available.
Proof.
  unfold counted, truthy. intros H. apply andb_true_iff in H as [Ha Hp].
  destruct (g_points_awarded grade) as [awarded|]; [|discriminate].
  destruct (ap !! g_assignment_name grade) as [available|] eqn:E;
    simpl in Hp; [|discriminate].
  apply Z.ltb_lt in Hp. exists awarded, available. auto.
Qed.

Lemma total_system_assignments_positive db : 1 <= total_system_assignments db.
Proof.
  unfold total_system_assignments. destruct (zzz_assignments db); simpl length; lia.
Qed.


Lemma py_sum_from xs a : (fold_left Qplus xs a == a + fold_right Qplus 0 xs)%Q.
Proof.
  revert a. induction xs as [|x xs IH]; intros a; simpl.
  - now rewrite Qplus_0_r.
  - rewrite IH. now rewrite Qplus_assoc.
Qed.

Lemma py_sum_fold_right xs : (py_sum xs == fold_right Qplus 0 xs)%Q.
Proof. unfold py_sum. rewrite py_sum_from. apply Qplus_0_l. Qed.

#[local] Instance py_round_Proper : Proper (Qeq ==> eq) py_round.
Proof.
  intros x y E. unfold py_round.
  rewrite (Qfloor_comp _ _ E).
  assert (E' : (x - inject_Z (Qfloor y) == y - inject_Z (Qfloor y))%Q)
    by now rewrite E.
  now rewrite (Qcompare_comp _ _ E' _ _ (Qeq_refl _)).
Qed.

Lemma mapM_cons_Ok {A B : Type} (f : A -> result B) a l b bs :
  f a = Ok b -> mapM f l = Ok bs -> mapM f (a :: l) = Ok (b :: bs).
Proof. intros Ha Hl. cbn [mapM]. now rewrite Ha, Hl. Qed.

Lemma progress_of_grade_counted ap grade awarded available :
  g_points_awarded grade = Some awarded ->
  ap !! g_assignment_name grade = Some available ->
  0 < available ->
  progress_of_grade ap grade
  = Ok (inject_Z awarded / inject_Z available * inject_Z 100)%Q.
Proof.
  intros Ha Hv Hpos. unfold progress_of_grade. rewrite Ha, Hv. simpl.
  now rewrite py_div_Ok by (apply inject_Z_nonzero; lia).
Qed.

(** The terms the code sums are those of the specification: a grade the
    code leaves out has the term 0. *)
Lemma progress_terms db gs :
  exists terms,
    mapM (progress_of_grade (assignment_points db))
      (List.filter (counted (assignment_points db)) gs) = Ok terms /\
    (fold_right Qplus 0 terms
     == fold_right Qplus 0 (List.map (graded_term db) gs))%Q.
Proof.
  induction gs as [|g gs (terms & Hm & Hs)]; simpl.
  - exists []. split; reflexivity.
  - destruct (counted (assignment_points db) g) eqn:Hc.
    + destruct (counted_divisor _ _ Hc) as (aw & av & Ha & Hv & Hpos & Hd).
      eexists. split.
      * apply mapM_cons_Ok; [|exact Hm].
        exact (progress_of_grade_counted _ _ _ _ Ha Hv Hpos).
      * simpl. rewrite Hs.
        unfold graded_term at 2, resolved_points_available. rewrite Ha, Hv.
        apply Z.ltb_lt in Hpos. rewrite Hpos. reflexivity.
    + exists terms. split; [assumption|]. rewrite Hs.
      assert (Hz : (graded_term db g == 0)%Q).
      { unfold graded_term, resolved_points_available.
        unfold counted, truthy in Hc.
        destruct (g_points_awarded g) as [aw|]; [|reflexivity].
        destruct (assignment_points db !! g_assignment_name g) as [av|];
          [|reflexivity].
        simpl in Hc. destruct (0 <? av); [|reflexivity].
        rewrite andb_true_r in Hc. apply negb_false_iff, Z.eqb_eq in Hc.
        subst aw. unfold Qeq. simpl. reflexivity. }
      rewrite Hz. now rewrite Qplus_0_l.
Qed.

Lemma sum_of_progresss_Ok db gs :
  exists s,
    sum_of_progresss (assignment_points db) gs = Ok s /\
    (s == fold_right Qplus 0 (List.map (graded_term db) gs))%Q.
Proof.
  destruct (progress_terms db gs) as (terms & Hm & Hs).
  unfold sum_of_progresss. rewrite Hm. cbn.
  eexists. split; [reflexivity|]. now rewrite py_sum_fold_right.
Qed.

(** *** The resolved points available *)








Lemma progress_Ok db username :
  exists s,
    (s == fold_right Qplus 0
            (List.map (graded_term db) (student_grades db username)))%Q /\
    progress db username
    = Ok (py_round (s / inject_Z (total_system_assignments db))).
Proof.
  destruct (sum_of_progresss_Ok db (student_grades db username)) as (s & Hs & E).
  exists s. split; [exact E|].
  unfold progress. rewrite Hs. cbn.
  rewrite py_div_Ok; [reflexivity|].
  apply inject_Z_nonzero. pose proof (total_system_assignments_positive db). lia.
Qed.

(** C10.  For every snapshot and student the percentage computation
    returns a value, it never raises ZeroDivisionError: the system-wide
    divisor is at least 1, and is 1 when the assignments table is empty;
    a term is only computed for a grade whose assignment has strictly
    positive resolved points, which is then the divisor of the term (1
    would be the divisor of an assignment that is missing). *)
Theorem progress_never_divides_by_zero :
  forall (db : snapshot) (username : string),
    (exists p, progress db username = Ok p) /\
    1 <= total_system_assignments db /\
    (zzz_assignments db = [] -> total_system_assignments db = 1) /\
    (forall grade,
        In grade (List.filter (counted (assignment_points db))
                    (student_grades db username)) ->
        0 < default 1 (assignment_points db !! g_assignment_name grade) /\
        exists q, progress_of_grade (assignment_points db) grade = Ok q) /\
    (forall grade,
        assignment_points db !! g_assignment_name grade = None ->
        default 1 (assignment_points db !! g_assignment_name grade) = 1 /\
        counted (assignment_points db) grade = false).
Proof.
  intros db username. split; [|split; [|split; [|split]]].
  - destruct (progress_Ok db username) as (s & _ & ->). eauto.
  - apply total_system_assignments_positive.
  - unfold total_system_assignments. now intros ->.
  - intros grade Hin. apply filter_In in Hin as [_ Hc].
    destruct (counted_divisor _ _ Hc) as (aw & av & Ha & Hv & Hpos & Hd).
    rewrite Hd. split; [exact Hpos|].
    rewrite (progress_of_grade_counted _ _ _ _ Ha Hv Hpos). eauto.
  - intros grade H. unfold counted. rewrite H. split; [reflexivity|].
    simpl. apply andb_false_r.
Qed.

Lemma progress_never_divides_by_zero_witness :
  zzz_assignments {| zzz_students := zzz_students one_of_four;
                     zzz_grades := zzz_grades one_of_four;
                     zzz_assignments := [] |} = [] /\
  total_system_assignments
    {| zzz_students := zzz_students one_of_four;
       zzz_grades := zzz_grades one_of_four;
       zzz_assignments := [] |} = 1.
Proof.
  split; [reflexivity|].
  exact (proj1 (proj2 (proj2 (progress_never_divides_by_zero
                  {| zzz_students := zzz_students one_of_four;
                     zzz_grades := zzz_grades one_of_four;
                     zzz_assignments := [] |} "satoshi"))) eq_refl).
Defined.

(** ** Ranking order *)

Section KeyOrder.

Lemma ascii_compare_refl a : Ascii.compare a a = Eq.
Proof. unfold Ascii.compare. apply N.compare_refl. Qed.

Lemma ascii_compare_trans a b c :
  Ascii.compare a b = Lt -> Ascii.compare b c = Lt -> Ascii.compare a c = Lt.
Proof.
  unfold Ascii.compare. rewrite !N.compare_lt_iff. apply N.lt_trans.
Qed.

Lemma string_compare_refl s : String.compare s s = Eq.
Proof. induction s as [|a s IH]; simpl; [reflexivity|]. now rewrite ascii_compare_refl. Qed.

Lemma string_compare_trans s1 s2 s3 :
  String.compare s1 s2 = Lt -> String.compare s2 s3 = Lt ->
  String.compare s1 s3 = Lt.
Proof.
  revert s2 s3. induction s1 as [|a s1 IH]; intros [|b s2] [|c s3]; simpl;
    try discriminate; try reflexivity.
  destruct (Ascii.compare a b) eqn:Hab; try discriminate;
    destruct (Ascii.compare b c) eqn:Hbc; try discriminate; intros H1 H2.
  - apply Ascii.compare_eq_iff in Hab, Hbc. subst.
    rewrite ascii_compare_refl. eauto.
  - apply Ascii.compare_eq_iff in Hab. subst. now rewrite Hbc.
  - apply Ascii.compare_eq_iff in Hbc. subst. now rewrite Hab.
  - now rewrite (ascii_compare_trans _ _ _ Hab Hbc).
Qed.

Lemma string_compare_Gt s1 s2 :
  String.compare s1 s2 = Gt <-> String.compare s2 s1 = Lt.
Proof.
  rewrite (String.compare_antisym s2 s1).
  destruct (String.compare s1 s2); simpl; split; congruence.
Qed.

Lemma key_compare_refl k : key_compare k k = Eq.
Proof.
  destruct k as [[t p] u]. simpl. rewrite !Z.compare_refl. apply string_compare_refl.
Qed.

Lemma key_compare_eq k1 k2 : key_compare k1 k2 = Eq -> k1 = k2.
Proof.
  destruct k1 as [[t1 p1] u1], k2 as [[t2 p2] u2]. simpl.
  destruct (Z.compare_spec t1 t2); try discriminate.
  destruct (Z.compare_spec p1 p2); try discriminate.
  intros Hu. apply String.compare_eq_iff in Hu. congruence.
Qed.

Lemma key_compare_Lt t1 p1 u1 t2 p2 u2 :
  key_compare (t1, p1, u1) (t2, p2, u2) = Lt <->
  t1 < t2 \/ (t1 = t2 /\ (p1 < p2 \/ (p1 = p2 /\ String.compare u1 u2 = Lt))).
Proof.
  simpl.
  destruct (Z.compare_spec t1 t2); [|intuition lia|split; [discriminate | lia]].
  destruct (Z.compare_spec p1 p2); [|intuition lia|split; [discriminate | lia]].
  intuition lia.
Qed.

Lemma key_compare_Gt k1 k2 : key_compare k1 k2 = Gt <-> key_compare k2 k1 = Lt.
Proof.
  destruct k1 as [[t1 p1] u1], k2 as [[t2 p2] u2].
  rewrite key_compare_Lt. simpl.
  destruct (Z.compare_spec t1 t2); [|split; [discriminate | lia]|intuition lia].
  destruct (Z.compare_spec p1 p2); [|split; [discriminate | lia]|intuition lia].
  rewrite string_compare_Gt. intuition lia.
Qed.

Lemma key_compare_trans k1 k2 k3 :
  key_compare k1 k2 = Lt -> key_compare k2 k3 = Lt -> key_compare k1 k3 = Lt.
Proof.
  destruct k1 as [[t1 p1] u1], k2 as [[t2 p2] u2], k3 as [[t3 p3] u3].
  rewrite !key_compare_Lt.
  intros [H1|[-> [H1|[-> H1]]]] [H2|[-> [H2|[-> H2]]]]; try (intuition lia).
  right. split; [reflexivity|]. right. split; [reflexivity|].
  eapply string_compare_trans; eauto.
Qed.

Lemma key_leb_total k1 k2 : key_leb k1 k2 = false -> key_leb k2 k1 = true.
Proof.
  unfold key_leb. destruct (key_compare k1 k2) eqn:E; try discriminate.
  apply key_compare_Gt in E. now rewrite E.
Qed.

Lemma key_leb_trans k1 k2 k3 :
  key_leb k1 k2 = true -> key_leb k2 k3 = true -> key_leb k1 k3 = true.
Proof.
  unfold key_leb.
  destruct (key_compare k1 k2) eqn:E1; try discriminate;
    destruct (key_compare k2 k3) eqn:E2; try discriminate; intros _ _.
  - apply key_compare_eq in E1, E2. subst. now rewrite key_compare_refl.
  - apply key_compare_eq in E1. subst. now rewrite E2.
  - apply key_compare_eq in E2. subst. now rewrite E1.
  - now rewrite (key_compare_trans _ _ _ E1 E2).
Qed.

Lemma sort_key_Lt a b :
  key_compare (sort_key a) (sort_key b) = Lt <-> ranks_before a b.
Proof.
  unfold sort_key, ranks_before, time_key. rewrite key_compare_Lt. intuition lia.
Qed.

Lemma key_leb_ranks a b :
  key_leb (sort_key a) (sort_key b) = true <-> ranks_not_after a b.
Proof.
  unfold key_leb, ranks_not_after. rewrite <- sort_key_Lt.
  destruct (key_compare (sort_key a) (sort_key b)) eqn:E.
  - apply key_compare_eq in E. intuition.
  - intuition.
  - split; [discriminate|]. intros [H|H]; [discriminate|].
    rewrite H, key_compare_refl in E. discriminate.
Qed.

Lemma ranks_before_irrefl a : ~ ranks_before a a.
Proof. rewrite <- sort_key_Lt, key_compare_refl. discriminate. Qed.

Lemma ranks_before_trans a b c :
  ranks_before a b -> ranks_before b c -> ranks_before a c.
Proof. rewrite <- !sort_key_Lt. apply key_compare_trans. Qed.

Lemma ranks_before_total a b :
  github_username a <> github_username b -> ranks_before a b \/ ranks_before b a.
Proof.
  intros Hne. rewrite <- !sort_key_Lt.
  destruct (key_compare (sort_key a) (sort_key b)) eqn:E.
  - apply key_compare_eq in E. unfold sort_key in E. congruence.
  - now left.
  - right. now apply key_compare_Gt.
Qed.

End KeyOrder.

Section SortFacts.

Lemma insert_by_key_perm x l : Permutation (insert_by_key x l) (x :: l).
Proof.
  induction l as [|y l IH]; simpl; [reflexivity|].
  destruct (key_leb (sort_key x) (sort_key y)); [reflexivity|].
  rewrite IH. apply perm_swap.
Qed.

Lemma sort_by_key_perm l : Permutation (sort_by_key l) l.
Proof.
  induction l as [|x l IH]; simpl; [reflexivity|].
  rewrite insert_by_key_perm. now constructor.
Qed.

Lemma ranks_not_after_trans a b c :
  ranks_not_after a b -> ranks_not_after b c -> ranks_not_after a c.
Proof. rewrite <- !key_leb_ranks. apply key_leb_trans. Qed.

Lemma insert_by_key_sorted x l :
  StronglySorted ranks_not_after l ->
  StronglySorted ranks_not_after (insert_by_key x l).
Proof.
  induction 1 as [|y l Hs IH Hy]; simpl.
  - constructor; constructor.
  - destruct (key_leb (sort_key x) (sort_key y)) eqn:E.
    + apply key_leb_ranks in E. constructor.
      * now constructor.
      * constructor; [exact E|].
        eapply Forall_impl; [exact Hy|]. intros z Hz.
        eapply ranks_not_after_trans; eauto.
    + apply key_leb_total, key_leb_ranks in E. constructor; [exact IH|].
      rewrite insert_by_key_perm. now constructor.
Qed.

Lemma sort_by_key_sorted l : StronglySorted ranks_not_after (sort_by_key l).
Proof.
  induction l as [|x l IH]; simpl; [constructor|].
  now apply insert_by_key_sorted.
Qed.

(** The sort is stable: the entries of one key keep the order they had. *)
Lemma insert_by_key_same_key k x l :
  List.filter (fun y => bool_decide (sort_key y = k)) (insert_by_key x l)
  = List.filter (fun y => bool_decide (sort_key y = k)) (x :: l).
Proof.
  induction l as [|y l IH]; [reflexivity|].
  cbn [insert_by_key]. destruct (key_leb (sort_key x) (sort_key y)) eqn:E;
    [reflexivity|].
  cbn [List.filter] in *. rewrite IH.
  destruct (bool_decide (sort_key x = k)) eqn:Hx; [|reflexivity].
  destruct (bool_decide (sort_key y = k)) eqn:Hy; [|reflexivity].
  apply bool_decide_eq_true in Hx, Hy. exfalso.
  unfold key_leb in E. rewrite Hx, Hy, key_compare_refl in E. discriminate.
Qed.

Lemma sort_by_key_stable k l :
  List.filter (fun y => bool_decide (sort_key y = k)) (sort_by_key l)
  = List.filter (fun y => bool_decide (sort_key y = k)) l.
Proof.
  induction l as [|x l IH]; [reflexivity|].
  cbn [sort_by_key fold_right]. rewrite insert_by_key_same_key.
  cbn [List.filter]. unfold sort_by_key in IH. now rewrite IH.
Qed.

Lemma assign_positions_clear i l :
  List.map clear_position (assign_positions i l) = List.map clear_position l.
Proof.
  revert i. induction l as [|x l IH]; intros i; simpl; [reflexivity|].
  now rewrite IH.
Qed.

Lemma assign_positions_usernames i l :
  List.map github_username (assign_positions i l) = List.map github_username l.
Proof.
  revert i. induction l as [|x l IH]; intros i; simpl; [reflexivity|].
  now rewrite IH.
Qed.

Lemma assign_positions_lookup i0 (l : list leaderboard_entry) i x :
  assign_positions i0 l !! i = Some x ->
  exists x0, l !! i = Some x0 /\ x = set_ranking_position (i0 + Z.of_nat i) x0.
Proof.
  revert i0 i. induction l as [|y l IH]; intros i0 [|i]; simpl; try discriminate.
  - intros [= <-]. exists y. split; [reflexivity|]. f_equal. lia.
  - intros H. destruct (IH _ _ H) as (x0 & Hx0 & ->).
    exists x0. split; [exact Hx0|]. f_equal. lia.
Qed.

Lemma assign_positions_Forall (R : leaderboard_entry -> leaderboard_entry -> Prop) :
  (forall i j a b, R a b -> R (set_ranking_position i a) (set_ranking_position j b)) ->
  forall i j a l,
    Forall (R a) l ->
    Forall (R (set_ranking_position i a)) (assign_positions j l).
Proof.
  intros HR i j a l H. revert j.
  induction H as [|b l Hb _ IH]; intros j; simpl; constructor; auto.
Qed.

Lemma assign_positions_sorted (R : leaderboard_entry -> leaderboard_entry -> Prop) :
  (forall i j a b, R a b -> R (set_ranking_position i a) (set_ranking_position j b)) ->
  forall i l, StronglySorted R l -> StronglySorted R (assign_positions i l).
Proof.
  intros HR i l H. revert i.
  induction H as [|a l _ IH Ha]; intros i; simpl; constructor; auto.
  now apply assign_positions_Forall.
Qed.

Lemma ranks_not_after_positions i j a b :
  ranks_not_after a b ->
  ranks_not_after (set_ranking_position i a) (set_ranking_position j b).
Proof. exact (fun H => H). Qed.

Lemma ranks_before_positions i j a b :
  ranks_before a b ->
  ranks_before (set_ranking_position i a) (set_ranking_position j b).
Proof. exact (fun H => H). Qed.

Lemma sorted_lookup (R : leaderboard_entry -> leaderboard_entry -> Prop)
  (l : list leaderboard_entry) i j x y :
  StronglySorted R l -> l !! i = Some x -> l !! j = Some y -> (i < j)%nat -> R x y.
Proof.
  intros H. revert i j. induction H as [|a l _ IH Ha]; intros i j;
    [discriminate|].
  destruct i as [|i], j as [|j]; simpl; try lia.
  - intros [= <-] Hy _. rewrite Stdlib.Lists.List.Forall_forall in Ha.
    apply Ha. apply list_elem_of_In. eapply list_elem_of_lookup_2; eauto.
  - intros Hx Hy Hij. eapply IH; eauto. lia.
Qed.

Lemma sorted_strict l :
  NoDup (List.map github_username l) ->
  StronglySorted ranks_not_after l -> StronglySorted ranks_before l.
Proof.
  intros Hnd H. induction H as [|a l _ IH Ha]; [constructor|].
  simpl in Hnd. apply NoDup_cons in Hnd as [Hnotin Hnd].
  constructor; [now apply IH|].
  rewrite Stdlib.Lists.List.Forall_forall in *. intros b Hb.
  destruct (Ha b Hb) as [H|H]; [exact H|].
  exfalso. apply Hnotin. apply list_elem_of_In.
  assert (E : github_username a = github_username b)
    by (unfold sort_key in H; congruence).
  rewrite E. now apply in_map.
Qed.

End SortFacts.

(** C2.  The ranked list holds the entries it was given, each with its
    position.  It is in ascending order of the key: resolution time with
    null counted as 999999, then percentage descending, then username
    ascending; [ranking_position] is the 1-based index.  The order is
    strict and total on entries of different usernames, so with one
    entry per username the ranked list is strictly ascending.  An entry
    with a null time comes after every entry whose time is below
    999999.  For A (10 h, 80), B (10 h, 90), C (null, 100) the order is
    B, A, C. *)
Theorem rank_sorts_by_time_percentage_username :
  forall data : list leaderboard_entry,
    Permutation (List.map clear_position (rank data))
                (List.map clear_position data) /\
    StronglySorted ranks_not_after (rank data) /\
    (forall (i : nat) x,
        rank data !! i = Some x ->
        ranking_position x = Some (Z.of_nat i + 1)) /\
    (NoDup (List.map github_username data) ->
     StronglySorted ranks_before (rank data)) /\
    ((forall a, ~ ranks_before a a) /\
     (forall a b c, ranks_before a b -> ranks_before b c -> ranks_before a c) /\
     (forall a b, github_username a <> github_username b ->
                  ranks_before a b \/ ranks_before b a)) /\
    (forall (i j : nat) x y h,
        rank data !! i = Some x -> rank data !! j = Some y ->
        resolution_time_hours x = None ->
        resolution_time_hours y = Some h -> h < 999999 ->
        (j < i)%nat) /\
    List.map github_username
      (rank [entry "A" (Some 10) 80; entry "B" (Some 10) 90; entry "C" None 100])
    = ["B"; "A"; "C"].
Proof.
  intros data.
  assert (Hsorted : StronglySorted ranks_not_after (rank data)).
  { apply assign_positions_sorted;
      [exact ranks_not_after_positions | apply sort_by_key_sorted]. }
  split; [|split; [exact Hsorted|split; [|split; [|split; [|split]]]]].
  - unfold rank. rewrite assign_positions_clear.
    apply Permutation_map, sort_by_key_perm.
  - intros i x H. apply assign_positions_lookup in H as (x0 & _ & ->).
    simpl. f_equal. lia.
  - intros Hnd. apply sorted_strict; [|exact Hsorted].
    unfold rank. rewrite assign_positions_usernames.
    pose proof (Permutation_map github_username (sort_by_key_perm data)) as P.
    now rewrite P.
  - split; [exact ranks_before_irrefl|].
    split; [exact ranks_before_trans | exact ranks_before_total].
  - intros i j x y h Hx Hy Hnull Hh Hlt.
    destruct (Nat.lt_trichotomy i j) as [Hij|[->|Hji]]; [|congruence|exact Hji].
    exfalso.
    pose proof (sorted_lookup _ _ _ _ _ _ Hsorted Hx Hy Hij) as [H|H].
    + unfold ranks_before, time_key in H. rewrite Hnull, Hh in H. simpl in H. lia.
    + unfold sort_key in H. rewrite Hnull, Hh in H. simpl in H.
      injection H as H _ _. lia.
  - reflexivity.
Qed.

Lemma rank_sorts_by_time_percentage_username_witness :
  NoDup (List.map github_username
           [entry "A" (Some 10) 80; entry "B" (Some 10) 90; entry "C" None 100]) /\
  StronglySorted ranks_before
    (rank [entry "A" (Some 10) 80; entry "B" (Some 10) 90; entry "C" None 100]).
Proof.
  assert (H : NoDup (List.map github_username
           [entry "A" (Some 10) 80; entry "B" (Some 10) 90; entry "C" None 100])).
  { simpl. repeat constructor; rewrite ?list_elem_of_In; simpl;
      intuition discriminate. }
  split; [exact H|].
  exact (proj1 (proj2 (proj2 (proj2
           (rank_sorts_by_time_percentage_username
              [entry "A" (Some 10) 80; entry "B" (Some 10) 90;
               entry "C" None 100])))) H).
Defined.

(** ** Percentage of the leaderboard entries *)

Lemma mapM_total {A B : Type} (f : A -> result B) (l : list A) :
  (forall a, In a l -> exists b, f a = Ok b) ->
  exists bs, mapM f l = Ok bs /\ Forall2 (fun a b => f a = Ok b) l bs.
Proof.
  induction l as [|a l IH]; intros H.
  - exists []. split; [reflexivity | constructor].
  - destruct (H a (or_introl eq_refl)) as [b Hb].
    destruct IH as (bs & Hbs & Hall); [intros; apply H; now right|].
    exists (b :: bs). split; [now apply mapM_cons_Ok | now constructor].
Qed.

Lemma rank_clear_perm data :
  Permutation (List.map clear_position (rank data)) (List.map clear_position data).
Proof.
  unfold rank. rewrite assign_positions_clear.
  apply Permutation_map, sort_by_key_perm.
Qed.

Section PercentageFacts.

Variable fromisoformat : string -> option datetime.

Lemma leaderboard_entry_of_total db student :
  exists x, leaderboard_entry_of fromisoformat db student = Ok x.
Proof.
  unfold leaderboard_entry_of.
  destruct (progress_Ok db (st_github_username student)) as (s & _ & ->).
  cbn. eauto.
Qed.

Lemma ranked_leaderboard_total db :
  exists data,
    leaderboard_data fromisoformat db = Ok data /\
    ranked_leaderboard fromisoformat db = Ok (rank data) /\
    Forall2 (fun student x => leaderboard_entry_of fromisoformat db student = Ok x)
      (zzz_students db) data.
Proof.
  destruct (mapM_total (leaderboard_entry_of fromisoformat db) (zzz_students db))
    as (data & Hd & Hall).
  { intros student _. apply leaderboard_entry_of_total. }
  exists data. split; [exact Hd|]. split; [|exact Hall].
  unfold ranked_leaderboard, leaderboard_data in *. now rewrite Hd.
Qed.

End PercentageFacts.

(** ** The percentage on floats *)

Section FloatFacts.


Lemma digits2_pos_bound m : Zpos m < 2 ^ Zpos (digits2_pos m).
Proof.
  induction m as [m IH|m IH|]; cbn [digits2_pos].
  - rewrite Pos2Z.inj_succ, Z.pow_succ_r by lia. lia.
  - rewrite Pos2Z.inj_succ, Z.pow_succ_r by lia. lia.
  - reflexivity.
Qed.




(** *** The sum does not see a term [+0.0] *)











(** *** The notions of the specification and those of the code *)











(** *** What the computation can raise *)







End FloatFacts.



(** ** Replacement of the leaderboard table *)

Section TableFacts.

Lemma batches_aux_concat {A : Type} fuel n (l : list A) :
  (0 < n)%nat -> (length l <= fuel)%nat -> concat (batches_aux fuel n l) = l.
Proof.
  intros Hn. revert l. induction fuel as [|fuel IH]; intros l Hl.
  - destruct l; [reflexivity | simpl in Hl; lia].
  - destruct l as [|a l]; [reflexivity|].
    cbn [batches_aux concat]. rewrite IH.
    + apply firstn_skipn.
    + rewrite length_skipn. simpl in *. lia.
Qed.

Lemma batches_concat {A : Type} n (l : list A) :
  (0 < n)%nat -> concat (batches n l) = l.
Proof. intros Hn. now apply batches_aux_concat. Qed.

Lemma insert_rows_Some batch t t' :
  insert_rows batch t = Some t' -> t' = fold_left put_row batch t.
Proof.
  revert t. induction batch as [|x batch IH]; intros t; simpl.
  - now intros [= <-].
  - destruct (t !! github_username x); [discriminate | apply IH].
Qed.

Lemma upserts_obliging o (rows : list leaderboard_entry) (t : leaderboard_table) :
  (forall x, upsert_raises o x = false) ->
  fold_left (fun t x => default t (table_upsert o x t)) rows t
  = fold_left put_row rows t.
Proof.
  intros Hu. revert t. induction rows as [|x rows IH]; intros t; simpl;
    [reflexivity|].
  unfold table_upsert at 2. rewrite Hu. simpl. apply IH.
Qed.

Lemma write_batch_obliging o t batch :
  insert_raises o batch = false ->
  (forall x, upsert_raises o x = false) ->
  write_batch o t batch = fold_left put_row batch t.
Proof.
  intros Hi Hu. unfold write_batch, table_insert. rewrite Hi.
  destruct (insert_rows batch t) as [t'|] eqn:E.
  - now apply insert_rows_Some.
  - now apply upserts_obliging.
Qed.

Lemma write_batches_obliging o t (bs : list (list leaderboard_entry)) :
  (forall b, insert_raises o b = false) ->
  (forall x, upsert_raises o x = false) ->
  fold_left (write_batch o) bs t = fold_left put_row (concat bs) t.
Proof.
  intros Hi Hu. revert t. induction bs as [|b bs IH]; intros t; simpl;
    [reflexivity|].
  rewrite write_batch_obliging by auto. rewrite IH. now rewrite fold_left_app.
Qed.

Lemma put_rows_other (rows : list leaderboard_entry) (t : leaderboard_table) u :
  ~ In u (List.map github_username rows) ->
  fold_left put_row rows t !! u = t !! u.
Proof.
  revert t. induction rows as [|x rows IH]; intros t Hu; simpl; [reflexivity|].
  simpl in Hu. rewrite IH by tauto. unfold put_row.
  apply lookup_insert_ne. tauto.
Qed.

Lemma upserts_other o (rows : list leaderboard_entry) (t : leaderboard_table) u :
  ~ In u (List.map github_username rows) ->
  fold_left (fun t x => default t (table_upsert o x t)) rows t !! u = t !! u.
Proof.
  revert t. induction rows as [|x rows IH]; intros t Hu; simpl; [reflexivity|].
  simpl in Hu. rewrite IH by tauto. unfold table_upsert.
  destruct (upsert_raises o x); simpl; [reflexivity|].
  unfold put_row. apply lookup_insert_ne. tauto.
Qed.

Lemma write_batch_other o (t : leaderboard_table) batch u :
  ~ In u (List.map github_username batch) ->
  write_batch o t batch !! u = t !! u.
Proof.
  intros Hu. unfold write_batch, table_insert.
  destruct (insert_raises o batch); [now apply upserts_other|].
  destruct (insert_rows batch t) as [t'|] eqn:E; [|now apply upserts_other].
  rewrite (insert_rows_Some _ _ _ E). now apply put_rows_other.
Qed.

Lemma write_batches_other o (t : leaderboard_table) bs u :
  ~ In u (List.map github_username (concat bs)) ->
  fold_left (write_batch o) bs t !! u = t !! u.
Proof.
  revert t. induction bs as [|b bs IH]; intros t Hu; simpl; [reflexivity|].
  simpl in Hu. rewrite map_app, in_app_iff in Hu.
  rewrite IH by tauto. apply write_batch_other. tauto.
Qed.

End TableFacts.

(** C7, as the code has it.  With an empty student table the refresh
    returns at once and leaves the leaderboard table as it was.
    Otherwise it computes the ranked entries and writes them; when the
    store accepts the clear and every write, the table is then exactly
    the recomputed entries, one row per username, whatever it held
    before.  A refused clear is tolerated: the rows of usernames that
    are not recomputed then stay as the earlier run left them. *)
Theorem refresh_replaces_leaderboard :
  forall (fromisoformat : string -> option datetime) (o : store_outcomes)
         (db : snapshot) (t : leaderboard_table),
    (zzz_students db = [] ->
     refresh_admin_leaderboard fromisoformat o db t = (t, Ok tt)) /\
    (zzz_students db <> [] ->
     exists ranked t',
       ranked_leaderboard fromisoformat db = Ok ranked /\
       refresh_admin_leaderboard fromisoformat o db t = (t', Ok tt) /\
       (delete_raises o = false ->
        (forall batch, insert_raises o batch = false) ->
        (forall x, upsert_raises o x = false) ->
        t' = fold_left put_row ranked ∅) /\
       (delete_raises o = true ->
        forall u, ~ In u (List.map github_username ranked) ->
                  t' !! u = t !! u)).
Proof.
  intros fromisoformat o db t. unfold refresh_admin_leaderboard. split.
  - now intros ->.
  - intros Hne.
    destruct (ranked_leaderboard_total fromisoformat db) as (data & _ & Hr & _).
    rewrite Hr. destruct (zzz_students db) as [|student students]; [contradiction|].
    eexists. eexists. split; [reflexivity|]. split; [reflexivity|]. split.
    + intros Hd Hi Hu. unfold table_delete. rewrite Hd. simpl.
      rewrite write_batches_obliging by auto.
      rewrite batches_concat by lia. reflexivity.
    + intros Hd u Hu. unfold table_delete. rewrite Hd. simpl.
      apply write_batches_other. rewrite batches_concat by lia. exact Hu.
Qed.

Lemma refresh_replaces_leaderboard_witness :
  zzz_students one_of_four <> [] /\
  exists ranked t',
    ranked_leaderboard Iso.fromisoformat one_of_four = Ok ranked /\
    refresh_admin_leaderboard Iso.fromisoformat obliging one_of_four stale_table
    = (t', Ok tt) /\
    t' = fold_left put_row ranked ∅.
Proof.
  split; [discriminate|].
  destruct (proj2 (refresh_replaces_leaderboard
                     Iso.fromisoformat obliging one_of_four stale_table)
              ltac:(discriminate)) as (ranked & t' & Hr & Ht & Hall & _).
  exists ranked, t'. split; [exact Hr|]. split; [exact Ht|].
  apply Hall; [reflexivity | intros; reflexivity | intros; reflexivity].
Defined.

(** C7 as stated fails.  When the store refuses the clear, the row of
    [hal], who is not in the snapshot, is still in the table after the
    refresh; and when the student table is empty the refresh leaves the
    earlier rows in place. *)
Lemma refresh_keeps_stale_rows :
  (exists ranked,
      ranked_leaderboard Iso.fromisoformat one_of_four = Ok ranked /\
      List.map github_username ranked = ["satoshi"]) /\
  stale_table !! "hal" = Some (set_ranking_position 1 (entry "hal" (Some 5) 100)) /\
  fst (refresh_admin_leaderboard Iso.fromisoformat refusing_delete
         one_of_four stale_table) !! "hal"
  = Some (set_ranking_position 1 (entry "hal" (Some 5) 100)) /\
  refresh_admin_leaderboard Iso.fromisoformat obliging no_students stale_table
  = (stale_table, Ok tt).
Proof.
  split; [eexists; split; vm_compute; reflexivity|].
  split; [vm_compute; reflexivity|].
  split; [vm_compute; reflexivity | reflexivity].
Qed.

(** ** Student aggregates of the reconciler *)

Section ReconcilerFacts.

Variable fromisoformat : string -> option datetime.
Variable world : Type.
Variable gh_api_repo : string -> world -> world * option repo_info.
Variable gh_api_runs : string -> world -> world * option workflow_info.

Abbreviation process_row' := (process_row fromisoformat world gh_api_repo gh_api_runs).
Abbreviation process_rows' := (process_rows fromisoformat world gh_api_repo gh_api_runs).
Abbreviation process_assignment' :=
  (process_assignment fromisoformat world gh_api_repo gh_api_runs).

Lemma add_student_keeps record r u x :
  students_with_repo_info r !! u = Some x ->
  students_with_repo_info (add_student_if_absent record r) !! u = Some x.
Proof.
  intros H. unfold add_student_if_absent.
  destruct (students_with_repo_info r !! sa_github_username record) eqn:E;
    [exact H|].
  simpl. rewrite lookup_insert_ne; [exact H | congruence].
Qed.

Lemma add_student_self record r :
  students_with_repo_info (add_student_if_absent record r)
    !! sa_github_username record
  = Some (default record (students_with_repo_info r !! sa_github_username record)).
Proof.
  unfold add_student_if_absent.
  destruct (students_with_repo_info r !! sa_github_username record) eqn:E;
    simpl; [exact E | apply lookup_insert_eq].
Qed.

Lemma process_row_keeps name st row u x :
  students_with_repo_info (fst st) !! u = Some x ->
  students_with_repo_info (fst (process_row' name st row)) !! u = Some x.
Proof.
  destruct st as [r w]. simpl. intros H. unfold process_row.
  destruct (cell_truthy _); [|exact H].
  destruct (get_repository_info _ _ _ w) as [w1 [info|]];
    destruct (get_workflow_runs _ _ _ w1) as [w2 wf]; simpl.
  - destruct (is_fork info); simpl; [|now apply add_student_keeps].
    unfold record_fork. now apply add_student_keeps.
  - now apply add_student_keeps.
Qed.

Lemma process_rows_keeps name rows st u x :
  students_with_repo_info (fst st) !! u = Some x ->
  students_with_repo_info (fst (process_rows' name rows st)) !! u = Some x.
Proof.
  unfold process_rows. revert st.
  induction rows as [|row rows IH]; intros st H; simpl; [exact H|].
  apply IH. now apply process_row_keeps.
Qed.

Lemma process_assignment_keeps st a u x :
  students_with_repo_info (fst st) !! u = Some x ->
  students_with_repo_info (fst (process_assignment' st a)) !! u = Some x.
Proof.
  intros H. unfold process_assignment.
  destruct a as [assignment_name [[|row rows]|]]; try exact H.
  destruct (format_assignment_name assignment_name); [|exact H].
  now apply process_rows_keeps.
Qed.

Lemma process_assignments_keep assignments st u x :
  students_with_repo_info (fst st) !! u = Some x ->
  students_with_repo_info (fst (fold_left process_assignment' assignments st)) !! u
  = Some x.
Proof.
  revert st. induction assignments as [|a assignments IH]; intros st H; simpl;
    [exact H|].
  apply IH. now apply process_assignment_keeps.
Qed.

Lemma process_row_without_fork name st row :
  cell_truthy (default (Text "") (csv_student_repository_url row)) = true ->
  (forall info,
      snd (get_repository_info world gh_api_repo
             (default (Text "") (csv_student_repository_url row)) (snd st))
      = Some info -> is_fork info = false) ->
  students_with_repo_info (fst (process_row' name st row))
    !! strip_str (csv_github_username row)
  = Some (default (student_without_fork (strip_str (csv_github_username row)))
            (students_with_repo_info (fst st)
               !! strip_str (csv_github_username row))).
Proof.
  destruct st as [r w]. simpl. intros Hurl Hinfo. unfold process_row.
  rewrite Hurl.
  destruct (get_repository_info _ _ _ w) as [w1 [info|]];
    destruct (get_workflow_runs _ _ _ w1) as [w2 wf]; simpl in *.
  - rewrite (Hinfo info eq_refl). simpl.
    apply (add_student_self (student_without_fork _)).
  - apply (add_student_self (student_without_fork _)).
Qed.

Lemma process_row_without_url name st row :
  cell_truthy (default (Text "") (csv_student_repository_url row)) = false ->
  process_row' name st row = st.
Proof.
  destruct st as [r w]. intros Hurl. unfold process_row. now rewrite Hurl.
Qed.

End ReconcilerFacts.

(** C5, amended for the first write.  Take a grade row whose repository
    cell holds a URL, or NaN when the field of the export is empty, and
    whose repository is not a fork or is unknown (the fetch failed, or
    the cell holds no URL).  Once the rows of its assignment are
    processed, the username has a Student aggregate: the one it already
    had when an earlier row of the run gave it one (the first write
    wins), else one with [has_fork] false and null timestamps.  The
    rest of the run leaves that aggregate in place, so the student is
    not dropped.  In the scenario of three students all three have an
    aggregate. *)
Theorem student_without_fork_keeps_aggregate :
  forall (fromisoformat : string -> option datetime) (world : Type)
         (gh_api_repo : string -> world -> world * option repo_info)
         (gh_api_runs : string -> world -> world * option workflow_info)
         (formatted_name : string) (rows_before rows_after : list csv_row)
         (row : csv_row) (st : reconciler * world),
    let before :=
      process_rows fromisoformat world gh_api_repo gh_api_runs
        formatted_name rows_before st in
    let final :=
      process_rows fromisoformat world gh_api_repo gh_api_runs
        formatted_name (rows_before ++ row :: rows_after) st in
    let url := default (Text "") (csv_student_repository_url row) in
    let username := strip_str (csv_github_username row) in
    let aggregate :=
      default (student_without_fork username)
        (students_with_repo_info (fst before) !! username) in
    cell_truthy url = true ->
    (forall info,
        snd (get_repository_info world gh_api_repo url (snd before)) = Some info ->
        is_fork info = false) ->
    students_with_repo_info (fst final) !! username = Some aggregate /\
    (students_with_repo_info (fst before) !! username = None ->
     sa_has_fork aggregate = false /\
     sa_fork_created_at aggregate = None /\
     sa_last_updated_at aggregate = None /\
     sa_resolution_time_hours aggregate = None) /\
    (forall assignments,
        students_with_repo_info
          (fst (fold_left
                  (process_assignment fromisoformat world gh_api_repo gh_api_runs)
                  assignments final)) !! username
        = Some aggregate) /\
    List.map (fun u => sa_has_fork
                <$> students_with_repo_info
                      (fst (reconcile Iso.fromisoformat unit scenario_repo
                              scenario_runs scenario tt)) !! u)
      ["alice"; "bob"; "carol"]
    = [Some false; Some true; Some true].
Proof.
  intros fromisoformat world gh_api_repo gh_api_runs formatted_name
    rows_before rows_after row st before final url username aggregate Hurl Hinfo.
  assert (Hfinal : students_with_repo_info (fst final) !! username = Some aggregate).
  { subst final. unfold process_rows. rewrite fold_left_app. simpl.
    apply (process_rows_keeps fromisoformat world gh_api_repo gh_api_runs
             formatted_name rows_after).
    apply process_row_without_fork; assumption. }
  split; [exact Hfinal|]. split; [|split].
  - subst aggregate. intros ->. simpl. auto.
  - intros assignments. now apply process_assignments_keep.
  - vm_compute. reflexivity.
Qed.

Lemma student_without_fork_keeps_aggregate_witness :
  cell_truthy (Text (repo_url "part-1" "alice")) = true /\
  students_with_repo_info
    (fst (process_rows Iso.fromisoformat unit scenario_repo scenario_runs
            "part-1" (scenario_rows "part-1") (empty_reconciler, tt)))
    !! "alice"
  = Some (student_without_fork "alice").
Proof.
  split; [reflexivity|].
  exact (proj1 (student_without_fork_keeps_aggregate
                  Iso.fromisoformat unit scenario_repo scenario_runs "part-1"
                  [] (List.tl (scenario_rows "part-1"))
                  (List.hd {| csv_github_username := "";
                              csv_points_awarded := None;
                              csv_points_available := None;
                              csv_student_repository_url := None |}
                     (scenario_rows "part-1"))
                  (empty_reconciler, tt) eq_refl
                  ltac:(vm_compute; intros; discriminate))).
Defined.

(** C5 as stated fails.  [hal] forked the first assignment; his
    repository of the second one is fetched and is not a fork, yet his
    aggregate is the one of the fork, with [has_fork] true and its two
    timestamps: the first aggregate of a username is the one that is
    kept. *)
Lemma plain_repository_keeps_fork_aggregate :
  snd (get_repository_info unit fork_then_plain_repo
         (Text (repo_url "part-2" "hal")) tt) = Some not_a_fork /\
  is_fork not_a_fork = false /\
  students_with_repo_info
    (fst (reconcile Iso.fromisoformat unit fork_then_plain_repo
            scenario_runs fork_then_plain tt)) !! "hal"
  = Some {| sa_github_username := "hal";
            sa_fork_created_at := Some "2024-01-01T01:00:00Z";
            sa_last_updated_at := Some "2024-01-03T00:30:00Z";
            sa_resolution_time_hours := Some 47;
            sa_has_fork := true |}.
Proof. repeat split; vm_compute; reflexivity. Qed.

(** The guard [if student_repo_url:] has no [else]: for a row of an
    export without the [student_repository_url] column [row.get] gives
    [''] and the row loop makes no aggregate, where the two branches
    beside it (repository not a fork, repository not fetched) make the
    one without a fork. *)
Lemma row_without_url_column_makes_no_aggregate :
  students_with_repo_info
    (fst (reconcile Iso.fromisoformat unit scenario_repo scenario_runs
            export_without_urls tt)) !! "satoshi" = None.
Proof. vm_compute. reflexivity. Qed.

(** ** Retry of the sink writes *)

Section RetryFacts.

Context {A : Type}.
Variables (table on_conflict what : string).
Variable max_retries : Z.
Variable data : list A.

Abbreviation the_call :=
  {| uc_table := table; uc_rows := data; uc_on_conflict := on_conflict |}.

Abbreviation retry := (retry_from table on_conflict what max_retries data).

(** Every answer of [causes] is a failure and the loop runs out on the
    last of them. *)
Lemma retry_from_exhausted causes :
  forall (todo : nat) (attempt : Z) (s : store A) rest e,
    Z.of_nat todo = max_retries - attempt ->
    answers s = (Some <$> causes) ++ rest ->
    length causes = todo ->
    causes <> [] ->
    retry todo attempt s
    = ({| answers := rest; calls := calls s ++ replicate todo the_call |},
       Raise (SupabaseSyncError (failure_message what (List.last causes e))
                (List.last causes e))).
Proof.
  induction causes as [|c causes IH]; intros todo attempt s rest e Hinv Hans Hlen Hne;
    [contradiction|].
  destruct todo as [|todo]; [discriminate|]. injection Hlen as Hlen.
  cbn [retry_from]. unfold upsert. rewrite Hans. cbn [fmap list_fmap app].
  destruct causes as [|c' causes].
  - subst todo. change (Z.of_nat 1 = max_retries - attempt) in Hinv.
    assert (E : (attempt =? max_retries - 1) = true) by (apply Z.eqb_eq; lia).
    rewrite E. reflexivity.
  - assert (E : (attempt =? max_retries - 1) = false)
      by (apply Z.eqb_neq; subst todo; cbn [length] in Hinv; lia).
    rewrite E.
    rewrite (IH todo (attempt + 1) _ rest e); try assumption;
      [|lia|reflexivity|discriminate].
    cbn [calls answers]. rewrite <- app_assoc. reflexivity.
Qed.

(** The first answer that is not a failure ends the loop. *)
Lemma retry_from_success causes :
  forall (todo : nat) (attempt : Z) (s : store A) rest,
    Z.of_nat todo = max_retries - attempt ->
    answers s = (Some <$> causes) ++ rest ->
    (length causes < todo)%nat ->
    List.hd None rest = None ->
    retry todo attempt s
    = ({| answers := List.tl rest;
          calls := calls s ++ replicate (S (length causes)) the_call |},
       Ok tt).
Proof.
  induction causes as [|c causes IH]; intros todo attempt s rest Hinv Hans Hlen Hhd.
  - destruct todo as [|todo]; [simpl in Hlen; lia|].
    cbn [retry_from]. unfold upsert. rewrite Hans. simpl.
    destruct rest as [|[e|] rest]; simpl in *; try discriminate; reflexivity.
  - destruct todo as [|todo]; [simpl in Hlen; lia|]. simpl in Hlen.
    cbn [retry_from]. unfold upsert. rewrite Hans. cbn [fmap list_fmap app].
    assert (E : (attempt =? max_retries - 1) = false) by (apply Z.eqb_neq; lia).
    rewrite E.
    rewrite (IH todo (attempt + 1) _ rest); try assumption;
      [|lia|reflexivity|lia].
    cbn [calls answers]. rewrite <- app_assoc. reflexivity.
Qed.

End RetryFacts.

(** C8.  A sync method that has records to write sends the same upsert
    (table, prepared records, conflict columns) at every attempt.  When
    the store fails [max_retries] times in a row, the method has made
    exactly [max_retries] attempts and raises [SupabaseSyncError] with
    the exception of the last one.  When a write goes through after
    fewer failures, the method returns at once: it has made one attempt
    per failure and the successful one, and no other. *)
Theorem sync_retries_same_payload :
  forall (I A : Type) (table on_conflict what : string)
         (prepare : I -> option A) (max_retries : Z) (input : list I)
         (s : store A) (causes : list exn) (rest : list (option exn)),
    let supabase_data := omap prepare input in
    let call :=
      {| uc_table := table; uc_rows := supabase_data;
         uc_on_conflict := on_conflict |} in
    let out :=
      sync_to_supabase table on_conflict what prepare max_retries input s in
    supabase_data <> [] ->
    answers s = (Some <$> causes) ++ rest ->
    (causes <> [] -> length causes = Z.to_nat max_retries ->
     exists e,
       List.last causes e = e /\
       snd out = Raise (SupabaseSyncError (failure_message what e) e) /\
       calls (fst out) = calls s ++ replicate (Z.to_nat max_retries) call) /\
    ((length causes < Z.to_nat max_retries)%nat -> List.hd None rest = None ->
     snd out = Ok tt /\
     calls (fst out) = calls s ++ replicate (S (length causes)) call /\
     answers (fst out) = List.tl rest).
Proof.
  intros I A table on_conflict what prepare max_retries input s causes rest
    supabase_data call out Hdata Hans.
  assert (Hout : out = upsert_with_retry table on_conflict what max_retries
                         supabase_data s).
  { subst out. unfold sync_to_supabase. fold supabase_data.
    destruct input as [|i input]; [now contradiction Hdata|].
    destruct supabase_data; [contradiction | reflexivity]. }
  rewrite Hout. unfold upsert_with_retry. split.
  - intros Hne Hlen.
    assert (Hpos : 0 < max_retries) by (destruct causes; [contradiction | simpl in Hlen; lia]).
    destruct (exists_last Hne) as (front & e & Hc).
    exists e.
    assert (He : List.last causes e = e) by (rewrite Hc; apply last_last).
    split; [exact He|].
    rewrite (retry_from_exhausted table on_conflict what max_retries
               supabase_data causes _ 0 s rest e); auto; [|lia].
    rewrite He. simpl. auto.
  - intros Hlen Hhd.
    rewrite (retry_from_success table on_conflict what max_retries
               supabase_data causes _ 0 s rest); auto; lia.
Qed.

Lemma sync_retries_same_payload_witness :
  snd (sync_grades_to_supabase 3 one_grade failing_thrice)
  = Raise (SupabaseSyncError "Failed to sync grades after max_retries attempts"
             (APIError "unavailable")) /\
  List.map uc_rows (calls (fst (sync_grades_to_supabase 3 one_grade failing_thrice)))
  = [one_grade; one_grade; one_grade] /\
  snd (sync_grades_to_supabase 4 one_grade failing_thrice) = Ok tt /\
  length (calls (fst (sync_grades_to_supabase 4 one_grade failing_thrice))) = 4%nat.
Proof.
  pose proof (sync_retries_same_payload
                grade_record grade_record "zzz_grades"
                "github_username,assignment_name" "grades" prepare_grade) as T.
  destruct (T 3 one_grade failing_thrice
              [APIError "timeout"; OtherException "reset"; APIError "unavailable"]
              [None] ltac:(discriminate) eq_refl) as [Hfail _].
  destruct (Hfail ltac:(discriminate) eq_refl) as (e & He & Hr & Hc).
  destruct (T 4 one_grade failing_thrice
              [APIError "timeout"; OtherException "reset"; APIError "unavailable"]
              [None] ltac:(discriminate) eq_refl) as [_ Hok].
  destruct (Hok ltac:(simpl; lia) eq_refl) as (Hr4 & Hc4 & _).
  simpl in He. subst e.
  split; [exact Hr|]. split; [|split; [exact Hr4|]].
  - unfold sync_grades_to_supabase. rewrite Hc. reflexivity.
  - unfold sync_grades_to_supabase. rewrite Hc4. reflexivity.
Defined.

(* ===================================================================== *)
(** * Part III. Further properties of the code                            *)
(* ===================================================================== *)

(** ** Shape of a normalized key *)

Section KeyShape.

Import PyStr.

Lemma rstrip_end p s k c : rstrip p s = k ++ [c] -> p c = false.
Proof.
  revert k. induction s as [|a s IH]; intros k; simpl.
  - destruct k; discriminate.
  - destruct (rstrip p s) as [|d r] eqn:E.
    + destruct (p a) eqn:Ha; [destruct k; discriminate|].
      destruct k as [|b [|b' k]]; simpl; try discriminate. congruence.
    + destruct k as [|b k]; simpl; [discriminate|].
      intros [= _ H]. now apply (IH k).
Qed.

Lemma eqb_hyphen c : Ascii.eqb "-"%char c = is_hyphen c.
Proof. destruct c as [[] [] [] [] [] [] [] []]; reflexivity. Qed.

Lemma squeezed_no_double_hyphen b s :
  squeezed b s -> contains ["-"%char; "-"%char] s = false.
Proof.
  revert b. induction s as [|c s IH]; intros b; [reflexivity|].
  intros [_ Hs]. cbn [contains]. rewrite (IH _ Hs), orb_false_r.
  cbn [startswith]. rewrite eqb_hyphen.
  destruct s as [|d s]; [apply andb_false_r|].
  destruct Hs as [Hd _]. rewrite eqb_hyphen.
  destruct (is_hyphen c); [|reflexivity].
  now rewrite (Hd eq_refl).
Qed.

End KeyShape.

(** The key of every non-empty name is made of the characters
    [[a-z0-9-]] only, has no hyphen at either end and no two hyphens in
    a row. *)
Theorem format_assignment_name_slug :
  forall name key : string,
    format_assignment_name name = Ok key ->
    Forall (fun c => key_char c = true) (PyStr.chars key) /\
    PyStr.startswith ["-"%char] (PyStr.chars key) = false /\
    (forall front, PyStr.chars key <> front ++ ["-"%char]) /\
    PyStr.contains ["-"%char; "-"%char] (PyStr.chars key) = false.
Proof.
  intros name key H. rewrite (format_assignment_name_Ok _ _ H), chars_str.
  split; [apply format_chars_key|]. split; [|split].
  - pose proof (rstrip_front_clean PyStr.is_hyphen _
                  (lstrip_front_clean PyStr.is_hyphen
                     (PyStr.re_sub_runs PyStr.is_hyphen false
                        (PyStr.re_sub_runs PyStr.isspace false
                           (List.filter keep_char
                              (PyStr.lower (PyStr.chars name))))))) as Hf.
    fold (PyStr.strip PyStr.is_hyphen) in Hf.
    change (front_clean PyStr.is_hyphen (format_chars (PyStr.chars name))) in Hf.
    destruct (format_chars (PyStr.chars name)) as [|c k]; [reflexivity|].
    simpl in Hf. cbn [PyStr.startswith]. now rewrite eqb_hyphen, Hf.
  - intros front E. unfold format_chars, PyStr.strip in E.
    apply rstrip_end in E. discriminate.
  - eapply squeezed_no_double_hyphen, format_chars_squeezed.
Qed.

Lemma format_assignment_name_slug_witness :
  format_assignment_name " --The Moria: Mining  Codex-- " = Ok "the-moria-mining-codex" /\
  PyStr.startswith ["-"%char] (PyStr.chars "the-moria-mining-codex") = false.
Proof.
  split; [reflexivity|].
  exact (proj1 (proj2 (format_assignment_name_slug
                         " --The Moria: Mining  Codex-- "
                         "the-moria-mining-codex" eq_refl))).
Defined.

(** ** Splitting *)

Section SplitFacts.

Import PyStr.

Lemma split_nonempty sep s : split sep s <> [].
Proof.
  destruct s as [|c s]; simpl; [discriminate|].
  destruct (Ascii.eqb c sep); [discriminate|].
  destruct (split sep s); discriminate.
Qed.

Lemma split_free sep s : ~ In sep s -> split sep s = [s].
Proof.
  induction s as [|c s IH]; simpl; [reflexivity|]. intros H.
  destruct (Ascii.eqb_spec c sep) as [->|_]; [tauto|].
  rewrite IH by tauto. reflexivity.
Qed.

Lemma split_app sep a b :
  ~ In sep a -> split sep (a ++ sep :: b) = a :: split sep b.
Proof.
  induction a as [|c a IH]; simpl; intros H.
  - now rewrite Ascii.eqb_refl.
  - destruct (Ascii.eqb_spec c sep) as [->|_]; [tauto|].
    rewrite IH by tauto. reflexivity.
Qed.

Lemma unsplit_cons sep w ws :
  flat_map (fun q => sep :: q) (w :: ws) = sep :: unsplit sep (w :: ws).
Proof. reflexivity. Qed.

(** Joining the parts with the separator gives the string back. *)
Lemma unsplit_split sep s : unsplit sep (split sep s) = s.
Proof.
  induction s as [|c s IH]; simpl; [reflexivity|].
  pose proof (split_nonempty sep s) as Hne.
  destruct (Ascii.eqb_spec c sep) as [->|_];
    destruct (split sep s) as [|w ws]; try contradiction.
  - cbn [unsplit app]. rewrite unsplit_cons. now rewrite IH.
  - cbn [unsplit] in *. simpl. now rewrite IH.
Qed.

Lemma split_parts_free sep s : Forall (fun part => ~ In sep part) (split sep s).
Proof.
  induction s as [|c s IH]; simpl; [constructor; [tauto | constructor]|].
  destruct (Ascii.eqb_spec c sep) as [->|Hne].
  - constructor; [tauto | exact IH].
  - destruct (split sep s) as [|w ws]; [constructor; [|constructor]|].
    + simpl. intros [H|[]]. congruence.
    + apply Forall_cons in IH as [Hw Hws]. constructor; [|exact Hws].
      simpl. intros [H|H]; [congruence | tauto].
Qed.

(** Two parts come from exactly one separator. *)
Lemma split_two sep s a b :
  split sep s = [a; b] <-> s = a ++ sep :: b /\ ~ In sep a /\ ~ In sep b.
Proof.
  split.
  - intros H. pose proof (unsplit_split sep s) as Hu.
    pose proof (split_parts_free sep s) as Hf. rewrite H in Hu, Hf.
    apply Forall_cons in Hf as [Ha Hf]. apply Forall_cons in Hf as [Hb _].
    simpl in Hu. rewrite app_nil_r in Hu. auto.
  - intros (-> & Ha & Hb). rewrite split_app by exact Ha.
    now rewrite split_free.
Qed.

End SplitFacts.

(** ** Repository URLs *)

Section UrlFacts.

Import PyStr.

Lemma chars_append s1 s2 : chars (s1 +:+ s2) = chars s1 ++ chars s2.
Proof. induction s1 as [|c s1 IH]; simpl; [reflexivity|]. now rewrite IH. Qed.

Lemma str_app l1 l2 : str (l1 ++ l2) = str l1 +:+ str l2.
Proof. induction l1 as [|c l1 IH]; simpl; [reflexivity|]. now rewrite IH. Qed.

Lemma startswith_app p s : startswith p s = true -> exists rest, s = p ++ rest.
Proof.
  revert s. induction p as [|a p IH]; intros s; simpl; [eauto|].
  destruct s as [|b s]; [discriminate|].
  destruct (Ascii.eqb_spec a b) as [->|]; [|discriminate].
  simpl. intros H. destruct (IH _ H) as [rest ->]. eauto.
Qed.

Lemma startswith_count p s c :
  startswith p s = true ->
  (count_occ ascii_dec p c <= count_occ ascii_dec s c)%nat.
Proof.
  intros H. destruct (startswith_app _ _ H) as [rest ->].
  rewrite count_occ_app. lia.
Qed.

(** A string with fewer than three slashes holds no occurrence of the
    prefix, which has three. *)
Lemma replace_prefix_absent new s :
  (count_occ ascii_dec s "/"%char < 3)%nat ->
  replace_sub github_prefix new 0 s = s.
Proof.
  induction s as [|c s IH]; intros Hc; [reflexivity|].
  cbn [replace_sub].
  destruct (startswith github_prefix (c :: s)) eqn:E.
  - apply (startswith_count _ _ "/"%char) in E.
    change (count_occ ascii_dec github_prefix "/"%char) with 3%nat in E. lia.
  - f_equal. apply IH. simpl in Hc. destruct (ascii_dec c "/"); lia.
Qed.

Lemma replace_prefix_front s :
  replace_sub github_prefix [] 0 (github_prefix ++ s)
  = replace_sub github_prefix [] 0 s.
Proof. reflexivity. Qed.

Lemma count_free c s : ~ In c s -> count_occ ascii_dec s c = 0%nat.
Proof. apply count_occ_not_In. Qed.

Lemma url_parts_canonical (owner repo : string) :
  ~ In "/"%char (chars owner) -> ~ In "/"%char (chars repo) ->
  url_parts ("https://github.com/" +:+ owner +:+ "/" +:+ repo)
  = [chars owner; chars repo].
Proof.
  intros Ho Hr. unfold url_parts.
  rewrite chars_append. change (chars "https://github.com/") with github_prefix.
  rewrite replace_prefix_front, !chars_append.
  rewrite replace_prefix_absent.
  - apply split_two. auto.
  - rewrite !count_occ_app, (count_free _ _ Ho), (count_free _ _ Hr).
    simpl. lia.
Qed.

End UrlFacts.

(** [get_repository_info] runs the command exactly for the URLs that,
    once the occurrences of [https://github.com/] are removed, are an
    owner and a repository around one slash; the endpoint is then
    [repos/owner/repo].  Any other URL is refused without a request. *)
Theorem repo_api_endpoint_one_slash :
  forall (url endpoint : string),
    repo_api_endpoint (Text url) = Some endpoint <->
    url <> EmptyString /\
    exists owner repo,
      replace_sub github_prefix [] 0 (PyStr.chars url) = owner ++ "/"%char :: repo /\
      ~ In "/"%char owner /\ ~ In "/"%char repo /\
      endpoint = "repos/" +:+ PyStr.str owner +:+ "/" +:+ PyStr.str repo.
Proof.
  intros url endpoint. unfold repo_api_endpoint, url_parts. split.
  - destruct url as [|c url]; [discriminate|].
    destruct (PyStr.split _ _) as [|owner [|repo [|x xs]]] eqn:E; try discriminate.
    intros [= <-]. split; [discriminate|].
    apply split_two in E as (E & Ho & Hr). exists owner, repo. auto.
  - intros (Hne & owner & repo & E & Ho & Hr & ->).
    destruct url as [|c url]; [contradiction|].
    rewrite E. rewrite (proj2 (split_two "/"%char _ owner repo)) by auto.
    reflexivity.
Qed.

(** The URL of a repository as GitHub Classroom exports it gives the
    endpoints [repos/owner/repo] and
    [repos/owner/repo/actions/runs?per_page=100]; the same URL with a
    slash at its end is refused by both methods. *)
Theorem canonical_repo_url_endpoints :
  forall owner repo : string,
    ~ In "/"%char (PyStr.chars owner) -> ~ In "/"%char (PyStr.chars repo) ->
    let url := "https://github.com/" +:+ owner +:+ "/" +:+ repo in
    repo_api_endpoint (Text url) = Some ("repos/" +:+ owner +:+ "/" +:+ repo) /\
    runs_api_endpoint (Text url)
    = Some ("repos/" +:+ owner +:+ "/" +:+ repo +:+ "/actions/runs?per_page=100") /\
    repo_api_endpoint (Text (url +:+ "/")) = None /\
    runs_api_endpoint (Text (url +:+ "/")) = None.
Proof.
  intros owner repo Ho Hr url.
  assert (Hparts : url_parts url = [PyStr.chars owner; PyStr.chars repo])
    by now apply url_parts_canonical.
  assert (Hslash : url_parts (url +:+ "/")
                   = [PyStr.chars owner; PyStr.chars repo; []]).
  { subst url. unfold url_parts.
    rewrite !chars_append. change (PyStr.chars "https://github.com/") with github_prefix.
    rewrite <- !app_assoc, replace_prefix_front.
    rewrite replace_prefix_absent.
    - simpl. rewrite split_app by exact Ho. rewrite split_app by exact Hr.
      reflexivity.
    - rewrite !count_occ_app, (count_free _ _ Ho), (count_free _ _ Hr).
      simpl. lia. }
  unfold repo_api_endpoint, runs_api_endpoint.
  rewrite Hparts, Hslash, !str_chars. subst url. simpl. auto.
Qed.

Lemma canonical_repo_url_endpoints_witness :
  repo_api_endpoint (Text "https://github.com/B4OS-Dev/the-moria-mining-codex-part-1-kleysc")
  = Some "repos/B4OS-Dev/the-moria-mining-codex-part-1-kleysc" /\
  repo_api_endpoint (Text "https://github.com/B4OS-Dev/the-moria-mining-codex-part-1-kleysc/")
  = None.
Proof.
  assert (Ho : ~ In "/"%char (PyStr.chars "B4OS-Dev"))
    by (simpl; intuition discriminate).
  assert (Hr : ~ In "/"%char (PyStr.chars "the-moria-mining-codex-part-1-kleysc"))
    by (simpl; intuition discriminate).
  destruct (canonical_repo_url_endpoints "B4OS-Dev"
              "the-moria-mining-codex-part-1-kleysc" Ho Hr) as (H1 & _ & H3 & _).
  split; [exact H1 | exact H3].
Defined.

(** ** Classroom listing *)

Section ClassroomFacts.

Import PyStr.

(** A word: not empty, no whitespace in it. *)
Lemma split_ws_words s :
  Forall (fun w => w <> [] /\ Forall (fun c => isspace c = false) w) (split_ws s).
Proof.
  induction s as [|c s IH]; [constructor|].
  cbn [split_ws]. destruct (isspace c) eqn:Hc; [exact IH|].
  destruct s as [|c' s'].
  - repeat constructor; [discriminate | exact Hc].
  - destruct (isspace c') eqn:Hc'.
    + constructor; [|exact IH]. split; [discriminate|]. now repeat constructor.
    + destruct (split_ws (c' :: s')) as [|w ws].
      * repeat constructor; [discriminate | exact Hc].
      * apply Forall_cons in IH as [[_ Hw] Hws].
        constructor; [|exact Hws]. split; [discriminate|]. now constructor.
Qed.

Lemma parse_classroom_line_words line id name :
  parse_classroom_line line = Some (id, name) ->
  exists rest, split_ws line = chars id :: chars name :: rest.
Proof.
  unfold parse_classroom_line. destruct (nonblank line); [|discriminate].
  destruct (split_ws line) as [|p0 [|p1 rest]]; try discriminate.
  intros [= <- <-]. exists rest. now rewrite !chars_str.
Qed.

Lemma find_name_found (classrooms : list (string * string)) name id :
  fst <$> List.find (fun c => String.eqb (snd c) name) classrooms = Some id ->
  In (id, name) classrooms.
Proof.
  destruct (List.find _ classrooms) as [[id' name']|] eqn:E; [|discriminate].
  intros [= <-]. apply find_some in E as [Hin Hn]. simpl in *.
  apply String.eqb_eq in Hn. now subst.
Qed.

Lemma get_classroom_id_found gh classroom_name id :
  get_classroom_id gh classroom_name = Returned (Some id) ->
  exists output line rest,
    gh = Returned output /\
    In line (skipn 3 (split "010"%char (strip isspace (chars output)))) /\
    split_ws line = chars id :: chars classroom_name :: rest.
Proof.
  unfold get_classroom_id. destruct gh as [output|]; [|discriminate].
  unfold _parse_classroom_list.
  destruct (_ <? 4)%nat; [discriminate|].
  intros [= H]. apply find_name_found in H.
  apply list_elem_of_In, list_elem_of_omap in H as (line & Hline & Hp).
  apply parse_classroom_line_words in Hp as [rest Hrest].
  exists output, line, rest. split; [reflexivity|]. split; [|exact Hrest].
  now apply list_elem_of_In.
Qed.

End ClassroomFacts.

(** A classroom id that [get_classroom_id] returns is the first word of
    a data line of the listing whose second word is the classroom name;
    the id is not empty, so [run_sync] never takes it for a missing
    classroom, and neither the id nor the name holds whitespace. *)
Theorem get_classroom_id_is_listed :
  forall (gh : gh_outcome string) (classroom_name id : string),
    get_classroom_id gh classroom_name = Returned (Some id) ->
    id <> EmptyString /\
    Forall (fun c => PyStr.isspace c = false) (PyStr.chars id) /\
    Forall (fun c => PyStr.isspace c = false) (PyStr.chars classroom_name) /\
    exists output line rest,
      gh = Returned output /\
      In line (skipn 3 (PyStr.split "010"%char
                          (PyStr.strip PyStr.isspace (PyStr.chars output)))) /\
      split_ws line = PyStr.chars id :: PyStr.chars classroom_name :: rest.
Proof.
  intros gh classroom_name id H.
  destruct (get_classroom_id_found _ _ _ H) as (output & line & rest & Hg & Hin & Hw).
  pose proof (split_ws_words line) as Hwords. rewrite Hw in Hwords.
  apply Forall_cons in Hwords as [[Hid Hids] Hwords].
  apply Forall_cons in Hwords as [[_ Hnames] _].
  split; [|split; [exact Hids|split; [exact Hnames|eauto 6]]].
  intros ->. now apply Hid.
Qed.

Lemma get_classroom_id_is_listed_witness :
  get_classroom_id (Returned classroom_listing) "B4OS-2025" = Returned (Some "284714") /\
  "284714" <> EmptyString.
Proof.
  split; [reflexivity|].
  exact (proj1 (get_classroom_id_is_listed (Returned classroom_listing)
                  "B4OS-2025" "284714" eq_refl)).
Defined.

(** A classroom whose name holds a whitespace character is never found,
    listed or not: the listing is cut into words and the name is
    compared with the second word of a line. *)
Theorem classroom_name_with_space_not_found :
  forall (gh : gh_outcome string) (classroom_name : string),
    (exists c, In c (PyStr.chars classroom_name) /\ PyStr.isspace c = true) ->
    forall id, get_classroom_id gh classroom_name <> Returned (Some id).
Proof.
  intros gh classroom_name (c & Hin & Hc) id H.
  destruct (get_classroom_id_found _ _ _ H) as (output & line & rest & _ & _ & Hw).
  pose proof (split_ws_words line) as Hwords. rewrite Hw in Hwords.
  apply Forall_cons in Hwords as [_ Hwords].
  apply Forall_cons in Hwords as [[_ Hnames] _].
  rewrite Stdlib.Lists.List.Forall_forall in Hnames.
  specialize (Hnames c Hin). congruence.
Qed.

Lemma classroom_name_with_space_not_found_witness :
  (exists c, In c (PyStr.chars "B4OS Dev") /\ PyStr.isspace c = true) /\
  get_classroom_id (Returned classroom_listing) "B4OS Dev" = Returned None /\
  get_classroom_id (Returned classroom_listing) "B4OS Dev" <> Returned (Some "284713").
Proof.
  assert (H : exists c, In c (PyStr.chars "B4OS Dev") /\ PyStr.isspace c = true).
  { exists " "%char. split; [simpl; tauto | reflexivity]. }
  split; [exact H|]. split; [reflexivity|].
  exact (classroom_name_with_space_not_found (Returned classroom_listing)
           "B4OS Dev" H "284713").
Defined.

(** ** Workflow run statistics *)

Lemma disjoint_filters {A : Type} (f g : A -> bool) (l : list A) :
  (forall a, f a && g a = false) ->
  (length (List.filter f l) + length (List.filter g l) <= length l)%nat /\
  ((length (List.filter f l) + length (List.filter g l) = length l)%nat <->
   Forall (fun a => f a = true \/ g a = true) l).
Proof.
  intros Hd. induction l as [|a l [IHle IHeq]]; simpl.
  - split; [lia|]. split; [constructor | reflexivity].
  - pose proof (Hd a) as Ha.
    pose proof (filter_length_le f l). pose proof (filter_length_le g l).
    destruct (f a) eqn:Hf, (g a) eqn:Hg; simpl in Ha; try discriminate Ha;
      simpl; split; try lia.
    + rewrite Forall_cons. split; [intros E; split; [tauto | apply IHeq; lia]|].
      intros [_ E]. apply IHeq in E. lia.
    + rewrite Forall_cons. split; [intros E; split; [tauto | apply IHeq; lia]|].
      intros [_ E]. apply IHeq in E. lia.
    + rewrite Forall_cons. split; [lia|]. intros [[E|E] _]; congruence.
Qed.

Lemma concluded_once r : concluded "success" r && concluded "failure" r = false.
Proof.
  unfold concluded. destruct (conclusion r) as [c|]; [|reflexivity].
  destruct (String.eqb_spec c "success") as [->|]; reflexivity.
Qed.

(** The statistics of a list of workflow runs.  Successes and failures
    are counted among the runs of the answer, so together they never
    exceed their number, and reach it exactly when every run concluded
    with one of the two.  The first attempt is the last run of the
    answer and the last attempt its first run; an empty answer has
    neither. *)
Theorem summarize_runs_counts :
  forall (total_count : option Z) (workflow_runs : list workflow_run),
    let info := summarize_runs total_count workflow_runs in
    0 <= wf_successful_attempts info /\
    0 <= wf_failed_attempts info /\
    wf_successful_attempts info + wf_failed_attempts info
      <= Z.of_nat (length workflow_runs) /\
    (wf_successful_attempts info + wf_failed_attempts info
       = Z.of_nat (length workflow_runs) <->
     Forall (fun r => conclusion r = Some "success" \/ conclusion r = Some "failure")
       workflow_runs) /\
    (workflow_runs = [] ->
     wf_first_attempt_at info = None /\ wf_last_attempt_at info = None) /\
    (forall front r, workflow_runs = front ++ [r] ->
                     wf_first_attempt_at info = run_created_at r) /\
    (forall r rest, workflow_runs = r :: rest ->
                    wf_last_attempt_at info = run_created_at r).
Proof.
  intros total_count workflow_runs info. subst info. simpl.
  destruct (disjoint_filters (concluded "success") (concluded "failure")
              workflow_runs concluded_once) as [Hle Heq].
  split; [lia|]. split; [lia|]. split; [lia|]. split; [|split; [|split]].
  - rewrite <- Nat2Z.inj_add, Nat2Z.inj_iff, Heq.
    apply Forall_iff. intros r. unfold concluded.
    destruct (conclusion r) as [c|]; [|intuition discriminate].
    rewrite !String.eqb_eq. intuition congruence.
  - now intros ->.
  - intros front r ->. rewrite fmap_app. simpl. now rewrite last_last.
  - now intros r rest ->.
Qed.

(** ** Sync methods: what is sent *)

Lemma sync_without_request_aux {I A : Type} (table on_conflict what : string)
  (prepare : I -> option A) (max_retries : Z) (input : list I) (s : store A) :
  omap prepare input = [] \/ max_retries <= 0 ->
  sync_to_supabase table on_conflict what prepare max_retries input s
  = (s, Ok tt).
Proof.
  intros H. unfold sync_to_supabase. destruct input as [|i input]; [reflexivity|].
  destruct (omap prepare (i :: input)) as [|a data]; [reflexivity|].
  destruct H as [H|H]; [discriminate|].
  unfold upsert_with_retry.
  now replace (Z.to_nat max_retries) with 0%nat by lia.
Qed.

Lemma upsert_calls {A : Type} (table on_conflict : string) (rows : list A)
  (s : store A) :
  calls (fst (upsert table rows on_conflict s))
  = calls s ++ [{| uc_table := table; uc_rows := rows;
                   uc_on_conflict := on_conflict |}].
Proof. unfold upsert. now destruct (answers s). Qed.

Lemma retry_from_calls {A : Type} (table on_conflict what : string)
  (max_retries : Z) (data : list A) (todo : nat) (attempt : Z) (s : store A) :
  exists more,
    calls (fst (retry_from table on_conflict what max_retries data
                  (S todo) attempt s))
    = calls s ++ {| uc_table := table; uc_rows := data;
                    uc_on_conflict := on_conflict |} :: more.
Proof.
  revert attempt s. induction todo as [|todo IH]; intros attempt s.
  - cbn [retry_from].
    pose proof (upsert_calls table on_conflict data s) as Hc.
    destruct (upsert table data on_conflict s) as [s' [e|]]; cbn [fst] in Hc;
      [destruct (attempt =? max_retries - 1)|]; exists []; exact Hc.
  - remember (S todo) as todo' eqn:Et. cbn [retry_from].
    pose proof (upsert_calls table on_conflict data s) as Hc.
    destruct (upsert table data on_conflict s) as [s' [e|]]; cbn [fst] in Hc;
      [destruct (attempt =? max_retries - 1)|]; try (exists []; exact Hc).
    subst todo'. destruct (IH (attempt + 1) s') as [more Hmore].
    eexists. rewrite Hmore, Hc, <- app_assoc. reflexivity.
Qed.

Lemma sync_to_supabase_requests {I A : Type} (table on_conflict what : string)
  (prepare : I -> option A) (max_retries : Z) (input : list I) (s : store A) :
  (forall i, is_Some (prepare i)) ->
  (input = [] \/ max_retries <= 0 ->
   sync_to_supabase table on_conflict what prepare max_retries input s
   = (s, Ok tt)) /\
  (input <> [] -> 1 <= max_retries ->
   exists more,
     calls (fst (sync_to_supabase table on_conflict what prepare max_retries
                   input s))
     = calls s ++ {| uc_table := table; uc_rows := omap prepare input;
                     uc_on_conflict := on_conflict |} :: more).
Proof.
  intros Hp. split.
  - intros [->|H]; [reflexivity|]. apply sync_without_request_aux. now right.
  - intros Hne Hm. unfold sync_to_supabase.
    destruct input as [|i input]; [contradiction|].
    destruct (omap prepare (i :: input)) as [|a data] eqn:E.
    + exfalso. destruct (Hp i) as [a Ha]. cbn in E. rewrite Ha in E.
      discriminate E.
    + unfold upsert_with_retry.
      destruct (Z.to_nat max_retries) as [|todo] eqn:Et; [lia|].
      apply retry_from_calls.
Qed.

(** The sync methods of the students, the assignments and the grades
    report success without a request to the store when they get an
    empty input, and when [max_retries] is zero or negative (the
    records are then lost without an error); with an input that is not
    empty and at least one attempt allowed they send the upsert of the
    prepared records. *)
Theorem sync_without_request :
  forall (now : string) (max_retries : Z),
    (forall students s,
        (students = [] \/ max_retries <= 0 ->
         sync_students_to_supabase now max_retries students s = (s, Ok tt)) /\
        (students <> [] -> 1 <= max_retries ->
         exists more,
           calls (fst (sync_students_to_supabase now max_retries students s))
           = calls s ++ {| uc_table := "zzz_students";
                           uc_rows := omap (prepare_student now) students;
                           uc_on_conflict := "github_username" |} :: more)) /\
    (forall assignments s,
        (assignments = [] \/ max_retries <= 0 ->
         sync_assignments_to_supabase now max_retries assignments s
         = (s, Ok tt)) /\
        (assignments <> [] -> 1 <= max_retries ->
         exists more,
           calls (fst (sync_assignments_to_supabase now max_retries
                         assignments s))
           = calls s ++ {| uc_table := "zzz_assignments";
                           uc_rows := omap (prepare_assignment now) assignments;
                           uc_on_conflict := "name" |} :: more)) /\
    (forall grades s,
        (grades = [] \/ max_retries <= 0 ->
         sync_grades_to_supabase max_retries grades s = (s, Ok tt)) /\
        (grades <> [] -> 1 <= max_retries ->
         exists more,
           calls (fst (sync_grades_to_supabase max_retries grades s))
           = calls s ++ {| uc_table := "zzz_grades";
                           uc_rows := omap prepare_grade grades;
                           uc_on_conflict := "github_username,assignment_name" |}
                        :: more)).
Proof.
  intros now max_retries. split; [|split]; intros input s;
    apply sync_to_supabase_requests; intros i; eexists; reflexivity.
Qed.

Lemma sync_without_request_witness :
  sync_grades_to_supabase 0 one_grade failing_thrice = (failing_thrice, Ok tt).
Proof.
  apply (proj1 (proj2 (proj2 (sync_without_request "" 0)) one_grade failing_thrice)).
  right. lia.
Defined.

Lemma prepare_attempt_Some now user_map assignment_map a row :
  prepare_attempt now user_map assignment_map a = Some row ->
  aw_attempt row = a /\ aw_updated_at row = now /\
  user_map !! at_github_username a = Some (aw_user_id row) /\
  assignment_map !! at_assignment_name a = Some (aw_assignment_id row) /\
  aw_user_id row <> EmptyString /\ aw_assignment_id row <> EmptyString.
Proof.
  unfold prepare_attempt.
  destruct (user_map !! at_github_username a) as [[|c u]|]; try discriminate.
  destruct (assignment_map !! at_assignment_name a) as [[|c' i]|]; try discriminate.
  intros [= <-]. simpl. repeat split; discriminate.
Qed.

Lemma prepare_attempt_mapped now user_map assignment_map attempts :
  List.map aw_attempt (omap (prepare_attempt now user_map assignment_map) attempts)
  = List.filter (fun a => has_id user_map (at_github_username a)
                          && has_id assignment_map (at_assignment_name a))
      attempts.
Proof.
  induction attempts as [|a attempts IH]; [reflexivity|].
  cbn [omap list_omap List.filter]. unfold has_id at 1 2, prepare_attempt at 1.
  destruct (user_map !! at_github_username a) as [[|c u]|]; simpl; try exact IH.
  destruct (assignment_map !! at_assignment_name a) as [[|c' i]|]; simpl;
    try exact IH.
  now rewrite <- IH.
Qed.

(** The mapping step of the attempts.  The rows that are sent are those
    of the attempts whose username and assignment both have a non-empty
    id, in their order and each with its ids; the other attempts are
    left out and do not stop the batch: when some attempt is mapped and
    the store accepts the first write, the method returns after one
    upsert of exactly these rows. *)
Theorem attempts_without_id_are_skipped :
  forall (now : string) (user_map assignment_map : gmap string string)
         (max_retries : Z) (attempts : list attempt_record)
         (s : store attempt_row),
    let sent := omap (prepare_attempt now user_map assignment_map) attempts in
    let out := sync_assignment_attempts_to_supabase now user_map assignment_map
                 max_retries attempts s in
    List.map aw_attempt sent
    = List.filter (fun a => has_id user_map (at_github_username a)
                            && has_id assignment_map (at_assignment_name a))
        attempts /\
    Forall (fun row =>
              user_map !! at_github_username (aw_attempt row)
              = Some (aw_user_id row) /\
              assignment_map !! at_assignment_name (aw_attempt row)
              = Some (aw_assignment_id row)) sent /\
    (sent = [] -> out = (s, Ok tt)) /\
    (sent <> [] -> 1 <= max_retries -> List.hd None (answers s) = None ->
     snd out = Ok tt /\
     calls (fst out)
     = calls s ++ [{| uc_table := "zzz_assignment_attempts";
                      uc_rows := sent;
                      uc_on_conflict := "user_id,assignment_id" |}]).
Proof.
  intros now user_map assignment_map max_retries attempts s sent out.
  split; [apply prepare_attempt_mapped|]. split; [|split].
  - apply Stdlib.Lists.List.Forall_forall. intros row Hrow.
    apply list_elem_of_In, list_elem_of_omap in Hrow as (a & _ & Ha).
    apply prepare_attempt_Some in Ha as (<- & _ & Hu & Hi & _). auto.
  - intros Hs. subst out. unfold sync_assignment_attempts_to_supabase.
    apply sync_without_request_aux. now left.
  - intros Hs Hmax Hhd. subst out.
    unfold sync_assignment_attempts_to_supabase, sync_to_supabase.
    fold sent. destruct attempts as [|a attempts]; [now contradiction Hs|].
    destruct sent as [|row sent']; [contradiction|].
    unfold upsert_with_retry.
    rewrite (retry_from_success "zzz_assignment_attempts" "user_id,assignment_id"
               "assignment attempts" max_retries (row :: sent') []
               _ 0 s (answers s)); auto; simpl; lia.
Qed.

(** ** Invariants of the reconciler *)

Lemma strip_str_idempotent s : strip_str (strip_str s) = strip_str s.
Proof. unfold strip_str. now rewrite chars_str, strip_idempotent. Qed.

Lemma grows_refl r : grows r r.
Proof. repeat split; auto. Qed.

Lemma grows_trans r1 r2 r3 : grows r1 r2 -> grows r2 r3 -> grows r1 r3.
Proof. intros (A1 & B1 & C1 & D1) (A2 & B2 & C2 & D2). repeat split; auto. Qed.

Lemma attempt_consistent_grows r r' a :
  grows r r' -> attempt_consistent r a -> attempt_consistent r' a.
Proof.
  intros (A & B & C & D) (Ha & Hb & Hc & Hd & He). repeat split; auto.
Qed.

Lemma add_student_grows record r : grows r (add_student_if_absent record r).
Proof.
  unfold add_student_if_absent.
  destruct (students_with_repo_info r !! sa_github_username record) eqn:E;
    [apply grows_refl|].
  repeat split; simpl; auto. intros u [x Hx].
  destruct (decide (sa_github_username record = u)) as [->|Hne].
  - rewrite lookup_insert_eq. eauto.
  - rewrite lookup_insert_ne by exact Hne. eauto.
Qed.

Lemma insert_is_Some {K : Type} `{Countable K} {V : Type} (m : gmap K V) k v k' :
  is_Some (m !! k') -> is_Some (<[k := v]> m !! k').
Proof.
  intros Hs. destruct (decide (k = k')) as [->|Hne].
  - rewrite lookup_insert_eq. eauto.
  - now rewrite lookup_insert_ne.
Qed.

Section InvariantFacts.

Variable fromisoformat : string -> option datetime.
Variable world : Type.
Variable gh_api_repo : string -> world -> world * option repo_info.
Variable gh_api_runs : string -> world -> world * option workflow_info.

Abbreviation students_consistent r :=
  (map_Forall (aggregate_consistent fromisoformat) (students_with_repo_info r)).

Abbreviation attempts_consistent r :=
  (Forall (attempt_consistent r) (assignment_attempts r)).

Lemma add_student_consistent record r :
  aggregate_consistent fromisoformat (sa_github_username record) record ->
  students_consistent r ->
  students_consistent (add_student_if_absent record r).
Proof.
  intros Hrec Hr. unfold add_student_if_absent.
  destruct (students_with_repo_info r !! sa_github_username record) eqn:E;
    [exact Hr|].
  simpl. now apply map_Forall_insert_2.
Qed.

Lemma add_student_attempts_eq record r :
  assignment_attempts (add_student_if_absent record r) = assignment_attempts r.
Proof. unfold add_student_if_absent. now destruct (_ !! _). Qed.

Lemma add_student_attempts record r :
  attempts_consistent r -> attempts_consistent (add_student_if_absent record r).
Proof.
  intros H. rewrite add_student_attempts_eq. eapply Forall_impl; [exact H|].
  intros a. apply attempt_consistent_grows, add_student_grows.
Qed.

Lemma add_student_info record r :
  assignment_info (add_student_if_absent record r) = assignment_info r.
Proof. unfold add_student_if_absent. now destruct (_ !! _). Qed.

Lemma without_fork_consistent raw :
  aggregate_consistent fromisoformat (strip_str raw)
    (student_without_fork (strip_str raw)).
Proof.
  unfold aggregate_consistent. simpl.
  split; [reflexivity|]. split; [apply strip_str_idempotent|].
  split; [auto | discriminate].
Qed.

Lemma record_fork_invariant name raw url info wf r :
  cell_truthy url = true ->
  row_invariant fromisoformat name r ->
  row_invariant fromisoformat name (record_fork fromisoformat (strip_str raw) name url info wf r).
Proof.
  intros Hurl (Hs & Ha & Hn). unfold record_fork.
  set (r1 := {| students_with_repo_info := students_with_repo_info r;
                assignment_fork_dates := _;
                assignment_fork_updated := _;
                assignment_attempts := _;
                assignment_info := assignment_info r |}).
  set (record := {| sa_github_username := strip_str raw;
                    sa_fork_created_at := _; sa_last_updated_at := _;
                    sa_resolution_time_hours := _; sa_has_fork := true |}).
  assert (Hg : grows r r1).
  { repeat split; simpl; auto; intros k; apply insert_is_Some. }
  assert (Hg2 : grows r1 (add_student_if_absent record r1))
    by apply add_student_grows.
  assert (Hme : is_Some (students_with_repo_info (add_student_if_absent record r1)
                           !! strip_str raw)).
  { pose proof (add_student_self record r1) as Hself. simpl in Hself.
    rewrite Hself. eauto. }
  split; [|split].
  - apply add_student_consistent; [|exact Hs].
    unfold aggregate_consistent. simpl.
    split; [reflexivity|]. split; [apply strip_str_idempotent|].
    split; [discriminate | reflexivity].
  - rewrite add_student_attempts_eq. subst r1. cbn [assignment_attempts].
    assert (Hold : Forall (attempt_consistent (add_student_if_absent record
                     {| students_with_repo_info := students_with_repo_info r;
                        assignment_fork_dates :=
                          <[(strip_str raw, name) := created_at info]>
                            (assignment_fork_dates r);
                        assignment_fork_updated :=
                          <[(strip_str raw, name) := updated_at info]>
                            (assignment_fork_updated r);
                        assignment_attempts :=
                          match wf with
                          | Some w =>
                              assignment_attempts r ++
                              [{| at_github_username := strip_str raw;
                                  at_assignment_name := name;
                                  at_repo_url := url;
                                  at_total_attempts := wf_total_attempts w;
                                  at_successful_attempts := wf_successful_attempts w;
                                  at_failed_attempts := wf_failed_attempts w;
                                  at_first_attempt_at := wf_first_attempt_at w;
                                  at_last_attempt_at := wf_last_attempt_at w;
                                  at_fork_created_at := created_at info;
                                  at_fork_updated_at := updated_at info |}]
                          | None => assignment_attempts r
                          end;
                        assignment_info := assignment_info r |}))
                   (assignment_attempts r)).
    { eapply Forall_impl; [exact Ha|]. intros a Hc.
      eapply attempt_consistent_grows; [|exact Hc].
      eapply grows_trans; [exact Hg | exact Hg2]. }
    destruct wf as [w|]; [|exact Hold].
    apply Forall_app. split; [exact Hold|]. constructor; [|constructor].
    unfold attempt_consistent. cbn [at_github_username at_assignment_name at_repo_url].
    split; [|split; [|split; [|split]]].
    + exact Hme.
    + apply Hg2. simpl. rewrite lookup_insert_eq. eauto.
    + apply Hg2. simpl. rewrite lookup_insert_eq. eauto.
    + rewrite add_student_info. exact Hn.
    + exact Hurl.
  - rewrite add_student_info. exact Hn.
Qed.

Lemma without_fork_invariant name raw r :
  row_invariant fromisoformat name r ->
  row_invariant fromisoformat name
    (add_student_if_absent (student_without_fork (strip_str raw)) r).
Proof.
  intros (Hs & Ha & Hn). split; [|split].
  - apply add_student_consistent; [apply without_fork_consistent | exact Hs].
  - now apply add_student_attempts.
  - now rewrite add_student_info.
Qed.

Lemma process_row_invariant name st row :
  row_invariant fromisoformat name (fst st) ->
  row_invariant fromisoformat name
    (fst (process_row fromisoformat world gh_api_repo gh_api_runs name st row)).
Proof.
  destruct st as [r w]. simpl. intros H. unfold process_row.
  destruct (cell_truthy _) eqn:Hurl; [|exact H].
  destruct (get_repository_info _ _ _ w) as [w1 [info|]];
    destruct (get_workflow_runs _ _ _ w1) as [w2 wf]; simpl.
  - destruct (is_fork info); simpl.
    + now apply record_fork_invariant.
    + now apply without_fork_invariant.
  - now apply without_fork_invariant.
Qed.

Lemma process_rows_invariant name rows st :
  row_invariant fromisoformat name (fst st) ->
  row_invariant fromisoformat name
    (fst (process_rows fromisoformat world gh_api_repo gh_api_runs name rows st)).
Proof.
  unfold process_rows. revert st.
  induction rows as [|row rows IH]; intros st H; simpl; [exact H|].
  apply IH. now apply process_row_invariant.
Qed.

Lemma process_rows_info name rows st :
  assignment_info
    (fst (process_rows fromisoformat world gh_api_repo gh_api_runs name rows st))
  = assignment_info (fst st).
Proof.
  unfold process_rows. revert st.
  induction rows as [|row rows IH]; intros st; simpl; [reflexivity|].
  rewrite IH. destruct st as [r w]. unfold process_row.
  destruct (cell_truthy _); [|reflexivity].
  destruct (get_repository_info _ _ _ w) as [w1 [info|]];
    destruct (get_workflow_runs _ _ _ w1) as [w2 wf]; simpl;
    [destruct (is_fork info); simpl|]; unfold record_fork;
    now rewrite add_student_info.
Qed.

Lemma process_assignment_invariant st a :
  students_consistent (fst st) /\ attempts_consistent (fst st) ->
  students_consistent
    (fst (process_assignment fromisoformat world gh_api_repo gh_api_runs st a)) /\
  attempts_consistent
    (fst (process_assignment fromisoformat world gh_api_repo gh_api_runs st a)).
Proof.
  intros [Hs Ha]. unfold process_assignment.
  destruct a as [assignment_name [[|row rows]|]]; auto.
  destruct (format_assignment_name assignment_name) as [name|]; auto.
  assert (H : row_invariant fromisoformat name
                (fst (add_assignment_info name (row :: rows) (fst st), snd st))).
  { split; [exact Hs|]. split.
    - simpl. eapply Forall_impl; [exact Ha|]. intros a.
      apply attempt_consistent_grows. repeat split; simpl; auto.
      intros n Hn. rewrite map_app, in_app_iff. now left.
    - simpl. rewrite map_app, in_app_iff. right. now left. }
  apply (process_rows_invariant name (row :: rows)) in H.
  destruct H as (H1 & H2 & _). auto.
Qed.

Lemma process_assignment_info st a :
  assignment_info
    (fst (process_assignment fromisoformat world gh_api_repo gh_api_runs st a))
  = assignment_info (fst st)
    ++ match a with
       | (assignment_name, Some (row :: rows)) =>
           match format_assignment_name assignment_name with
           | Ok name =>
               [(name, resolve_points_available
                         (Some (List.map csv_points_available (row :: rows)))
                         name)]
           | Raise _ => []
           end
       | _ => []
       end.
Proof.
  unfold process_assignment.
  destruct a as [assignment_name [[|row rows]|]]; try now rewrite app_nil_r.
  destruct (format_assignment_name assignment_name) as [name|];
    [|now rewrite app_nil_r].
  now rewrite process_rows_info.
Qed.

Lemma reconcile_invariant assignments st :
  students_consistent (fst st) /\ attempts_consistent (fst st) ->
  students_consistent
    (fst (fold_left (process_assignment fromisoformat world gh_api_repo gh_api_runs)
            assignments st)) /\
  attempts_consistent
    (fst (fold_left (process_assignment fromisoformat world gh_api_repo gh_api_runs)
            assignments st)).
Proof.
  revert st. induction assignments as [|a assignments IH]; intros st H; simpl;
    [exact H|].
  apply IH. now apply process_assignment_invariant.
Qed.

End InvariantFacts.

(** In every run, whatever the GitHub side answers, each Student
    aggregate is stored under its own username, which is stripped; an
    aggregate without a fork has no timestamps and no resolution time,
    and an aggregate with a fork has the resolution time of its two
    timestamps. *)
Theorem reconcile_students_consistent :
  forall (fromisoformat : string -> option datetime) (world : Type)
         (gh_api_repo : string -> world -> world * option repo_info)
         (gh_api_runs : string -> world -> world * option workflow_info)
         (assignments : list (string * option (list csv_row))) (w : world)
         (username : string) (x : student_aggregate),
    students_with_repo_info
      (fst (reconcile fromisoformat world gh_api_repo gh_api_runs assignments w))
      !! username = Some x ->
    aggregate_consistent fromisoformat username x.
Proof.
  intros fromisoformat world gh_api_repo gh_api_runs assignments w username x H.
  destruct (reconcile_invariant fromisoformat world gh_api_repo gh_api_runs
              assignments (empty_reconciler, w)) as [Hs _].
  - split; [apply map_Forall_empty | constructor].
  - exact (Hs username x H).
Qed.

Lemma reconcile_students_consistent_witness :
  exists x,
    students_with_repo_info
      (fst (reconcile Iso.fromisoformat unit scenario_repo scenario_runs
              scenario tt)) !! "bob" = Some x /\
    sa_resolution_time_hours x = Some 47 /\
    aggregate_consistent Iso.fromisoformat "bob" x.
Proof.
  eexists. split; [vm_compute; reflexivity|]. split; [reflexivity|].
  apply (reconcile_students_consistent Iso.fromisoformat unit scenario_repo
           scenario_runs scenario tt).
  vm_compute. reflexivity.
Defined.

(** In every run each recorded attempt belongs to a student who has an
    aggregate and to an assignment that is in [assignment_info], the
    fork dates of the pair are recorded, and the attempt has a
    repository URL: no attempt is recorded for a student or an
    assignment that the run does not also hand to the sync. *)
Theorem reconcile_attempts_consistent :
  forall (fromisoformat : string -> option datetime) (world : Type)
         (gh_api_repo : string -> world -> world * option repo_info)
         (gh_api_runs : string -> world -> world * option workflow_info)
         (assignments : list (string * option (list csv_row))) (w : world),
    let r := fst (reconcile fromisoformat world gh_api_repo gh_api_runs
                    assignments w) in
    Forall (attempt_consistent r) (assignment_attempts r).
Proof.
  intros fromisoformat world gh_api_repo gh_api_runs assignments w r.
  destruct (reconcile_invariant fromisoformat world gh_api_repo gh_api_runs
              assignments (empty_reconciler, w)) as [_ Ha]; [|exact Ha].
  split; [apply map_Forall_empty | constructor].
Qed.

Section InfoFacts.

Variable fromisoformat : string -> option datetime.
Variable world : Type.
Variable gh_api_repo : string -> world -> world * option repo_info.
Variable gh_api_runs : string -> world -> world * option workflow_info.

Lemma resolve_points_available_nonzero col key v :
  resolve_points_available col key = Some v -> v <> 0.
Proof.
  unfold resolve_points_available. destruct col as [col|]; [|discriminate].
  destruct (series_max col) as [m|] eqn:Em.
  - destruct (m =? 0) eqn:E0; [|intros [= <-]; now apply Z.eqb_neq].
    destruct (non_zero_points col) as [|p ps] eqn:Ep.
    + destruct (PyStr.contains _ _); [intros [= <-]; lia | discriminate].
    + intros [= <-].
      assert (Hin : In p (non_zero_points col)) by (rewrite Ep; now left).
      unfold non_zero_points in Hin.
      apply list_elem_of_In, list_elem_of_omap in Hin as ([q|] & _ & Hq);
        [|discriminate].
      destruct (0 <? q) eqn:Hpos; [|discriminate].
      injection Hq as ->. apply Z.ltb_lt in Hpos. lia.
  - destruct (non_zero_points col) as [|p ps] eqn:Ep.
    + destruct (PyStr.contains _ _); [intros [= <-]; lia | discriminate].
    + intros [= <-].
      assert (Hin : In p (non_zero_points col)) by (rewrite Ep; now left).
      unfold non_zero_points in Hin.
      apply list_elem_of_In, list_elem_of_omap in Hin as ([q|] & _ & Hq);
        [|discriminate].
      destruct (0 <? q) eqn:Hpos; [|discriminate].
      injection Hq as ->. apply Z.ltb_lt in Hpos. lia.
Qed.

Lemma fold_assignment_info assignments st :
  List.map fst
    (assignment_info
       (fst (fold_left (process_assignment fromisoformat world gh_api_repo gh_api_runs)
               assignments st)))
  = List.map fst (assignment_info (fst st)) ++ omap recorded_key assignments /\
  (Forall (fun e => snd e <> Some 0) (assignment_info (fst st)) ->
   Forall (fun e => snd e <> Some 0)
     (assignment_info
        (fst (fold_left (process_assignment fromisoformat world gh_api_repo gh_api_runs)
                assignments st)))).
Proof.
  revert st. induction assignments as [|a assignments IH]; intros st.
  - simpl. now rewrite app_nil_r.
  - cbn [fold_left]. destruct (IH (process_assignment fromisoformat world
                                     gh_api_repo gh_api_runs st a)) as [IH1 IH2].
    rewrite process_assignment_info in IH1, IH2. split.
    + rewrite IH1, map_app, <- app_assoc. f_equal.
      cbn [omap list_omap]. unfold recorded_key at 2.
      destruct a as [assignment_name [[|row rows]|]]; try reflexivity.
      destruct (format_assignment_name assignment_name); reflexivity.
    + intros H. apply IH2. apply Forall_app. split; [exact H|].
      destruct a as [assignment_name [[|row rows]|]]; try constructor.
      destruct (format_assignment_name assignment_name) as [name|];
        constructor; [|constructor].
      cbn [snd]. intros E. now apply resolve_points_available_nonzero in E.
Qed.

End InfoFacts.

(** In every run [assignment_info] has one entry for each assignment
    whose export has a row and whose name is not empty, in the order of
    the listing and under its normalized key (two names with one key
    give two entries); the points available of an entry are never 0. *)
Theorem reconcile_assignment_info :
  forall (fromisoformat : string -> option datetime) (world : Type)
         (gh_api_repo : string -> world -> world * option repo_info)
         (gh_api_runs : string -> world -> world * option workflow_info)
         (assignments : list (string * option (list csv_row))) (w : world),
    let r := fst (reconcile fromisoformat world gh_api_repo gh_api_runs
                    assignments w) in
    List.map fst (assignment_info r) = omap recorded_key assignments /\
    Forall (fun e => snd e <> Some 0) (assignment_info r).
Proof.
  intros fromisoformat world gh_api_repo gh_api_runs assignments w r.
  destruct (fold_assignment_info fromisoformat world gh_api_repo gh_api_runs
              assignments (empty_reconciler, w)) as [H1 H2].
  split; [exact H1 | apply H2; constructor].
Qed.

(** The points available that are stored for an assignment are never 0:
    they are the greatest value of the export when that is not 0, or the
    default 100 of a key with [part-2] when no value of the export is
    positive; and nothing is stored only when no value is positive. *)
Theorem resolve_points_available_never_zero :
  forall (col : list (option Z)) (key : string),
    (forall v, resolve_points_available (Some col) key = Some v ->
               v <> 0 /\
               (In (Some v) col \/
                (v = 100 /\
                 PyStr.contains (PyStr.chars "part-2")
                   (PyStr.lower (PyStr.chars key)) = true /\
                 forall p, In (Some p) col -> p <= 0))) /\
    (resolve_points_available (Some col) key = None ->
     forall p, In (Some p) col -> p <= 0).
Proof.
  intros col key.
  assert (Hnone : non_zero_points col = [] -> forall p, In (Some p) col -> p <= 0).
  { intros E p Hp. destruct (Z.leb_spec p 0) as [|Hpos]; [assumption|].
    assert (Hin : In p (non_zero_points col)).
    { apply list_elem_of_In, list_elem_of_omap. exists (Some p).
      split; [now apply list_elem_of_In|].
      apply Z.ltb_lt in Hpos. now rewrite Hpos. }
    rewrite E in Hin. contradiction. }
  assert (Hfirst : forall p ps, non_zero_points col = p :: ps -> In (Some p) col).
  { intros p ps E.
    assert (Hin : In p (non_zero_points col)) by (rewrite E; now left).
    apply list_elem_of_In, list_elem_of_omap in Hin as ([q|] & Hq & Hq');
      [|discriminate].
    destruct (0 <? q); [|discriminate]. injection Hq' as ->.
    now apply list_elem_of_In. }
  split.
  - intros v H. split; [eapply resolve_points_available_nonzero; eauto|].
    unfold resolve_points_available in H.
    destruct (series_max col) as [m|] eqn:Em.
    + destruct (m =? 0) eqn:E0.
      * destruct (non_zero_points col) as [|p ps] eqn:Ep.
        -- destruct (PyStr.contains _ _) eqn:Ec; [|discriminate].
           injection H as <-. right. auto.
        -- injection H as <-. left. eauto.
      * injection H as <-. left. now apply series_max_greatest.
    + destruct (non_zero_points col) as [|p ps] eqn:Ep.
      * destruct (PyStr.contains _ _) eqn:Ec; [|discriminate].
        injection H as <-. right. auto.
      * injection H as <-. left. eauto.
  - intros H. unfold resolve_points_available in H.
    destruct (series_max col) as [m|] eqn:Em.
    + destruct (m =? 0); [|discriminate].
      destruct (non_zero_points col) as [|p ps] eqn:Ep; [auto | discriminate].
    + destruct (non_zero_points col) as [|p ps] eqn:Ep; [auto | discriminate].
Qed.

Lemma resolve_points_available_never_zero_witness :
  resolve_points_available (Some [Some 0; None; Some 20; Some 10]) "part-1" = Some 20 /\
  20 <> 0.
Proof.
  split; [reflexivity|].
  exact (proj1 (proj1 (resolve_points_available_never_zero
                         [Some 0; None; Some 20; Some 10] "part-1") 20 eq_refl)).
Defined.

(** ** Bounds of the percentage *)







(** A student without any grade gets an entry with total score 0, total
    possible 0, percentage 0 and no assignment completed. *)
Theorem student_without_grades_scores_zero :
  forall (fromisoformat : string -> option datetime) (db : snapshot)
         (student : student_row),
    student_grades db (st_github_username student) = [] ->
    exists x,
      leaderboard_entry_of fromisoformat db student = Ok x /\
      total_score x = 0 /\ total_possible x = 0 /\
      percentage x = 0 /\ assignments_completed x = 0.
Proof.
  intros fromisoformat db student H.
  destruct (progress_Ok db (st_github_username student)) as (s & Es & Ep).
  unfold leaderboard_entry_of. rewrite Ep, H. cbn.
  eexists. split; [reflexivity|]. repeat split.
  rewrite H in Es. simpl in Es.
  pose proof (total_system_assignments_positive db) as Hpos.
  assert (E : (s / inject_Z (total_system_assignments db) == 0)%Q).
  { rewrite Es. unfold Qdiv. apply Qmult_0_l. }
  now rewrite E.
Qed.

Lemma student_without_grades_scores_zero_witness :
  exists x,
    leaderboard_entry_of Iso.fromisoformat one_of_four
      {| st_github_username := "hal";
         st_fork_created_at := None;
         st_last_updated_at := None;
         st_has_fork := None |} = Ok x /\
    total_score x = 0 /\ total_possible x = 0 /\
    percentage x = 0 /\ assignments_completed x = 0.
Proof.
  apply student_without_grades_scores_zero. reflexivity.
Defined.

(** ** Batches and writes of the leaderboard *)

Lemma batches_aux_shape {A : Type} fuel n (l : list A) :
  (0 < n)%nat ->
  Forall (fun b => b <> [] /\ (length b <= n)%nat) (batches_aux fuel n l).
Proof.
  intros Hn. revert l. induction fuel as [|fuel IH]; intros l; [constructor|].
  destruct l as [|a l]; [constructor|].
  cbn [batches_aux]. constructor; [|apply IH]. split.
  - destruct n; [lia | discriminate].
  - rewrite length_firstn. lia.
Qed.

(** The batches of the leaderboard write cut the entries without losing
    or repeating any: put one after the other they give the list back;
    no batch is empty and none has more than [batch_size] entries. *)
Theorem batches_partition :
  forall (A : Type) (batch_size : nat) (l : list A),
    (0 < batch_size)%nat ->
    concat (batches batch_size l) = l /\
    Forall (fun b => b <> [] /\ (length b <= batch_size)%nat)
      (batches batch_size l).
Proof.
  intros A batch_size l Hn. split.
  - now apply batches_concat.
  - now apply batches_aux_shape.
Qed.

Lemma batches_partition_witness :
  (0 < 10)%nat /\
  List.map (@length nat) (batches 10 (seq 0 25)) = [10; 10; 5]%nat /\
  concat (batches 10 (seq 0 25)) = seq 0 25.
Proof.
  split; [lia|]. split; [reflexivity|].
  exact (proj1 (batches_partition nat 10 (seq 0 25) ltac:(lia))).
Defined.

Section WriteFacts.

Lemma write_batch_upserts o t batch :
  (forall x, upsert_raises o x = false) ->
  write_batch o t batch = fold_left put_row batch t.
Proof.
  intros Hu. unfold write_batch, table_insert.
  destruct (insert_raises o batch); [now apply upserts_obliging|].
  destruct (insert_rows batch t) as [t'|] eqn:E;
    [now apply insert_rows_Some | now apply upserts_obliging].
Qed.

Lemma write_batches_upserts o t (bs : list (list leaderboard_entry)) :
  (forall x, upsert_raises o x = false) ->
  fold_left (write_batch o) bs t = fold_left put_row (concat bs) t.
Proof.
  intros Hu. revert t. induction bs as [|b bs IH]; intros t; simpl;
    [reflexivity|].
  rewrite write_batch_upserts by exact Hu. rewrite IH.
  now rewrite fold_left_app.
Qed.

Lemma put_rows_stored (rows : list leaderboard_entry) (t : leaderboard_table) x :
  NoDup (List.map github_username rows) -> In x rows ->
  fold_left put_row rows t !! github_username x = Some x.
Proof.
  revert t. induction rows as [|y rows IH]; intros t Hnd Hin; [contradiction|].
  simpl in Hnd. apply NoDup_cons in Hnd as [Hy Hnd]. simpl.
  destruct Hin as [->|Hin]; [|now apply IH].
  rewrite put_rows_other by (now rewrite <- list_elem_of_In).
  apply lookup_insert_eq.
Qed.

(** The last row of each username wins, the rest of the table stays. *)
Lemma put_rows_twice (rows : list leaderboard_entry) (t : leaderboard_table) :
  fold_left put_row rows (fold_left put_row rows t) = fold_left put_row rows t.
Proof.
  apply map_eq. intros u.
  assert (G : forall (t1 t2 : leaderboard_table),
             (In u (List.map github_username rows) \/ t1 !! u = t2 !! u) ->
             fold_left put_row rows t1 !! u = fold_left put_row rows t2 !! u).
  { clear t. induction rows as [|y rows IH]; intros t1 t2 H; simpl.
    - destruct H as [[]|H]. exact H.
    - apply IH. unfold put_row.
      destruct (decide (github_username y = u)) as [->|Hne].
      + right. now rewrite !lookup_insert_eq.
      + rewrite !lookup_insert_ne by exact Hne.
        destruct H as [[H|H]|H]; [contradiction | now left | now right]. }
  apply G.
  destruct (in_dec string_dec u (List.map github_username rows)) as [Hin|Hnot];
    [now left|].
  right. now apply put_rows_other.
Qed.

Lemma upserts_stored o (rows : list leaderboard_entry) (t : leaderboard_table) x :
  NoDup (List.map github_username rows) -> In x rows ->
  fold_left (fun t x => default t (table_upsert o x t)) rows t
    !! github_username x
  = if upsert_raises o x then t !! github_username x else Some x.
Proof.
  revert t. induction rows as [|y rows IH]; intros t Hnd Hin; [contradiction|].
  simpl in Hnd. apply NoDup_cons in Hnd as [Hy Hnd]. simpl.
  destruct Hin as [->|Hin].
  - rewrite upserts_other by (now rewrite <- list_elem_of_In).
    unfold table_upsert. destruct (upsert_raises o x); simpl; [reflexivity|].
    apply lookup_insert_eq.
  - rewrite IH by assumption.
    destruct (upsert_raises o x); [|reflexivity].
    unfold table_upsert. destruct (upsert_raises o y); simpl; [reflexivity|].
    unfold put_row. apply lookup_insert_ne.
    intros E. apply Hy. rewrite E. apply list_elem_of_In. now apply in_map.
Qed.

End WriteFacts.

(** When the insert of a batch is refused, each of its entries is
    upserted on its own: an entry whose upsert is accepted is in the
    table afterwards, and a refused one leaves the row of its username
    as it was, without stopping the others. *)
Theorem failed_batch_falls_back_to_upserts :
  forall (o : store_outcomes) (t : leaderboard_table)
         (batch : list leaderboard_entry) (x : leaderboard_entry),
    table_insert o batch t = None ->
    NoDup (List.map github_username batch) ->
    In x batch ->
    write_batch o t batch !! github_username x
    = if upsert_raises o x then t !! github_username x else Some x.
Proof.
  intros o t batch x Hi Hnd Hin. unfold write_batch. rewrite Hi.
  now apply upserts_stored.
Qed.

Lemma failed_batch_falls_back_to_upserts_witness :
  table_insert refusing_batches
    [entry "ada" (Some 3) 90; entry "hal" (Some 5) 100; entry "bob" None 10]
    stale_table = None /\
  write_batch refusing_batches stale_table
    [entry "ada" (Some 3) 90; entry "hal" (Some 5) 100; entry "bob" None 10]
    !! "bob" = Some (entry "bob" None 10).
Proof.
  assert (Hi : table_insert refusing_batches
                 [entry "ada" (Some 3) 90; entry "hal" (Some 5) 100;
                  entry "bob" None 10] stale_table = None) by reflexivity.
  assert (Hnd : NoDup (List.map github_username
                 [entry "ada" (Some 3) 90; entry "hal" (Some 5) 100;
                  entry "bob" None 10])).
  { simpl. repeat constructor; rewrite ?list_elem_of_In; simpl;
      intuition discriminate. }
  split; [exact Hi|].
  exact (failed_batch_falls_back_to_upserts _ _ _ (entry "bob" None 10)
           Hi Hnd ltac:(simpl; tauto)).
Defined.

Lemma put_rows_dom (rows : list leaderboard_entry) (t : leaderboard_table) u :
  is_Some (fold_left put_row rows t !! u) <->
  In u (List.map github_username rows) \/ is_Some (t !! u).
Proof.
  revert t. induction rows as [|x rows IH]; intros t; simpl; [tauto|].
  rewrite IH. unfold put_row.
  destruct (decide (github_username x = u)) as [->|Hne].
  - rewrite lookup_insert_eq. split; [tauto|]. intros _. right. eauto.
  - rewrite lookup_insert_ne by exact Hne. tauto.
Qed.

Section RefreshFacts.

Variable fromisoformat : string -> option datetime.

Lemma leaderboard_usernames db students data :
  Forall2 (fun student x => leaderboard_entry_of fromisoformat db student = Ok x)
    students data ->
  List.map github_username data = List.map st_github_username students.
Proof.
  induction 1 as [|student x students data Hx _ IH]; [reflexivity|].
  simpl. rewrite IH. f_equal.
  unfold leaderboard_entry_of in Hx.
  destruct (progress db (st_github_username student)); [|discriminate].
  cbn in Hx. injection Hx as <-. reflexivity.
Qed.

Lemma rank_usernames data :
  Permutation (List.map github_username (rank data))
    (List.map github_username data).
Proof.
  assert (E : forall l, List.map github_username (List.map clear_position l)
                        = List.map github_username l).
  { intros l. rewrite List.map_map. now apply List.map_ext. }
  rewrite <- (E (rank data)), <- (E data).
  apply Permutation_map, rank_clear_perm.
Qed.

Lemma refresh_upserts o db t :
  zzz_students db <> [] ->
  (forall x, upsert_raises o x = false) ->
  exists ranked,
    ranked_leaderboard fromisoformat db = Ok ranked /\
    Permutation (List.map github_username ranked)
      (List.map st_github_username (zzz_students db)) /\
    refresh_admin_leaderboard fromisoformat o db t
    = (fold_left put_row ranked (if delete_raises o then t else ∅), Ok tt).
Proof.
  intros Hne Hu.
  destruct (ranked_leaderboard_total fromisoformat db) as (data & _ & Hr & Hall).
  exists (rank data). split; [exact Hr|]. split.
  - rewrite rank_usernames. now rewrite (leaderboard_usernames _ _ _ Hall).
  - unfold refresh_admin_leaderboard. rewrite Hr.
    destruct (zzz_students db); [contradiction|].
    rewrite write_batches_upserts by exact Hu.
    rewrite batches_concat by lia.
    unfold table_delete. now destruct (delete_raises o).
Qed.

End RefreshFacts.

(** When the store accepts every upsert, the refresh of a non-empty
    student table leaves one row for each username of the student
    table, whether the batch inserts are accepted or not; the other rows
    of the table are those it had before, and only when the clear was
    refused. *)
Theorem refresh_rows_are_the_students :
  forall (fromisoformat : string -> option datetime) (o : store_outcomes)
         (db : snapshot) (t : leaderboard_table),
    zzz_students db <> [] ->
    (forall x, upsert_raises o x = false) ->
    forall u,
      is_Some (fst (refresh_admin_leaderboard fromisoformat o db t) !! u) <->
      In u (List.map st_github_username (zzz_students db)) \/
      (delete_raises o = true /\ is_Some (t !! u)).
Proof.
  intros fromisoformat o db t Hne Hu u.
  destruct (refresh_upserts fromisoformat o db t Hne Hu) as (ranked & _ & Hp & ->).
  cbn [fst]. rewrite put_rows_dom.
  assert (Hin : In u (List.map github_username ranked) <->
                In u (List.map st_github_username (zzz_students db))).
  { split; apply Permutation_in; [exact Hp | now symmetry]. }
  rewrite Hin. destruct (delete_raises o).
  - tauto.
  - rewrite lookup_empty. split.
    + intros [H|[x Hx]]; [tauto | discriminate Hx].
    + intros [H|[H _]]; [tauto | discriminate H].
Qed.

Lemma refresh_rows_are_the_students_witness :
  zzz_students one_of_four <> [] /\
  (forall x, upsert_raises refusing_inserts x = false) /\
  is_Some (fst (refresh_admin_leaderboard Iso.fromisoformat refusing_inserts
                  one_of_four stale_table) !! "satoshi").
Proof.
  assert (Hne : zzz_students one_of_four <> []) by discriminate.
  assert (Hu : forall x, upsert_raises refusing_inserts x = false)
    by (intros; reflexivity).
  split; [exact Hne|]. split; [exact Hu|].
  apply (refresh_rows_are_the_students Iso.fromisoformat refusing_inserts
           one_of_four stale_table Hne Hu "satoshi").
  left. simpl. tauto.
Defined.

(** When the store accepts every upsert, a second refresh of the same
    snapshot changes nothing: the table after two refreshes is the table
    after one, with or without an accepted clear. *)
Theorem refresh_twice :
  forall (fromisoformat : string -> option datetime) (o : store_outcomes)
         (db : snapshot) (t : leaderboard_table),
    (forall x, upsert_raises o x = false) ->
    refresh_admin_leaderboard fromisoformat o db
      (fst (refresh_admin_leaderboard fromisoformat o db t))
    = refresh_admin_leaderboard fromisoformat o db t.
Proof.
  intros fromisoformat o db t Hu.
  destruct (zzz_students db) as [|student students] eqn:Hs.
  - unfold refresh_admin_leaderboard. now rewrite Hs.
  - assert (Hne : zzz_students db <> []) by (rewrite Hs; discriminate).
    destruct (refresh_upserts fromisoformat o db t Hne Hu)
      as (ranked & Hr & _ & Ht).
    rewrite Ht. cbn [fst].
    destruct (refresh_upserts fromisoformat o db
                (fold_left put_row ranked (if delete_raises o then t else ∅))
                Hne Hu) as (ranked' & Hr' & _ & Ht').
    rewrite Ht'. rewrite Hr in Hr'. injection Hr' as <-.
    f_equal. destruct (delete_raises o); [|reflexivity].
    apply put_rows_twice.
Qed.

Lemma refresh_twice_witness :
  (forall x, upsert_raises refusing_inserts x = false) /\
  refresh_admin_leaderboard Iso.fromisoformat refusing_inserts one_of_four
    (fst (refresh_admin_leaderboard Iso.fromisoformat refusing_inserts
            one_of_four stale_table))
  = refresh_admin_leaderboard Iso.fromisoformat refusing_inserts one_of_four
      stale_table.
Proof.
  assert (Hu : forall x, upsert_raises refusing_inserts x = false)
    by (intros; reflexivity).
  split; [exact Hu|].
  exact (refresh_twice Iso.fromisoformat refusing_inserts one_of_four
           stale_table Hu).
Defined.

(** ** Resolution time, the two timestamps exchanged *)

(** [int()] truncates toward zero, so the resolution time of the two
    timestamps exchanged is the opposite number: a last update that is
    less than an hour before or after the creation gives 0 both ways. *)
Theorem resolution_time_exchanged :
  forall (fromisoformat : string -> option datetime)
         (created_at updated_at : option string) (h : Z),
    calculate_resolution_time fromisoformat created_at updated_at = Some h ->
    calculate_resolution_time fromisoformat updated_at created_at = Some (- h).
Proof.
  intros fromisoformat created_at updated_at h H.
  apply calculate_resolution_time_Some in H
    as (Hc & Hu & c & u & created & updated & -> & -> & Pc & Pu & Ha & ->).
  rewrite (calculate_resolution_time_parsed fromisoformat u c updated created)
    by auto.
  f_equal. rewrite <- Z.quot_opp_l by lia. f_equal. lia.
Qed.

Lemma resolution_time_exchanged_witness :
  calculate_resolution_time Iso.fromisoformat
    (Some "2025-01-01T10:00:00Z") (Some "2025-01-01T12:30:00Z") = Some 2 /\
  calculate_resolution_time Iso.fromisoformat
    (Some "2025-01-01T12:30:00Z") (Some "2025-01-01T10:00:00Z") = Some (-2).
Proof.
  assert (H : calculate_resolution_time Iso.fromisoformat
                (Some "2025-01-01T10:00:00Z") (Some "2025-01-01T12:30:00Z")
              = Some 2) by (vm_compute; reflexivity).
  split; [exact H|].
  exact (resolution_time_exchanged Iso.fromisoformat _ _ 2 H).
Defined.

(** ** The start of a run *)

Section RunFacts.

Lemma name_with_space_unlisted gh classroom_name id c :
  In c (PyStr.chars classroom_name) -> PyStr.isspace c = true ->
  get_classroom_id gh classroom_name <> Returned (Some id).
Proof.
  intros Hin Hc H.
  destruct (get_classroom_id_found _ _ _ H) as (output & line & rest & _ & _ & Hw).
  pose proof (split_ws_words line) as Hwords. rewrite Hw in Hwords.
  apply Forall_cons in Hwords as [_ Hwords].
  apply Forall_cons in Hwords as [[_ Hnames] _].
  rewrite Stdlib.Lists.List.Forall_forall in Hnames.
  specialize (Hnames c Hin). congruence.
Qed.

Lemma get_assignments_Returned gh l :
  get_assignments gh = Returned l ->
  exists output, gh = Returned output /\ _parse_assignments_list output = Ok l.
Proof.
  unfold get_assignments. destruct gh as [output|]; [|discriminate].
  destruct (_parse_assignments_list output) as [l'|e] eqn:E;
    [|destruct e; discriminate].
  intros [= ->]. eauto.
Qed.

End RunFacts.

(** The assignments that a run hands to the processing step come from
    the listing of the classroom whose id the classroom listing gives
    for the configured name: that listing parsed to a non-empty list,
    and the assignments handed over are all of it, or, when an
    assignment id is configured, those with that id, in the order of the
    listing. *)
Theorem run_sync_processes_listed_assignments :
  forall (assignment_id : option string) (classroom_name : string)
         (gh_classroom_list : gh_outcome string)
         (gh_classroom_assignments : string -> gh_outcome string)
         (l : list (string * string * string)),
    assignments_to_process assignment_id classroom_name gh_classroom_list
      gh_classroom_assignments = Returned (Some l) ->
    exists classroom_id output listed,
      get_classroom_id gh_classroom_list classroom_name
      = Returned (Some classroom_id) /\
      gh_classroom_assignments classroom_id = Returned output /\
      _parse_assignments_list output = Ok listed /\
      listed <> [] /\
      l = match assignment_id with
          | None | Some EmptyString => listed
          | Some id =>
              List.filter (fun a => String.eqb (fst (fst a)) id) listed
          end.
Proof.
  intros assignment_id classroom_name gl gas l. unfold assignments_to_process.
  destruct (get_classroom_id gl classroom_name) as [[[|c id]|]|] eqn:Hid;
    try discriminate.
  destruct (get_assignments (gas (String c id))) as [[|a listed]|] eqn:Hg;
    try discriminate.
  apply get_assignments_Returned in Hg as (output & Ho & Hp).
  intros H. exists (String c id), output, (a :: listed).
  split; [reflexivity|]. split; [exact Ho|]. split; [exact Hp|].
  split; [discriminate|].
  destruct assignment_id as [[|c' id']|]; now injection H as <-.
Qed.

Lemma run_sync_processes_listed_assignments_witness :
  assignments_to_process (Some "102") "B4OS-2025" (Returned classroom_listing)
    (fun _ => Returned assignment_listing)
  = Returned (Some [("102", "Part 2", "B4OS-Dev/part-2")]) /\
  exists classroom_id output listed,
    get_classroom_id (Returned classroom_listing) "B4OS-2025"
    = Returned (Some classroom_id) /\
    Returned (A := string) assignment_listing = Returned output /\
    _parse_assignments_list output = Ok listed /\
    listed <> [] /\
    [("102", "Part 2", "B4OS-Dev/part-2")]
    = List.filter (fun a => String.eqb (fst (fst a)) "102") listed.
Proof.
  assert (H : assignments_to_process (Some "102") "B4OS-2025"
                (Returned classroom_listing)
                (fun _ => Returned assignment_listing)
              = Returned (Some [("102", "Part 2", "B4OS-Dev/part-2")]))
    by (vm_compute; reflexivity).
  split; [exact H|].
  exact (run_sync_processes_listed_assignments _ _ _ _ _ H).
Defined.

(** A run configured with a classroom name that holds a whitespace
    character ends with [GitHubCLIError] whatever the listings say, and
    never asks for the assignments of a classroom. *)
Theorem run_sync_name_with_space_raises :
  forall (assignment_id : option string) (classroom_name : string)
         (gh_classroom_list : gh_outcome string)
         (gh_classroom_assignments : string -> gh_outcome string),
    (exists c, In c (PyStr.chars classroom_name) /\ PyStr.isspace c = true) ->
    (exists msg,
        assignments_to_process assignment_id classroom_name gh_classroom_list
          gh_classroom_assignments = GitHubCLIError msg) /\
    forall other_assignments,
      assignments_to_process assignment_id classroom_name gh_classroom_list
        other_assignments
      = assignments_to_process assignment_id classroom_name gh_classroom_list
          gh_classroom_assignments.
Proof.
  intros assignment_id classroom_name gl gas (c & Hin & Hc).
  unfold assignments_to_process.
  destruct (get_classroom_id gl classroom_name) as [[[|c' id]|]|] eqn:Hid;
    try (split; [eexists|]; reflexivity).
  exfalso. exact (name_with_space_unlisted _ _ _ c Hin Hc Hid).
Qed.

Lemma run_sync_name_with_space_raises_witness :
  (exists c, In c (PyStr.chars "B4OS Dev") /\ PyStr.isspace c = true) /\
  assignments_to_process None "B4OS Dev" (Returned classroom_listing)
    (fun _ => Returned assignment_listing)
  = GitHubCLIError "Classroom 'B4OS Dev' not found".
Proof.
  assert (H : exists c, In c (PyStr.chars "B4OS Dev") /\ PyStr.isspace c = true).
  { exists " "%char. split; [simpl; tauto | reflexivity]. }
  split; [exact H|].
  destruct (proj1 (run_sync_name_with_space_raises None "B4OS Dev"
                     (Returned classroom_listing)
                     (fun _ => Returned assignment_listing) H)) as [msg Hmsg].
  vm_compute. reflexivity.
Defined.

(** ** The consolidated grades *)

Section GradesFacts.

Variable fromisoformat : string -> option datetime.
Variable world : Type.
Variable gh_api_repo : string -> world -> world * option repo_info.
Variable gh_api_runs : string -> world -> world * option workflow_info.

Abbreviation process_assignment' :=
  (process_assignment fromisoformat world gh_api_repo gh_api_runs).

Lemma fork_keys_grows r r' :
  grows r r' ->
  (forall k, assignment_fork_dates r' !! k = assignment_fork_dates r !! k) ->
  (forall k, assignment_fork_updated r' !! k = assignment_fork_updated r !! k) ->
  fork_keys_consistent r -> fork_keys_consistent r'.
Proof.
  intros (A & _ & _ & D) Hd Hu H u n Hk. rewrite Hd, Hu in Hk.
  destruct (H u n Hk) as (H1 & H2 & H3). auto.
Qed.

Lemma add_student_fork_dates record r :
  assignment_fork_dates (add_student_if_absent record r) = assignment_fork_dates r.
Proof. unfold add_student_if_absent. now destruct (_ !! _). Qed.

Lemma add_student_fork_updated record r :
  assignment_fork_updated (add_student_if_absent record r)
  = assignment_fork_updated r.
Proof. unfold add_student_if_absent. now destruct (_ !! _). Qed.

Lemma add_student_fork_keys record r :
  fork_keys_consistent r -> fork_keys_consistent (add_student_if_absent record r).
Proof.
  apply fork_keys_grows; [apply add_student_grows| |]; intros k.
  - now rewrite add_student_fork_dates.
  - now rewrite add_student_fork_updated.
Qed.

Lemma record_fork_grows u name url info wf r :
  grows r (record_fork fromisoformat u name url info wf r).
Proof.
  unfold record_fork. eapply grows_trans; [|apply add_student_grows].
  repeat split; simpl; auto; intros k; apply insert_is_Some.
Qed.

Lemma record_fork_fork_keys raw name url info wf r :
  In name (List.map fst (assignment_info r)) ->
  fork_keys_consistent r ->
  fork_keys_consistent
    (record_fork fromisoformat (strip_str raw) name url info wf r).
Proof.
  intros Hn H u n Hk.
  pose proof (record_fork_grows (strip_str raw) name url info wf r)
    as (A & _ & _ & D).
  assert (Hme : is_Some (students_with_repo_info
                           (record_fork fromisoformat (strip_str raw) name url
                              info wf r) !! strip_str raw)).
  { unfold record_fork.
    match goal with
    | |- context [add_student_if_absent ?rec ?r1] =>
        pose proof (add_student_self rec r1) as Hself
    end.
    simpl in Hself. rewrite Hself. eauto. }
  assert (Hk' : (u, n) = (strip_str raw, name) \/
                is_Some (assignment_fork_dates r !! (u, n)) \/
                is_Some (assignment_fork_updated r !! (u, n))).
  { unfold record_fork in Hk.
    rewrite add_student_fork_dates, add_student_fork_updated in Hk.
    simpl in Hk.
    destruct (decide ((strip_str raw, name) = (u, n))) as [E|Hne];
      [now left|].
    rewrite !lookup_insert_ne in Hk by exact Hne. now right. }
  destruct Hk' as [[= -> ->]|Hold].
  - split; [apply strip_str_idempotent|]. split; [exact Hme|]. now apply D.
  - destruct (H u n Hold) as (H1 & H2 & H3). auto.
Qed.

Lemma process_row_grows name st row :
  grows (fst st) (fst (process_row fromisoformat world gh_api_repo gh_api_runs
                         name st row)).
Proof.
  destruct st as [r w]. unfold process_row. simpl.
  destruct (cell_truthy _); [|apply grows_refl].
  destruct (get_repository_info _ _ _ w) as [w1 [info|]];
    destruct (get_workflow_runs _ _ _ w1) as [w2 wf]; simpl.
  - destruct (is_fork info); simpl;
      [apply record_fork_grows | apply add_student_grows].
  - apply add_student_grows.
Qed.

Lemma process_row_fork_keys name st row :
  In name (List.map fst (assignment_info (fst st))) ->
  fork_keys_consistent (fst st) ->
  fork_keys_consistent
    (fst (process_row fromisoformat world gh_api_repo gh_api_runs name st row)).
Proof.
  destruct st as [r w]. unfold process_row. simpl. intros Hn H.
  destruct (cell_truthy _); [|exact H].
  destruct (get_repository_info _ _ _ w) as [w1 [info|]];
    destruct (get_workflow_runs _ _ _ w1) as [w2 wf]; simpl.
  - destruct (is_fork info); simpl;
      [now apply record_fork_fork_keys | now apply add_student_fork_keys].
  - now apply add_student_fork_keys.
Qed.

Lemma process_rows_grows name rows st :
  grows (fst st) (fst (process_rows fromisoformat world gh_api_repo gh_api_runs
                         name rows st)).
Proof.
  unfold process_rows. revert st.
  induction rows as [|row rows IH]; intros st; simpl; [apply grows_refl|].
  eapply grows_trans; [apply process_row_grows | apply IH].
Qed.

Lemma process_rows_fork_keys name rows st :
  In name (List.map fst (assignment_info (fst st))) ->
  fork_keys_consistent (fst st) ->
  fork_keys_consistent
    (fst (process_rows fromisoformat world gh_api_repo gh_api_runs name rows st)).
Proof.
  unfold process_rows. revert st.
  induction rows as [|row rows IH]; intros st Hn H; simpl; [exact H|].
  apply IH.
  - now apply (process_row_grows name st row).
  - now apply process_row_fork_keys.
Qed.

Lemma add_assignment_info_grows name rows r :
  grows r (add_assignment_info name rows r).
Proof.
  repeat split; simpl; auto. intros n Hn. rewrite map_app, in_app_iff. now left.
Qed.

Lemma process_assignment_grows st a :
  grows (fst st) (fst (process_assignment' st a)).
Proof.
  unfold process_assignment.
  destruct a as [assignment_name [[|row rows]|]]; try apply grows_refl.
  destruct (format_assignment_name assignment_name) as [name|];
    [|apply grows_refl].
  eapply grows_trans; [apply (add_assignment_info_grows name (row :: rows))|].
  apply (process_rows_grows name (row :: rows)
           (add_assignment_info name (row :: rows) (fst st), snd st)).
Qed.

Lemma process_assignment_fork_keys st a :
  fork_keys_consistent (fst st) ->
  fork_keys_consistent (fst (process_assignment' st a)).
Proof.
  intros H. unfold process_assignment.
  destruct a as [assignment_name [[|row rows]|]]; auto.
  destruct (format_assignment_name assignment_name) as [name|]; auto.
  apply process_rows_fork_keys.
  - simpl. rewrite map_app, in_app_iff. right. now left.
  - simpl. revert H.
    apply fork_keys_grows;
      [apply add_assignment_info_grows | reflexivity | reflexivity].
Qed.

Lemma fold_process_assignment_grows assignments st :
  grows (fst st) (fst (fold_left process_assignment' assignments st)).
Proof.
  revert st. induction assignments as [|a assignments IH]; intros st; simpl;
    [apply grows_refl|].
  eapply grows_trans; [apply process_assignment_grows | apply IH].
Qed.

Lemma grades_frame_dates name rows r g :
  fork_keys_consistent r ->
  In g (grades_frame name rows r) ->
  is_Some (gr_fork_created_at g) \/ is_Some (gr_fork_updated_at g) ->
  strip_str (gr_github_username g) = gr_github_username g /\
  is_Some (students_with_repo_info r !! gr_github_username g) /\
  In (gr_assignment_name g) (List.map fst (assignment_info r)).
Proof.
  intros H Hg Hd. unfold grades_frame in Hg.
  apply in_map_iff in Hg as (row & <- & _). simpl in *.
  apply (H (csv_github_username row) name).
  destruct Hd as [[d Hd]|[d Hd]]; [left | right];
    destruct (_ !! _) as [v|]; eauto; discriminate.
Qed.

Lemma consolidated_grades_dates assignments st g :
  fork_keys_consistent (fst st) ->
  In g (consolidated_grades fromisoformat world gh_api_repo gh_api_runs
          assignments st) ->
  is_Some (gr_fork_created_at g) \/ is_Some (gr_fork_updated_at g) ->
  strip_str (gr_github_username g) = gr_github_username g /\
  is_Some (students_with_repo_info
             (fst (fold_left process_assignment' assignments st))
             !! gr_github_username g) /\
  In (gr_assignment_name g)
    (List.map fst (assignment_info
                     (fst (fold_left process_assignment' assignments st)))).
Proof.
  revert st. induction assignments as [|a assignments IH]; intros st H Hg Hd;
    [contradiction|].
  cbn [consolidated_grades] in Hg. apply in_app_iff in Hg as [Hg|Hg].
  - assert (Hhere :
        strip_str (gr_github_username g) = gr_github_username g /\
        is_Some (students_with_repo_info (fst (process_assignment' st a))
                   !! gr_github_username g) /\
        In (gr_assignment_name g)
          (List.map fst (assignment_info (fst (process_assignment' st a))))).
    { destruct a as [assignment_name [[|row rows]|]]; try contradiction.
      destruct (format_assignment_name assignment_name) as [name|] eqn:E;
        [|contradiction].
      eapply grades_frame_dates; [|exact Hg|exact Hd].
      now apply process_assignment_fork_keys. }
    destruct Hhere as (H1 & H2 & H3).
    pose proof (fold_process_assignment_grows assignments
                  (process_assignment' st a)) as (A & _ & _ & D).
    simpl. auto.
  - simpl. apply IH; [now apply process_assignment_fork_keys | exact Hg | exact Hd].
Qed.

Lemma consolidated_grades_rows assignments st :
  List.map (fun g => (gr_github_username g, gr_assignment_name g,
                      gr_points_awarded g))
    (consolidated_grades fromisoformat world gh_api_repo gh_api_runs
       assignments st)
  = flat_map (fun a =>
                List.map (fun row =>
                            (csv_github_username row,
                             default EmptyString (recorded_key a),
                             csv_points_awarded row))
                  (recorded_rows a))
      assignments.
Proof.
  revert st. induction assignments as [|a assignments IH]; intros st;
    [reflexivity|].
  cbn [consolidated_grades flat_map]. rewrite map_app, IH. f_equal.
  unfold recorded_rows, recorded_key.
  destruct a as [assignment_name [[|row rows]|]]; try reflexivity.
  destruct (format_assignment_name assignment_name) as [name|]; [|reflexivity].
  unfold grades_frame. rewrite List.map_map. reflexivity.
Qed.

End GradesFacts.

(** A grade of the consolidated frame that carries a fork date has a
    username without surrounding whitespace, its student has an
    aggregate at the end of the run and its assignment is in
    [assignment_info].  The dates are recorded under the stripped
    username and looked up under the username of the export, so the
    grade of a username with surrounding whitespace carries no fork
    date. *)
Theorem grade_with_fork_date :
  forall (fromisoformat : string -> option datetime) (world : Type)
         (gh_api_repo : string -> world -> world * option repo_info)
         (gh_api_runs : string -> world -> world * option workflow_info)
         (assignments : list (string * option (list csv_row))) (w : world)
         (g : grade_record),
    In g (consolidated_grades fromisoformat world gh_api_repo gh_api_runs
            assignments (empty_reconciler, w)) ->
    is_Some (gr_fork_created_at g) \/ is_Some (gr_fork_updated_at g) ->
    let r := fst (reconcile fromisoformat world gh_api_repo gh_api_runs
                    assignments w) in
    strip_str (gr_github_username g) = gr_github_username g /\
    is_Some (students_with_repo_info r !! gr_github_username g) /\
    In (gr_assignment_name g) (List.map fst (assignment_info r)).
Proof.
  intros fromisoformat world gh_api_repo gh_api_runs assignments w g Hg Hd r.
  subst r. unfold reconcile.
  apply consolidated_grades_dates; [|exact Hg|exact Hd].
  intros u n [[x Hx]|[x Hx]]; simpl in Hx; rewrite lookup_empty in Hx;
    discriminate.
Qed.

Lemma grade_with_fork_date_witness :
  consolidated_grades Iso.fromisoformat unit fork_then_plain_repo scenario_runs
    fork_then_plain (empty_reconciler, tt)
  = [{| gr_github_username := "hal"; gr_assignment_name := "part-1";
        gr_points_awarded := Some 50;
        gr_fork_created_at := Some "2024-01-01T01:00:00Z";
        gr_fork_updated_at := Some "2024-01-03T00:30:00Z" |};
     {| gr_github_username := "hal"; gr_assignment_name := "part-2";
        gr_points_awarded := Some 50;
        gr_fork_created_at := None;
        gr_fork_updated_at := None |}] /\
  strip_str "hal" = "hal" /\
  consolidated_grades Iso.fromisoformat unit fork_then_plain_repo scenario_runs
    padded_username (empty_reconciler, tt)
  = [{| gr_github_username := "hal "; gr_assignment_name := "part-1";
        gr_points_awarded := Some 50;
        gr_fork_created_at := None;
        gr_fork_updated_at := None |}].
Proof.
  assert (E : consolidated_grades Iso.fromisoformat unit fork_then_plain_repo
                scenario_runs fork_then_plain (empty_reconciler, tt)
              = [{| gr_github_username := "hal"; gr_assignment_name := "part-1";
                    gr_points_awarded := Some 50;
                    gr_fork_created_at := Some "2024-01-01T01:00:00Z";
                    gr_fork_updated_at := Some "2024-01-03T00:30:00Z" |};
                 {| gr_github_username := "hal"; gr_assignment_name := "part-2";
                    gr_points_awarded := Some 50;
                    gr_fork_created_at := None;
                    gr_fork_updated_at := None |}])
    by (vm_compute; reflexivity).
  split; [exact E|]. split; [|vm_compute; reflexivity].
  refine (proj1 (grade_with_fork_date Iso.fromisoformat unit fork_then_plain_repo
                   scenario_runs fork_then_plain tt
                   {| gr_github_username := "hal"; gr_assignment_name := "part-1";
                      gr_points_awarded := Some 50;
                      gr_fork_created_at := Some "2024-01-01T01:00:00Z";
                      gr_fork_updated_at := Some "2024-01-03T00:30:00Z" |}
                   _ _)).
  - rewrite E. left. reflexivity.
  - left. simpl. eauto.
Defined.

(** No grade is lost on the way to the consolidated frame: it has one
    row for each row of the export of each processed assignment, in
    order, with the username of the export, the key of the assignment
    and the points awarded, whatever the repositories of the students
    are. *)
Theorem consolidated_grades_keep_every_row :
  forall (fromisoformat : string -> option datetime) (world : Type)
         (gh_api_repo : string -> world -> world * option repo_info)
         (gh_api_runs : string -> world -> world * option workflow_info)
         (assignments : list (string * option (list csv_row)))
         (st : reconciler * world),
    List.map (fun g => (gr_github_username g, gr_assignment_name g,
                        gr_points_awarded g))
      (consolidated_grades fromisoformat world gh_api_repo gh_api_runs
         assignments st)
    = flat_map (fun a =>
                  List.map (fun row =>
                              (csv_github_username row,
                               default EmptyString (recorded_key a),
                               csv_points_awarded row))
                    (recorded_rows a))
        assignments.
Proof.
  intros. apply consolidated_grades_rows.
Qed.
